(** * Verification of the video-to-JSON transcription service

    Shallow embedding of [workana_video_transcriber.py] and [app.py].

    - Python [str] values are sequences of Unicode code points.
    - Python [float] values are IEEE-754 binary64 numbers, represented by
      the executable specification [spec_float] of the standard library
      (precision 53, [emax] 1024).
    - The file system, the log and the external libraries (moviepy,
      whisper, torch, the operating system) are explicit: a world that
      is threaded through every call, and an environment that fixes the
      outcome of each external call. *)

From Stdlib Require Import ZArith NArith QArith Qround Qabs List Ascii String SpecFloat Lia.
From Stdlib Require DecimalPos DecimalN DecimalFacts.
From stdpp Require Import gmap list.

Open Scope Z_scope.

(** ** Python strings *)

Abbreviation str := (list N).

(** A literal of the source, as code points (the literals used in data
    positions are ASCII). *)
Definition lit (s : string) : str :=
  map N_of_ascii (list_ascii_of_string s).

(** [str.isspace] for one character: the code points CPython treats as
    white space. *)
Definition isspace (c : N) : bool :=
  ((9 <=? c) && (c <=? 13) || (28 <=? c) && (c <=? 32)
   || (c =? 133) || (c =? 160) || (c =? 5760)
   || (8192 <=? c) && (c <=? 8202)
   || (c =? 8232) || (c =? 8233) || (c =? 8239) || (c =? 8287)
   || (c =? 12288))%N.

Fixpoint lstrip (s : str) : str :=
  match s with
  | c :: s' => if isspace c then lstrip s' else s
  | [] => []
  end.

Definition rstrip (s : str) : str := rev (lstrip (rev s)).

(** [s.strip()] *)
Definition strip (s : str) : str := rstrip (lstrip s).

(** Decimal digits of a natural number, most significant first. *)
Fixpoint digitos (u : Decimal.uint) : str :=
  (match u with
   | Decimal.Nil => []
   | Decimal.D0 u => 48 :: digitos u
   | Decimal.D1 u => 49 :: digitos u
   | Decimal.D2 u => 50 :: digitos u
   | Decimal.D3 u => 51 :: digitos u
   | Decimal.D4 u => 52 :: digitos u
   | Decimal.D5 u => 53 :: digitos u
   | Decimal.D6 u => 54 :: digitos u
   | Decimal.D7 u => 55 :: digitos u
   | Decimal.D8 u => 56 :: digitos u
   | Decimal.D9 u => 57 :: digitos u
   end)%N.

(** [str(n)] for an integer. *)
Definition str_of_int (z : Z) : str :=
  match z with
  | Zneg p => 45%N :: digitos (Pos.to_uint p)
  | _ => digitos (N.to_uint (Z.to_N z))
  end.

(** [format(z, "02d")]: sign-aware zero padding to width 2. *)
Definition format_02d (z : Z) : str :=
  let signo : str := if z <? 0 then [45%N] else [] in
  let cuerpo := digitos (N.to_uint (Z.to_N (Z.abs z))) in
  signo ++ replicate (2 - length signo - length cuerpo) 48%N ++ cuerpo.

(** ** Python exceptions *)

Inductive excepcion :=
  | OSError                (* IOError is the same class *)
  | FileNotFoundError      (* subclass of OSError *)
  | AttributeError
  | TypeError
  | ValueError
  | UnicodeEncodeError     (* subclass of ValueError *)
  | OverflowError
  | ZeroDivisionError
  | BadRequest             (* werkzeug.exceptions.BadRequest *)
  | RuntimeError.

(** [isinstance(e, OSError)] *)
Definition es_OSError (e : excepcion) : bool :=
  match e with
  | OSError | FileNotFoundError => true
  | _ => false
  end.

Definition es_FileNotFoundError (e : excepcion) : bool :=
  match e with
  | FileNotFoundError => true
  | _ => false
  end.

Inductive resultado (A : Type) :=
  | Ret (a : A)
  | Raise (e : excepcion).
Arguments Ret {A} a.
Arguments Raise {A} e.

(** ** Python floats: binary64 *)

Module Float.

Abbreviation float := spec_float.

Definition prec : Z := 53.
Definition emax : Z := 1024.

Definition add : float -> float -> float := SFadd prec emax.
Definition sub : float -> float -> float := SFsub prec emax.
Definition div : float -> float -> float := SFdiv prec emax.
Definition normalize : Z -> Z -> bool -> float := binary_normalize prec emax.

(** Conversion of a (small) Python int operand to float. *)
Definition of_int (z : Z) : float := normalize z 0 false.

(** [x != 0.0] as C evaluates [if (x)]: NaN counts as true. *)
Definition no_cero (x : float) : bool :=
  match x with
  | S754_zero _ => false
  | _ => true
  end.

(** [x < 0] *)
Definition negativo (x : float) : bool := SFltb x (S754_zero false).

Definition signbit (x : float) : bool :=
  match x with
  | S754_zero s | S754_infinity s | S754_finite s _ _ => s
  | S754_nan => false
  end.

(** [copysign(0.0, y)] *)
Definition copysign_cero (y : float) : float := S754_zero (signbit y).

(** C [fmod]: the exact remainder of the magnitudes, with the sign of
    the dividend. *)
Definition fmod (x y : float) : float :=
  match x, y with
  | S754_nan, _ | _, S754_nan => S754_nan
  | S754_infinity _, _ => S754_nan
  | _, S754_zero _ => S754_nan
  | _, S754_infinity _ => x
  | S754_zero _, _ => x
  | S754_finite sx mx ex, S754_finite _ my ey =>
      let ez := Z.min ex ey in
      let r := Z.rem (Zpos (fst (shl_align mx ex ez)))
                     (Zpos (fst (shl_align my ey ez))) in
      normalize (cond_Zopp sx r) ez sx
  end.

(** C [floor] *)
Definition floor (x : float) : float :=
  match x with
  | S754_finite s m e =>
      if 0 <=? e then x
      else normalize (Z.shiftr (cond_Zopp s (Zpos m)) (- e)) 0 s
  | _ => x
  end.

(** [x % y] on floats ([float_rem] of CPython). *)
Definition rem (vx wx : float) : resultado float :=
  if negb (no_cero wx) then Raise ZeroDivisionError
  else
    let mod_ := fmod vx wx in
    Ret (if no_cero mod_
         then if xorb (negativo wx) (negativo mod_) then add mod_ wx else mod_
         else copysign_cero wx).

(** [x // y] on floats ([float_floor_div] of CPython). *)
Definition floor_div (vx wx : float) : resultado float :=
  if negb (no_cero wx) then Raise ZeroDivisionError
  else
    let mod_ := fmod vx wx in
    let div0 := div (sub vx mod_) wx in
    let div1 :=
      if no_cero mod_ && xorb (negativo wx) (negativo mod_)
      then sub div0 (of_int 1) else div0 in
    Ret (if no_cero div1
         then
           let floordiv := floor div1 in
           if SFltb (S754_finite false 4503599627370496 (-53))
                    (sub div1 floordiv)
           then add floordiv (of_int 1) else floordiv
         else copysign_cero (div vx wx)).

(** [int(x)]: truncation towards zero. *)
Definition to_int (x : float) : resultado Z :=
  match x with
  | S754_nan => Raise ValueError
  | S754_infinity _ => Raise OverflowError
  | S754_zero _ => Ret 0
  | S754_finite s m e => Ret (cond_Zopp s (Z.shiftl (Zpos m) e))
  end.

(** Nearest integer to [num / den], ties to even ([0 <= num], [0 < den]). *)
Definition redondeo_par (num den : Z) : Z :=
  let q := num / den in
  match 2 * (num mod den) ?= den with
  | Lt => q
  | Gt => q + 1
  | Eq => if Z.even q then q else q + 1
  end.

(** The number of [10^-ndigits] units nearest to [|x|] for finite [x]. *)
Definition unidades (m : positive) (e : Z) (ndigits : N) : Z :=
  let p := 10 ^ Z.of_N ndigits in
  if 0 <=? e then Zpos m * 2 ^ e * p
  else redondeo_par (Zpos m * p) (2 ^ (- e)).

(** [round(x, ndigits)] for [ndigits >= 0] ([float.__round__] of
    CPython): the exact binary value is rounded to [ndigits] decimals,
    ties to even, and the decimal result is converted back to the
    nearest float. *)
Definition round (x : float) (ndigits : N) : float :=
  match x with
  | S754_finite s m e =>
      if (323 <? ndigits)%N then x
      else
        match unidades m e ndigits with
        | Zpos n =>
            div (S754_finite s n 0)
                (S754_finite false (Z.to_pos (10 ^ Z.of_N ndigits)) 0)
        | _ => S754_zero s
        end
  | _ => x
  end.

(** The float nearest to the decimal [n * 10^-d] (float literals). *)
Definition of_decimal (n : Z) (d : N) : float :=
  match n with
  | Z0 => S754_zero false
  | Zpos p => div (S754_finite false p 0) (S754_finite false (Z.to_pos (10 ^ Z.of_N d)) 0)
  | Zneg p => div (S754_finite true p 0) (S754_finite false (Z.to_pos (10 ^ Z.of_N d)) 0)
  end.

End Float.

(** ** [os.path] (POSIX flavour) *)

Definition barra : N := 47.   (* '/' *)
Definition punto : N := 46.   (* '.' *)

Fixpoint rfind_desde (c : N) (s : str) (i ultimo : Z) : Z :=
  match s with
  | [] => ultimo
  | x :: s' => rfind_desde c s' (i + 1) (if (x =? c)%N then i else ultimo)
  end.

(** [s.rfind(c)]: index of the last occurrence, or -1. *)
Definition rfind (s : str) (c : N) : Z := rfind_desde c s 0 (-1).

(** [s[i:j]] for [0 <= i]. *)
Definition slice (s : str) (i j : Z) : str :=
  take (Z.to_nat (j - i)) (drop (Z.to_nat i) s).

Definition basename (p : str) : str :=
  let i := rfind p barra + 1 in
  drop (Z.to_nat i) p.

Fixpoint rstrip_barras (s : str) : str :=
  match s with
  | [] => []
  | c :: s' =>
      match rstrip_barras s' with
      | [] => if (c =? barra)%N then [] else [c]
      | r => c :: r
      end
  end.

Definition dirname (p : str) : str :=
  let i := rfind p barra + 1 in
  let head := take (Z.to_nat i) p in
  if bool_decide (head ≠ []) && negb (forallb (N.eqb barra) head)
  then rstrip_barras head
  else head.

Definition splitext (p : str) : str * str :=
  let sepIndex := rfind p barra in
  let dotIndex := rfind p punto in
  if (sepIndex <? dotIndex)
     && existsb (fun c => negb (c =? punto)%N) (slice p (sepIndex + 1) dotIndex)
  then (take (Z.to_nat dotIndex) p, drop (Z.to_nat dotIndex) p)
  else (p, []).

(** ** Data model *)

Import Float.

(** JSON documents and the Python values that [jsonify], [json.dump]
    and [request.get_json] exchange.  A [dict] keeps insertion order. *)
#[warnings="-register-all"]
Inductive json :=
  | JNull
  | JBool (b : bool)
  | JInt (z : Z)
  | JFloat (x : float)
  | JStr (s : str)
  | JArr (l : list json)
  | JObj (campos : list (str * json)).

(** [d.get(k)]: [None] when the key is absent. *)
Fixpoint dict_get (campos : list (str * json)) (k : str) : json :=
  match campos with
  | [] => JNull
  | (k', v) :: resto => if bool_decide (k' = k) then v else dict_get resto k
  end.

(** Truth value of a Python value ([JNull] is [None]). *)
Definition truthy (v : json) : bool :=
  match v with
  | JNull => false
  | JBool b => b
  | JInt z => negb (z =? 0)
  | JFloat x => no_cero x
  | JStr s => negb (bool_decide (s = []))
  | JArr l => match l with [] => false | _ => true end
  | JObj c => match c with [] => false | _ => true end
  end.

(** A segment of the transcription engine. *)
Record segmento := {
  start : float;
  end_ : float;
  text : str
}.

(** What a file holds. *)
Inductive contenido :=
  | Video                                   (* some video container *)
  | Audio (origen : str)                    (* the MP3 track of the video at [origen] *)
  | AudioParcial (origen : str)             (* an interrupted MP3 write *)
  | Json (doc : json)                       (* the complete text of [doc] *)
  | JsonTruncado (doc : json) (escritos : nat).
      (* opened for writing, but only the first [escritos] characters of
         the text of [doc] reached the disk *)

Inductive nodo :=
  | Directorio
  | Archivo (c : contenido).

Inductive nivel := INFO | WARNING | ERROR.

(** One constructor per logging call of the two source files. *)
Inductive mensaje :=
  (* extraer_audio_de_video *)
  | Extrayendo_audio (ruta_video : str)
  | Audio_extraido (ruta_audio : str)
  | Error_al_extraer (e : excepcion)
  | Asegurate_FFmpeg
  | Descarga_FFmpeg
  (* transcribir_audio_con_segmentos_local *)
  | Cargando_modelo (modelo : str)
  | CUDA_detectada
  | CUDA_no_detectada
  | CPU_lenta
  | Modelo_cargado (modelo device : str)
  | Transcribiendo (nombre : str)
  | Transcripcion_completada
  | Audio_no_encontrado (ruta_audio : str)
  | Error_inesperado_transcripcion (e : excepcion)
  | Asegurate_RAM
  (* procesar_video_a_json *)
  | Iniciando_procesamiento (ruta_video : json)
  | Fallo_extraccion
  | Temporal_eliminado (ruta_audio : str)
  | No_se_pudo_eliminar (ruta_audio : str) (e : excepcion)
  | Fallo_transcripcion
  | Sin_segmentos
  | JSON_vacio_guardado (ruta_json : str)
  | Error_escribir_vacio (e : excepcion)
  | Transcripcion_exitosa (n : nat)
  | Transcripcion_guardada (ruta_json : str)
  | Error_escribir_salida (e : excepcion)
  (* endpoint_procesar_video *)
  | Solicitud_recibida
  | Solicitud_sin_JSON
  | Parametros_faltantes
  | Video_a_procesar (ruta_video : json)
  | JSON_de_salida (ruta_json : json)
  | Video_no_encontrado (ruta_video : json)
  | Directorio_creado (d : str)
  | No_se_pudo_crear_directorio (d : str) (e : excepcion)
  | Procesamiento_completado (ruta_video : json)
  | Procesamiento_fallo (ruta_video : json)
  | Error_inesperado_endpoint (e : excepcion).

(** The world a request runs in: the file system and the server log
    (most recent entry last).  The file system is keyed by the path
    strings as the code hands them to the operating system; two
    spellings of one file are two keys, so what is stated of a path is
    stated of that spelling of it. *)
Record mundo := {
  fs : gmap str nodo;
  registro : list (nivel * mensaje)
}.

(** Outcomes of the external calls. *)
Inductive escritura_audio :=
  | EA_ok                      (* returns; the track is written *)
  | EA_sin_archivo             (* returns, and nothing was written *)
  | EA_falla (e : excepcion) (deja_archivo : bool).

Inductive transcripcion :=
  | T_dict (segments : option (list segmento))   (* [None]: no 'segments' key *)
  | T_error (e : excepcion).

Inductive escritura :=
  | W_ok
  | W_falla_abrir              (* [open] raises [OSError]: nothing is touched *)
  | W_falla_volcar (escritos : nat)
      (* [open] succeeded; the write, the flush or the close raises
         [OSError] *)
  | W_valor_abrir
      (* [open] raises [ValueError] (a NUL in the path): nothing is
         touched *)
  | W_codificacion (escritos : nat).
      (* [open] succeeded; [json.dump] raises [UnicodeEncodeError] (a
         lone surrogate in a text, with [ensure_ascii=False]) *)

(** The environment of one request: what each external call answers.
    An [option excepcion] is [None] when the call succeeds; a [bool] is
    [true] when it does.  A file descriptor is a C [int].  When
    [os.makedirs] fails, it has created the first [o_mkdir_creados] of
    the missing directories, and raises [o_makedirs_error]. *)
Record entorno := {
  o_getpid : N;
  o_fd_abierto : Z -> bool;               (* os.path.exists on an int *)
  o_fd_rango : forall z, o_fd_abierto z = true -> -2147483648 <= z < 2147483648;
  o_makedirs : bool;
  o_mkdir_creados : nat;
  o_makedirs_error : excepcion;
  o_VideoFileClip : option excepcion;
  o_audio : bool;                         (* clip_video.audio is not None *)
  o_write_audiofile : escritura_audio;
  o_close : option excepcion;
  o_cuda_is_available : bool;
  o_load_model : option excepcion;
  o_transcribe : transcripcion;
  o_remove : bool;
  o_open_dump : escritura;                (* open(..., 'w') and json.dump *)
  o_str : excepcion -> str                (* str(e) *)
}.

(** ** Stateful computations that may raise *)

Definition accion (A : Type) : Type := mundo -> resultado A * mundo.

#[global] Instance accion_ret : MRet accion :=
  fun A a w => (Ret a, w).

#[global] Instance accion_bind : MBind accion :=
  fun A B k m w =>
    match m w with
    | (Ret a, w') => k a w'
    | (Raise e, w') => (Raise e, w')
    end.

#[global] Instance resultado_ret : MRet resultado := @Ret.

#[global] Instance resultado_bind : MBind resultado :=
  fun A B k m =>
    match m with
    | Ret a => k a
    | Raise e => Raise e
    end.

Definition raise {A} (e : excepcion) : accion A := fun w => (Raise e, w).

(** A pure computation that may raise, run inside an action. *)
Definition puro {A} (r : resultado A) : accion A := fun w => (r, w).

(** [try: cuerpo  except <captura> as e: manejador e] *)
Definition try_except {A} (cuerpo : accion A) (captura : excepcion -> bool)
    (manejador : excepcion -> accion A) : accion A :=
  fun w =>
    match cuerpo w with
    | (Raise e, w') => if captura e then manejador e w' else (Raise e, w')
    | r => r
    end.

Definition Exception (e : excepcion) : bool := true.

Definition pass : accion unit := mret tt.

Definition logging (n : nivel) (m : mensaje) : accion unit :=
  fun w => (Ret tt, {| fs := fs w; registro := registro w ++ [(n, m)] |}).

Definition leer_fs : accion (gmap str nodo) := fun w => (Ret (fs w), w).

Definition poner_fs (f : gmap str nodo) : accion unit :=
  fun w => (Ret tt, {| fs := f; registro := registro w |}).

(** [os.path.exists(p)] for a path. *)
Definition exists_ (p : str) : accion bool :=
  f ← leer_fs; mret (bool_decide (is_Some (f !! p))).

(** ** workana_video_transcriber.py *)

Definition MODELO_WHISPER_LOCAL : str := lit "turbo".
Definition IDIOMA_AUDIO : option str := Some (lit "es").

(** [formatear_tiempo]: seconds to MM:SS. *)
Definition formatear_tiempo (segundos_totales : float) : resultado str :=
  minutos ← Float.floor_div segundos_totales (of_int 60) ≫= to_int;
  segundos ← Float.rem segundos_totales (of_int 60) ≫= to_int;
  mret (format_02d minutos ++ lit ":" ++ format_02d segundos).

(** The dictionary appended for the segment of index [i]. *)
Definition parrafo (i : nat) (segmento : segmento) : resultado json :=
  let texto_parrafo := strip (text segmento) in
  let tiempo_inicio_seg := start segmento in
  let tiempo_fin_seg := end_ segmento in
  inicio_MMSS ← formatear_tiempo tiempo_inicio_seg;
  fin_MMSS ← formatear_tiempo tiempo_fin_seg;
  mret (JObj
    [ (lit "id_parrafo", JInt (Z.of_nat i + 1));
      (lit "parrafo_texto", JStr texto_parrafo);
      (lit "tiempo_inicio_segundos", JFloat (round tiempo_inicio_seg 3));
      (lit "tiempo_fin_segundos", JFloat (round tiempo_fin_seg 3));
      (lit "tiempo_inicio_formato_MMSS", JStr inicio_MMSS);
      (lit "tiempo_fin_formato_MMSS", JStr fin_MMSS) ]).

(** The loop [for i, segmento in enumerate(...)], from index [i] on. *)
Fixpoint formatear_segmentos (i : nat) (segmentos_transcritos : list segmento)
    (datos_json_salida : list json) : resultado (list json) :=
  match segmentos_transcritos with
  | [] => mret datos_json_salida
  | segmento :: resto =>
      p ← parrafo i segmento;
      formatear_segmentos (S i) resto (datos_json_salida ++ [p])
  end.

(** The document of the run without speech. *)
Definition documento_sin_segmentos : json :=
  JObj [ (lit "mensaje", JStr (lit "No se encontraron segmentos de voz en el audio."));
         (lit "parrafos", JArr []) ].

Section Entorno.

Variable env : entorno.

(** *** External calls *)

(** A moviepy clip: the video it came from and whether it has audio. *)
Record clip := {
  origen : str;
  audio : option str
}.

Definition VideoFileClip (ruta_video : str) : accion clip :=
  match o_VideoFileClip env with
  | Some e => raise e
  | None =>
      mret {| origen := ruta_video;
              audio := if o_audio env then Some ruta_video else None |}
  end.

(** [clip_audio.write_audiofile(ruta, codec='mp3', logger=None)]: the
    call raises only when the environment says so.  Over a directory
    it writes nothing: when it returns, the directory is still there. *)
Definition write_audiofile (clip_audio : option str) (ruta : str) : accion unit :=
  match clip_audio with
  | None => raise AttributeError
  | Some origen =>
      f ← leer_fs;
      match f !! ruta with
      | Some Directorio =>
          match o_write_audiofile env with
          | EA_falla e _ => raise e
          | _ => pass
          end
      | _ =>
          match o_write_audiofile env with
          | EA_ok => poner_fs (<[ruta := Archivo (Audio origen)]> f)
          | EA_sin_archivo => pass
          | EA_falla e deja_archivo =>
              (if deja_archivo
               then poner_fs (<[ruta := Archivo (AudioParcial origen)]> f)
               else pass);;
              raise e
          end
      end
  end.

(** [clip_audio.close(); clip_video.close()] *)
Definition close_clips : accion unit :=
  match o_close env with
  | Some e => raise e
  | None => mret tt
  end.

(** [whisper.load_model(modelo_nombre, device=device)].  The weights
    that whisper downloads on first use go to its own cache, which is
    not among the entries of [fs]: [fs] holds the paths that the two
    modules themselves read, write, create or remove. *)
Definition load_model (modelo_nombre device : str) : accion unit :=
  match o_load_model env with
  | Some e => raise e
  | None => mret tt
  end.

(** [model.transcribe(ruta_audio, **opciones)] followed by
    [.get('segments', [])] on its result. *)
Definition transcribe_segments (ruta_audio : str) (opciones : list (str * str))
    : accion (list segmento) :=
  match o_transcribe env with
  | T_error e => raise e
  | T_dict segments => mret (default [] segments)
  end.

Definition os_remove (ruta : str) : accion unit :=
  f ← leer_fs;
  match f !! ruta with
  | Some (Archivo _) =>
      if o_remove env then poner_fs (delete ruta f) else raise OSError
  | Some Directorio => raise OSError
  | None => raise FileNotFoundError
  end.

(** [with open(ruta, 'w', encoding='utf-8') as f: json.dump(doc, f, ...)] *)
Definition open_dump (ruta : str) (doc : json) : accion unit :=
  f ← leer_fs;
  match f !! ruta with
  | Some Directorio => raise OSError
  | _ =>
      match o_open_dump env with
      | W_ok => poner_fs (<[ruta := Archivo (Json doc)]> f)
      | W_falla_abrir => raise OSError
      | W_falla_volcar escritos =>
          poner_fs (<[ruta := Archivo (JsonTruncado doc escritos)]> f);;
          raise OSError
      | W_valor_abrir => raise ValueError
      | W_codificacion escritos =>
          poner_fs (<[ruta := Archivo (JsonTruncado doc escritos)]> f);;
          raise UnicodeEncodeError
      end
  end.

(** *** The three functions of the module *)

Definition extraer_audio_de_video (ruta_video ruta_audio_salida : str)
    : accion (option str) :=
  logging INFO (Extrayendo_audio ruta_video);;
  try_except
    (clip_video ← VideoFileClip ruta_video;
     let clip_audio := audio clip_video in
     write_audiofile clip_audio ruta_audio_salida;;
     close_clips;;
     logging INFO (Audio_extraido ruta_audio_salida);;
     mret (Some ruta_audio_salida))
    Exception
    (fun e =>
       logging ERROR (Error_al_extraer e);;
       logging ERROR Asegurate_FFmpeg;;
       logging ERROR Descarga_FFmpeg;;
       mret None).

Definition transcribir_audio_con_segmentos_local (ruta_audio modelo_nombre : str)
    (idioma : option str) : accion (option (list segmento)) :=
  logging INFO (Cargando_modelo modelo_nombre);;
  device ← (if o_cuda_is_available env
            then logging INFO CUDA_detectada;; mret (lit "cuda")
            else logging INFO CUDA_no_detectada;;
                 logging WARNING CPU_lenta;;
                 mret (lit "cpu"));
  try_except
    (load_model modelo_nombre device;;
     logging INFO (Modelo_cargado modelo_nombre device);;
     logging INFO (Transcribiendo (basename ruta_audio));;
     let opciones_transcripcion :=
       match idioma with
       | Some i => if bool_decide (i ≠ []) then [(lit "language", i)] else []
       | None => []
       end in
     segments ← transcribe_segments ruta_audio opciones_transcripcion;
     logging INFO Transcripcion_completada;;
     mret (Some segments))
    Exception
    (fun e =>
       if es_FileNotFoundError e
       then logging ERROR (Audio_no_encontrado ruta_audio);;
            mret None
       else logging ERROR (Error_inesperado_transcripcion e);;
            logging ERROR Asegurate_RAM;;
            mret None).

(** The name of the temporary audio file of a run. *)
Definition ruta_audio_temporal (ruta_video_entrada : str) : str :=
  let nombre_base_video := fst (splitext (basename ruta_video_entrada)) in
  lit "audio_temporal_para_" ++ nombre_base_video ++ lit "_"
    ++ str_of_int (Z.of_N (o_getpid env)) ++ lit ".mp3".

Definition procesar_video_a_json (ruta_video_entrada ruta_json_salida : str)
    : accion bool :=
  logging INFO (Iniciando_procesamiento (JStr ruta_video_entrada));;
  (* 1. Extraer audio *)
  ruta_audio_extraido ←
    extraer_audio_de_video ruta_video_entrada
      (ruta_audio_temporal ruta_video_entrada);
  match ruta_audio_extraido with
  | None =>
      logging ERROR Fallo_extraccion;;
      mret false
  | Some ruta_audio_extraido =>
      if bool_decide (ruta_audio_extraido = [])
      then logging ERROR Fallo_extraccion;;
           mret false
      else
        (* 2. Transcribir audio *)
        segmentos_transcritos ←
          transcribir_audio_con_segmentos_local ruta_audio_extraido
            MODELO_WHISPER_LOCAL IDIOMA_AUDIO;
        existe ← exists_ ruta_audio_extraido;
        (if existe : bool
         then try_except
                (os_remove ruta_audio_extraido;;
                 logging INFO (Temporal_eliminado ruta_audio_extraido))
                es_OSError
                (fun e => logging WARNING (No_se_pudo_eliminar ruta_audio_extraido e))
         else pass);;
        match segmentos_transcritos with
        | None =>
            logging ERROR Fallo_transcripcion;;
            mret false
        | Some nil =>
            logging WARNING Sin_segmentos;;
            try_except
              (open_dump ruta_json_salida documento_sin_segmentos;;
               logging INFO (JSON_vacio_guardado ruta_json_salida))
              es_OSError
              (fun e => logging ERROR (Error_escribir_vacio e));;
            mret true
        | Some segmentos_transcritos =>
            logging INFO (Transcripcion_exitosa (length segmentos_transcritos));;
            (* 3. Formatear al JSON deseado *)
            datos_json_salida ← puro (formatear_segmentos 0 segmentos_transcritos []);
            (* 4. Guardar JSON *)
            try_except
              (open_dump ruta_json_salida (JArr datos_json_salida);;
               logging INFO (Transcripcion_guardada ruta_json_salida);;
               mret true)
              es_OSError
              (fun e =>
                 logging ERROR (Error_escribir_salida e);;
                 mret false)
        end
  end.

(** ** app.py *)

(** What the handler reads of the request: [request.is_json] and the
    parsed body ([None] when the body is not well-formed JSON). *)
Record peticion := {
  is_json : bool;
  cuerpo : option json
}.

(** [request.get_json()] *)
Definition get_json (request : peticion) : accion json :=
  match cuerpo request with
  | Some data => mret data
  | None => raise BadRequest
  end.

(** [data.get(k)]: only a dict has the method. *)
Definition data_get (data : json) (k : str) : accion json :=
  match data with
  | JObj campos => mret (dict_get campos k)
  | _ => raise AttributeError
  end.

(** [os.path.exists(v)] for a truthy Python value: an int is taken as
    a file descriptor, which has to fit a C [int]; other non-path
    values raise. *)
Definition os_path_exists (v : json) : accion bool :=
  match v with
  | JStr p => exists_ p
  | JInt z =>
      if (-2147483648 <=? z) && (z <? 2147483648)
      then mret (o_fd_abierto env z)
      else raise OverflowError
  | JBool b => mret (o_fd_abierto env (if b then 1 else 0))
  | _ => raise TypeError
  end.

(** [os.fspath(v)], applied by [os.path.dirname] and [os.path.basename]. *)
Definition fspath (v : json) : accion str :=
  match v with
  | JStr p => mret p
  | _ => raise TypeError
  end.

(** [os.makedirs(d, exist_ok=True)]: the directory and its missing
    ancestors. *)
Fixpoint crear_directorios (n : nat) (d : str) (f : gmap str nodo)
    : gmap str nodo :=
  match n with
  | O => f
  | S n' =>
      if bool_decide (d = []) || bool_decide (is_Some (f !! d)) then f
      else <[d := Directorio]> (crear_directorios n' (dirname d) f)
  end.

(** The missing directories that [os.makedirs] has to create, in the
    order in which it creates them: the topmost first, [d] last. *)
Fixpoint directorios_faltantes (n : nat) (d : str) (f : gmap str nodo)
    : list str :=
  match n with
  | O => []
  | S n' =>
      if bool_decide (d = []) || bool_decide (is_Some (f !! d)) then []
      else directorios_faltantes n' (dirname d) f ++ [d]
  end.

Definition crear_lista (l : list str) (f : gmap str nodo) : gmap str nodo :=
  foldr (fun d g => <[d := Directorio]> g) f l.

(** When it fails, [os.makedirs] has created some of the missing
    directories, but not the last one, and raises. *)
Definition os_makedirs (d : str) : accion unit :=
  f ← leer_fs;
  if o_makedirs env
  then poner_fs (crear_directorios (S (length d)) d f)
  else
    let faltan := directorios_faltantes (S (length d)) d f in
    let creados := take (Nat.min (o_mkdir_creados env) (pred (length faltan))) faltan in
    poner_fs (crear_lista creados f);;
    raise (o_makedirs_error env).

(** [f"{v}"] for the values that reach the f-string of the 404 answer
    (a float, a list or a dict raises [TypeError] before). *)
Definition fstr (v : json) : str :=
  match v with
  | JStr s => s
  | JInt z => str_of_int z
  | JBool true => lit "True"
  | JBool false => lit "False"
  | _ => lit "None"
  end.

Definition jsonify_error (texto : str) : json :=
  JObj [ (lit "error", JStr texto) ].

(** The call [procesar_video_a_json(ruta_video_entrada, ruta_json_salida)]
    of the handler: with a video path that is not a [str], the first
    statement logs and [os.path.basename] raises. *)
Definition llamar_procesar (ruta_video_entrada : json) (ruta_json_salida : str)
    : accion bool :=
  match ruta_video_entrada with
  | JStr p => procesar_video_a_json p ruta_json_salida
  | v => logging INFO (Iniciando_procesamiento v);; raise TypeError
  end.

Definition endpoint_procesar_video (request : peticion) : accion (json * Z) :=
  logging INFO Solicitud_recibida;;
  if negb (is_json request)
  then logging ERROR Solicitud_sin_JSON;;
       mret (jsonify_error (lit "La solicitud debe ser de tipo JSON"), 400)
  else
    data ← get_json request;
    ruta_video_entrada ← data_get data (lit "ruta_video_entrada");
    ruta_json_salida ← data_get data (lit "ruta_json_salida");
    if negb (truthy ruta_video_entrada) || negb (truthy ruta_json_salida)
    then logging ERROR Parametros_faltantes;;
         mret (jsonify_error
                 (lit "Faltan los par" ++ [225%N]
                    ++ lit "metros 'ruta_video_entrada' y/o 'ruta_json_salida'"),
               400)
    else
      logging INFO (Video_a_procesar ruta_video_entrada);;
      logging INFO (JSON_de_salida ruta_json_salida);;
      existe ← os_path_exists ruta_video_entrada;
      if negb existe
      then logging ERROR (Video_no_encontrado ruta_video_entrada);;
           mret (jsonify_error
                   (lit "El archivo de video '" ++ fstr ruta_video_entrada
                      ++ lit "' no fue encontrado."),
                 404)
      else
        salida ← fspath ruta_json_salida;
        let directorio_salida_json := dirname salida in
        falta ← (if bool_decide (directorio_salida_json = [])
                 then mret false
                 else existe_dir ← exists_ directorio_salida_json;
                      mret (negb existe_dir));
        respuesta_500 ←
          (if falta : bool
           then try_except
                  (os_makedirs directorio_salida_json;;
                   logging INFO (Directorio_creado directorio_salida_json);;
                   mret (@None (json * Z)))
                  es_OSError
                  (fun e =>
                     logging ERROR (No_se_pudo_crear_directorio directorio_salida_json e);;
                     mret (Some
                       (jsonify_error
                          (lit "No se pudo crear el directorio de salida para el JSON: "
                             ++ o_str env e),
                        500)))
           else mret (@None (json * Z)));
        match respuesta_500 with
        | Some respuesta => mret respuesta
        | None =>
            try_except
              (exito ← llamar_procesar ruta_video_entrada salida;
               if exito : bool
               then logging INFO (Procesamiento_completado ruta_video_entrada);;
                    mret (JObj
                            [ (lit "mensaje", JStr (lit "Video procesado exitosamente."));
                              (lit "ruta_video_entrada", ruta_video_entrada);
                              (lit "ruta_json_salida", ruta_json_salida) ],
                          200)
               else logging ERROR (Procesamiento_fallo ruta_video_entrada);;
                    mret (JObj
                            [ (lit "error",
                               JStr (lit "El procesamiento del video fall" ++ [243%N]
                                       ++ lit ". Revisa los logs del servidor para m"
                                       ++ [225%N] ++ lit "s detalles."));
                              (lit "ruta_video_entrada", ruta_video_entrada) ],
                          500))
              Exception
              (fun e =>
                 logging ERROR (Error_inesperado_endpoint e);;
                 mret (jsonify_error
                         (lit "Ocurri" ++ [243%N]
                            ++ lit " un error inesperado en el servidor: "
                            ++ o_str env e),
                       500))
        end.

End Entorno.

(** * Definitions used by the statements *)

(** ** Exact values of floats *)

(** Values scaled by 2^1074: every finite binary64 number is an integer
    number of units 2^-1074. *)
Definition escala (x : float) : Z :=
  match x with
  | S754_finite s m e => cond_Zopp s (Zpos m * 2 ^ (e + 1074))
  | _ => 0
  end.

(** Non-negative finite floats in canonical form. *)
Definition nn (x : float) : Prop :=
  match x with
  | S754_zero _ => True
  | S754_finite false m e => bounded 53 1024 m e = true
  | _ => False
  end.

Definition representable (N : Z) : Prop :=
  N = 0 ∨ ∃ (c : positive) (e0 : Z),
            N = Zpos c * 2 ^ (e0 + 1074) ∧ Zpos c < 2 ^ 53 ∧ -1074 <= e0 <= 971.

Definition sesenta : float := Float.of_int 60.

(** The rational number a float stands for. *)
Definition valor (x : float) : Q :=
  match x with
  | S754_finite s m e =>
      if 0 <=? e then Qmake (cond_Zopp s (Zpos m * 2 ^ e)) 1
      else Qmake (cond_Zopp s (Zpos m)) (2 ^ Z.to_pos (- e))
  | _ => 0%Q
  end.





(** The ASCII digits, and the number that a string of them denotes. *)
Definition es_digito (c : N) : bool := ((48 <=? c) && (c <=? 57))%N.

Definition valor_decimal (s : str) : Z :=
  fold_left (fun acc c => 10 * acc + (Z.of_N c - 48)) s 0.

Definition minutos_enteros (q : Q) : Z := Qfloor (q / inject_Z 60).
Definition segundos_enteros (q : Q) : Z := Qfloor (q - inject_Z 60 * inject_Z (minutos_enteros q)).

(** ** The steps of the orchestrator, named for the proofs *)

Definition extraccion_exitosa (env : entorno) (f : gmap str nodo) (ruta_audio : str) : Prop :=
  o_VideoFileClip env = None ∧ o_audio env = true ∧ o_write_audiofile env = EA_ok
  ∧ o_close env = None ∧ f !! ruta_audio ≠ Some Directorio.

(** Every moviepy call of the extraction returns. *)
Definition extraccion_devuelve (env : entorno) : Prop :=
  o_VideoFileClip env = None ∧ o_audio env = true
  ∧ (∀ e b, o_write_audiofile env ≠ EA_falla e b) ∧ o_close env = None.

(** The file system when [write_audiofile] has returned. *)
Definition fs_tras_extraccion (env : entorno) (f : gmap str nodo) (v a : str)
    : gmap str nodo :=
  match f !! a, o_write_audiofile env with
  | Some Directorio, _ => f
  | _, EA_ok => <[a := Archivo (Audio v)]> f
  | _, _ => f
  end.

(** The file system after the clean-up step that follows: a file at
    the temporary path is removed if [os.remove] succeeds; a directory
    stays ([os.remove] raises on it); nothing is tried when the path is
    absent. *)
Definition fs_limpio (env : entorno) (f : gmap str nodo) (v a : str)
    : gmap str nodo :=
  match fs_tras_extraccion env f v a !! a with
  | Some (Archivo _) =>
      if o_remove env then delete a (fs_tras_extraccion env f v a)
      else fs_tras_extraccion env f v a
  | _ => fs_tras_extraccion env f v a
  end.

Definition con_registro (w : mundo) (f : gmap str nodo) (l : list (nivel * mensaje)) : mundo :=
  {| fs := f; registro := registro w ++ l |}.

Definition segmentos_del_motor (env : entorno) : option (list segmento) :=
  match o_load_model env, o_transcribe env with
  | None, T_dict segments => Some (default [] segments)
  | _, _ => None
  end.

(** The clean-up step after the transcription. *)
Definition limpiar (env : entorno) (a : str) : accion unit :=
  existe ← exists_ a;
  if existe : bool
  then try_except
         (os_remove env a;; logging INFO (Temporal_eliminado a))
         es_OSError
         (fun e => logging WARNING (No_se_pudo_eliminar a e))
  else pass.

Definition guardar (env : entorno) (ruta_json_salida : str) (segmentos_transcritos : option (list segmento)) : accion bool :=
        match segmentos_transcritos with
        | None =>
            logging ERROR Fallo_transcripcion;;
            mret false
        | Some nil =>
            logging WARNING Sin_segmentos;;
            try_except
              (open_dump env ruta_json_salida documento_sin_segmentos;;
               logging INFO (JSON_vacio_guardado ruta_json_salida))
              es_OSError
              (fun e => logging ERROR (Error_escribir_vacio e));;
            mret true
        | Some segmentos_transcritos =>
            logging INFO (Transcripcion_exitosa (length segmentos_transcritos));;
            (* 3. Formatear al JSON deseado *)
            datos_json_salida ← puro (formatear_segmentos 0 segmentos_transcritos []);
            (* 4. Guardar JSON *)
            try_except
              (open_dump env ruta_json_salida (JArr datos_json_salida);;
               logging INFO (Transcripcion_guardada ruta_json_salida);;
               mret true)
              es_OSError
              (fun e =>
                 logging ERROR (Error_escribir_salida e);;
                 mret false)
        end.

(** The log entry the clean-up of an existing temporary file leaves. *)
Definition traza_limpieza (env : entorno) (a : str) : nivel * mensaje :=
  if o_remove env then (INFO, Temporal_eliminado a)
  else (WARNING, No_se_pudo_eliminar a OSError).

Definition fs_tras_limpieza (env : entorno) (f : gmap str nodo) (v a : str) : gmap str nodo :=
  if o_remove env then delete a f else <[a := Archivo (Audio v)]> f.

Definition registro_parrafo (i : nat) (seg : segmento) (ini fin : str) : json :=
  JObj
    [ (lit "id_parrafo", JInt (Z.of_nat i + 1));
      (lit "parrafo_texto", JStr (strip (text seg)));
      (lit "tiempo_inicio_segundos", JFloat (round (start seg) 3));
      (lit "tiempo_fin_segundos", JFloat (round (end_ seg) 3));
      (lit "tiempo_inicio_formato_MMSS", JStr ini);
      (lit "tiempo_fin_formato_MMSS", JStr fin) ].

(** What [open_dump] does to the file system, and how it ends. *)
Definition efecto_open_dump (env : entorno) (f : gmap str nodo) (o : str) (doc : json)
    : option excepcion * gmap str nodo :=
  match f !! o with
  | Some Directorio => (Some OSError, f)
  | _ =>
      match o_open_dump env with
      | W_ok => (None, <[o := Archivo (Json doc)]> f)
      | W_falla_abrir => (Some OSError, f)
      | W_falla_volcar n => (Some OSError, <[o := Archivo (JsonTruncado doc n)]> f)
      | W_valor_abrir => (Some ValueError, f)
      | W_codificacion n =>
          (Some UnicodeEncodeError, <[o := Archivo (JsonTruncado doc n)]> f)
      end
  end.

(** How the last step ends, from the way the write ended: an [OSError]
    is caught, and the run then returns [en_fallo]; another exception
    goes on. *)
Definition resultado_escritura (en_fallo : bool) (e : option excepcion) : resultado bool :=
  match e with
  | None => Ret true
  | Some e => if es_OSError e then Ret en_fallo else Raise e
  end.

Definition fs_con_directorio (f : gmap str nodo) (d : str) : gmap str nodo :=
  if bool_decide (d = []) || bool_decide (is_Some (f !! d)) then f
  else crear_directorios (S (length d)) d f.

(** The answer of the handler once the orchestrator returned [exito]. *)
Definition respuesta_final (v o : json) (exito : bool) : json * Z :=
  if exito
  then (JObj [ (lit "mensaje", JStr (lit "Video procesado exitosamente."));
               (lit "ruta_video_entrada", v);
               (lit "ruta_json_salida", o) ],
        200)
  else (JObj [ (lit "error",
                JStr (lit "El procesamiento del video fall" ++ [243%N]
                        ++ lit ". Revisa los logs del servidor para m"
                        ++ [225%N] ++ lit "s detalles."));
               (lit "ruta_video_entrada", v) ],
        500).

Definition traza_final (v : json) (exito : bool) : nivel * mensaje :=
  if exito then (INFO, Procesamiento_completado v) else (ERROR, Procesamiento_fallo v).

(** ** Concrete runs used by the examples *)

Definition ruta_video_ej : str := lit "/videos/charla.mp4".
Definition ruta_json_ej : str := lit "/salida/charla.json".

Definition segmentos_ej : list segmento :=
  [ {| start := of_decimal 0 0;
       end_ := of_decimal 123456 5;
       text := lit " Hola a todos. " |};
    {| start := of_decimal 123456 5;
       end_ := of_decimal 599 1;
       text := lit "Gracias." |} ].

(** An environment in which everything succeeds, except what the three
    parameters say: the answer of the engine, whether [os.remove]
    succeeds, and how the write of the output file ends. *)
Definition entorno_ej (t : transcripcion) (borra : bool) (e : escritura) : entorno :=
  {| o_getpid := 4242;
     o_fd_abierto := fun _ => false;
     o_fd_rango := fun z (H : false = true) =>
       match H in _ = b return (if b then _ else True) with eq_refl => I end;
     o_makedirs := true;
     o_mkdir_creados := 0;
     o_makedirs_error := OSError;
     o_VideoFileClip := None;
     o_audio := true;
     o_write_audiofile := EA_ok;
     o_close := None;
     o_cuda_is_available := false;
     o_load_model := None;
     o_transcribe := t;
     o_remove := borra;
     o_open_dump := e;
     o_str := fun _ => lit "error" |}.

(** A server with the video on disk and an existing output directory. *)
Definition mundo_ej : mundo :=
  {| fs := <[ruta_video_ej := Archivo Video]> (<[lit "/salida" := Directorio]> ∅);
     registro := [] |}.

Definition peticion_ej : peticion :=
  {| is_json := true;
     cuerpo := Some (JObj [ (lit "ruta_video_entrada", JStr ruta_video_ej);
                            (lit "ruta_json_salida", JStr ruta_json_ej) ]) |}.

(** 2^60 + 768 seconds, a float. *)
Definition tiempo_enorme : float := S754_finite false 4503599627370499 8.

(** ** Definitions used by the further properties *)

(** The answer of the handler when the orchestrator raised [e]. *)
Definition respuesta_excepcion (env : entorno) (e : excepcion) : json * Z :=
  (jsonify_error (lit "Ocurri" ++ [243%N]
                    ++ lit " un error inesperado en el servidor: " ++ o_str env e),
   500).

(** The answer of the handler to a request without its two fields. *)
Definition respuesta_faltan_parametros : json * Z :=
  (jsonify_error (lit "Faltan los par" ++ [225%N]
                    ++ lit "metros 'ruta_video_entrada' y/o 'ruta_json_salida'"),
   400).

(** The answer and the log entry of the handler for each way the
    orchestrator can end. *)
Definition desenlace (env : entorno) (v o : json) (r : resultado bool)
    : (json * Z) * (nivel * mensaje) :=
  match r with
  | Ret exito => (respuesta_final v o exito, traza_final v exito)
  | Raise e => (respuesta_excepcion env e, (ERROR, Error_inesperado_endpoint e))
  end.

(** The requests the handler rejects with status 400. *)
Definition peticion_rechazada (request : peticion) : Prop :=
  is_json request = false
  ∨ ∃ campos, cuerpo request = Some (JObj campos)
      ∧ (truthy (dict_get campos (lit "ruta_video_entrada")) = false
         ∨ truthy (dict_get campos (lit "ruta_json_salida")) = false).

(** NaN and the two infinities. *)
Definition no_finito (x : float) : bool :=
  match x with
  | S754_nan | S754_infinity _ => true
  | _ => false
  end.

(** The exception of the write of the output file that the handlers
    [except IOError] of the orchestrator do not catch: the [ValueError]
    of [open] and the [UnicodeEncodeError] of the write.  On a
    directory [open] raises an [OSError] before either. *)
Definition excepcion_de_escritura (env : entorno) (f : gmap str nodo) (o : str)
    : option excepcion :=
  match f !! o with
  | Some Directorio => None
  | _ =>
      match o_open_dump env with
      | W_valor_abrir => Some ValueError
      | W_codificacion _ => Some UnicodeEncodeError
      | _ => None
      end
  end.

(** What has to go well at the last step for the run to report
    success: with segments, their formatting and the write; without
    segments, only that the write of the placeholder raises nothing
    but an [OSError]. *)
Definition ultimo_paso_exitoso (env : entorno) (f : gmap str nodo) (o : str)
    (s : option (list segmento)) : Prop :=
  match s with
  | None => False
  | Some [] => excepcion_de_escritura env f o = None
  | Some segs =>
      (∃ docs, formatear_segmentos 0 segs [] = Ret docs)
      ∧ o_open_dump env = W_ok
      ∧ f !! o ≠ Some Directorio
  end.

(** An environment in which [os.makedirs] fails with a permission
    error after creating nothing. *)
Definition entorno_sin_permiso : entorno :=
  {| o_getpid := 4242; o_fd_abierto := fun _ => false;
     o_fd_rango := fun z (H : false = true) =>
       match H in _ = b return (if b then _ else True) with eq_refl => I end;
     o_makedirs := false; o_mkdir_creados := 0; o_makedirs_error := OSError;
     o_VideoFileClip := None; o_audio := true; o_write_audiofile := EA_ok;
     o_close := None; o_cuda_is_available := false; o_load_model := None;
     o_transcribe := T_dict None; o_remove := true; o_open_dump := W_ok;
     o_str := fun _ => lit "[Errno 13] Permission denied: '/nuevo'" |}.

(** An environment in which [write_audiofile] raises and leaves a
    partial file. *)
Definition entorno_audio_parcial : entorno :=
  {| o_getpid := 4242; o_fd_abierto := fun _ => false;
     o_fd_rango := fun z (H : false = true) =>
       match H in _ = b return (if b then _ else True) with eq_refl => I end;
     o_makedirs := true; o_mkdir_creados := 0; o_makedirs_error := OSError;
     o_VideoFileClip := None; o_audio := true;
     o_write_audiofile := EA_falla OSError true;
     o_close := None; o_cuda_is_available := false; o_load_model := None;
     o_transcribe := T_dict (Some segmentos_ej); o_remove := true;
     o_open_dump := W_ok; o_str := fun _ => lit "error" |}.


(** * Proofs *)

(** ** Binary64 arithmetic is exact where the formatter needs it *)

(** Bits of a positive number *)
Lemma digits2_pos_cotas (m : positive) :
  2 ^ (Zpos (digits2_pos m) - 1) <= Zpos m < 2 ^ Zpos (digits2_pos m).
Proof.
  induction m as [m IH|m IH|]; cbn [digits2_pos].
  - rewrite Pos2Z.inj_succ. replace (Z.succ (Zpos (digits2_pos m)) - 1) with (Z.succ (Zpos (digits2_pos m) - 1)) by lia.
    rewrite !Z.pow_succ_r by lia. lia.
  - rewrite Pos2Z.inj_succ. replace (Z.succ (Zpos (digits2_pos m)) - 1) with (Z.succ (Zpos (digits2_pos m) - 1)) by lia.
    rewrite !Z.pow_succ_r by lia. lia.
  - simpl. lia.
Qed.

Lemma digits2_pos_unico (m : positive) (d : Z) :
  2 ^ (d - 1) <= Zpos m < 2 ^ d → Zpos (digits2_pos m) = d.
Proof.
  intros [Hlo Hhi]. pose proof (digits2_pos_cotas m) as [Hlo' Hhi'].
  assert (0 < d). { destruct (Z.lt_trichotomy d 0) as [H|[H|H]]; auto.
    - rewrite Z.pow_neg_r in Hhi by lia. lia.
    - subst. simpl in Hhi. lia. }
  destruct (Z.lt_trichotomy (Zpos (digits2_pos m)) d) as [H1|[H1|H1]]; auto.
  - assert (2 ^ Zpos (digits2_pos m) <= 2 ^ (d - 1)) by (apply Z.pow_le_mono_r; lia). lia.
  - assert (2 ^ d <= 2 ^ (Zpos (digits2_pos m) - 1)) by (apply Z.pow_le_mono_r; lia). lia.
Qed.

Lemma digits2_pos_mul_pow2 (m : positive) (k : Z) (p : positive) :
  0 <= k → Zpos p = Zpos m * 2 ^ k → Zpos (digits2_pos p) = Zpos (digits2_pos m) + k.
Proof.
  intros Hk Hp. apply digits2_pos_unico. rewrite Hp.
  pose proof (digits2_pos_cotas m) as [Hlo Hhi].
  replace (Zpos (digits2_pos m) + k - 1) with ((Zpos (digits2_pos m) - 1) + k) by lia.
  rewrite !Z.pow_add_r by lia.
  assert (0 < 2 ^ k) by (apply Z.pow_pos_nonneg; lia). nia.
Qed.

(** Shifting a mantissa left multiplies it by a power of two. *)
Lemma iter_xO_pow2 (m d : positive) :
  Zpos (Pos.iter xO m d) = Zpos m * 2 ^ Zpos d.
Proof.
  induction d as [|d IH] using Pos.peano_ind.
  - simpl. lia.
  - rewrite Pos.iter_succ, Pos2Z.inj_succ, Z.pow_succ_r by lia.
    rewrite Pos2Z.inj_xO, IH. lia.
Qed.

(** The iterator of [SpecFloat] is the one of [Pos]. *)
Lemma iter_pos_iter {A} (f : A → A) (p : positive) : ∀ x, SpecFloat.iter_pos f p x = Pos.iter f x p.
Proof.
  induction p as [p IH|p IH|]; intros x; simpl.
  - rewrite !IH. rewrite Pos.iter_swap. f_equal. apply Pos.iter_swap.
  - rewrite !IH. reflexivity.
  - reflexivity.
Qed.

(** One step of the right shift loses nothing on an even mantissa. *)
Lemma shr_1_par (m : Z) :
  0 <= m → Z.even m = true →
  shr_1 {| shr_m := m; shr_r := false; shr_s := false |}
  = {| shr_m := m / 2; shr_r := false; shr_s := false |}.
Proof.
  intros Hm He. destruct m as [|[p|p|]|p]; try discriminate; try lia.
  - reflexivity.
  - simpl. f_equal. rewrite Pos2Z.inj_xO. rewrite Z.mul_comm, Z.div_mul by lia. reflexivity.
Qed.

(** A right shift by [p] bits is exact on a multiple of [2^p]. *)
Lemma iter_shr_exacto (p : positive) (m : Z) :
  0 <= m → (2 ^ Zpos p | m) →
  SpecFloat.iter_pos shr_1 p {| shr_m := m; shr_r := false; shr_s := false |}
  = {| shr_m := m / 2 ^ Zpos p; shr_r := false; shr_s := false |}.
Proof.
  rewrite iter_pos_iter. revert m.
  induction p as [|p IH] using Pos.peano_ind; intros m Hm [c Hc].
  - simpl Pos.iter. apply shr_1_par; [lia|]. subst. rewrite Z.even_mul. simpl. apply orb_true_r.
  - rewrite Pos.iter_succ. rewrite Pos2Z.inj_succ, Z.pow_succ_r in * by lia.
    assert (0 < 2 ^ Zpos p) by (apply Z.pow_pos_nonneg; lia).
    rewrite IH; [|lia|exists (c * 2); lia].
    assert (Hq : m / 2 ^ Zpos p = c * 2).
    { subst. replace (c * (2 * 2 ^ Zpos p)) with (c * 2 * 2 ^ Zpos p) by lia. apply Z.div_mul. lia. }
    rewrite shr_1_par; [|nia|rewrite Hq, Z.even_mul; simpl; apply orb_true_r].
    f_equal. rewrite Z.div_div by lia. f_equal. lia.
Qed.

Lemma fexp_eq (e : Z) : fexp 53 1024 e = Z.max (e - 53) (-1074).
Proof. reflexivity. Qed.

(** Rounding is the identity on a mantissa whose dropped bits are zero. *)
Lemma binary_round_aux_exacto (s : bool) (m : positive) (e k : Z) :
  k = Z.max 0 (fexp 53 1024 (Zpos (digits2_pos m) + e) - e) →
  (2 ^ k | Zpos m) →
  e + k <= 971 →
  binary_round_aux 53 1024 s (Zpos m) e loc_Exact
  = S754_finite s (Z.to_pos (Zpos m / 2 ^ k)) (e + k).
Proof.
  intros Hk Hdiv Hmax.
  unfold binary_round_aux, shr_fexp. cbn [Zdigits2 shr_record_of_loc].
  remember (fexp 53 1024 (Zpos (digits2_pos m) + e) - e) as n eqn:Hn.
  destruct n as [|p|p];
    [assert (k = 0) by lia|assert (k = Zpos p) by lia|assert (k = 0) by lia];
    clear Hk; subst k.
  - (* no shift *)
    cbn [shr shr_m loc_of_shr_record round_nearest_even Zdigits2 shr_record_of_loc].
    rewrite <- Hn. cbn [shr shr_m].
    rewrite Z.add_0_r in *. rewrite Z.div_1_r. cbn [Z.to_pos].
    destruct (Z.leb_spec e (1024 - 53)); [reflexivity|lia].
  - cbn [shr]. rewrite iter_shr_exacto by (auto; lia).
    cbn [shr_m loc_of_shr_record round_nearest_even].
    assert (Hpow : 0 < 2 ^ Zpos p) by (apply Z.pow_pos_nonneg; lia).
    destruct Hdiv as [c Hc].
    assert (Hq : Zpos m / 2 ^ Zpos p = c) by (rewrite Hc; apply Z.div_mul; lia).
    rewrite Hq. assert (0 < c) by nia.
    destruct c as [|c|c]; try lia.
    cbn [Zdigits2 shr_record_of_loc].
    assert (Hd : Zpos (digits2_pos m) = Zpos (digits2_pos c) + Zpos p).
    { apply digits2_pos_mul_pow2; [lia|exact Hc]. }
    replace (fexp 53 1024 (Zpos (digits2_pos c) + (e + Zpos p)) - (e + Zpos p)) with 0.
    2:{ replace (Zpos (digits2_pos c) + (e + Zpos p)) with (Zpos (digits2_pos m) + e) by lia. lia. }
    cbn [shr shr_m Z.to_pos].
    destruct (Z.leb_spec (e + Zpos p) (1024 - 53)); [reflexivity|lia].
  - cbn [shr shr_m loc_of_shr_record round_nearest_even Zdigits2 shr_record_of_loc].
    rewrite <- Hn. cbn [shr shr_m].
    rewrite Z.add_0_r in *. rewrite Z.div_1_r. cbn [Z.to_pos].
    destruct (Z.leb_spec e (1024 - 53)); [reflexivity|lia].
Qed.

(** [normalize] is exact on a representable value. *)
Lemma normalize_exacto (n : positive) (e : Z) (s sz : bool) :
  let fe := fexp 53 1024 (Zpos (digits2_pos n) + e) in
  fe <= 971 →
  (e < fe → (2 ^ (fe - e) | Zpos n)) →
  normalize (cond_Zopp s (Zpos n)) e sz
  = S754_finite s (Z.to_pos (if e <? fe then Zpos n / 2 ^ (fe - e) else Zpos n * 2 ^ (e - fe))) fe.
Proof.
  intros fe Hmax Hdiv.
  assert (Hr : normalize (cond_Zopp s (Zpos n)) e sz = binary_round 53 1024 s n e).
  { destruct s; reflexivity. }
  rewrite Hr. unfold binary_round, shl_align. fold fe.
  destruct (Z.ltb_spec e fe) as [Hlt|Hge].
  - assert (Hz : fe - e = Zpos (Z.to_pos (fe - e))) by (rewrite Z2Pos.id; lia).
    rewrite Hz at 1.
    rewrite (binary_round_aux_exacto s n e (fe - e)); [f_equal; lia| |auto|lia].
    fold fe. lia.
  - destruct (fe - e) as [|p|p] eqn:Hp.
    + assert (fe = e) by lia.
      rewrite (binary_round_aux_exacto s n e 0); [|fold fe; lia|exists (Zpos n); lia|lia].
      f_equal; [|lia]. replace (e - fe) with 0 by lia. rewrite Z.div_1_r, Z.mul_1_r. reflexivity.
    + lia.
    + assert (Hef : e - fe = Zpos p) by lia.
      assert (Hm : Zpos (Pos.iter xO n p) = Zpos n * 2 ^ Zpos p) by apply iter_xO_pow2.
      rewrite (binary_round_aux_exacto s (Pos.iter xO n p) fe 0).
      * rewrite Z.div_1_r, Z.add_0_r, Hm, Hef. reflexivity.
      * rewrite (digits2_pos_mul_pow2 n (Zpos p) _ ltac:(lia) Hm).
        replace (Zpos (digits2_pos n) + Zpos p + fe) with (Zpos (digits2_pos n) + e) by lia.
        fold fe. lia.
      * exists (Zpos (Pos.iter xO n p)). lia.
      * lia.
Qed.

(** What a canonical mantissa and exponent satisfy. *)
Lemma bounded_inv (m : positive) (e : Z) :
  bounded 53 1024 m e = true →
  e = Z.max (Zpos (digits2_pos m) + e - 53) (-1074) ∧ e <= 971.
Proof.
  unfold bounded, canonical_mantissa. rewrite andb_true_iff, Z.eqb_eq, Z.leb_le, fexp_eq. lia.
Qed.

Lemma bounded_intro (m : positive) (e : Z) :
  e = Z.max (Zpos (digits2_pos m) + e - 53) (-1074) → e <= 971 →
  bounded 53 1024 m e = true.
Proof.
  intros H1 H2. unfold bounded, canonical_mantissa.
  rewrite andb_true_iff, Z.eqb_eq, Z.leb_le, fexp_eq. lia.
Qed.

Lemma bounded_cotas (m : positive) (e : Z) :
  bounded 53 1024 m e = true → -1074 <= e <= 971 ∧ Zpos m < 2 ^ 53.
Proof.
  intros H. apply bounded_inv in H as [H1 H2]. split; [lia|].
  pose proof (digits2_pos_cotas m) as [_ Hhi].
  assert (Zpos (digits2_pos m) <= 53) by lia.
  assert (2 ^ Zpos (digits2_pos m) <= 2 ^ 53) by (apply Z.pow_le_mono_r; lia). lia.
Qed.

(** The position of the leading bit is determined by the value. *)
Lemma digits2_pos_valor (n c : positive) (a b : Z) :
  0 <= a → 0 <= b → Zpos n * 2 ^ a = Zpos c * 2 ^ b →
  Zpos (digits2_pos n) + a = Zpos (digits2_pos c) + b.
Proof.
  intros Ha Hb H.
  pose proof (digits2_pos_cotas n) as [Hn1 Hn2].
  pose proof (digits2_pos_cotas c) as [Hc1 Hc2].
  set (dn := Zpos (digits2_pos n)) in *. set (dc := Zpos (digits2_pos c)) in *.
  assert (0 < dn) by (unfold dn; lia). assert (0 < dc) by (unfold dc; lia).
  assert (Pa : 0 < 2 ^ a) by (apply Z.pow_pos_nonneg; lia).
  assert (Pb : 0 < 2 ^ b) by (apply Z.pow_pos_nonneg; lia).
  assert (L1 : 2 ^ (dn - 1 + a) <= Zpos n * 2 ^ a) by (rewrite Z.pow_add_r by lia; nia).
  assert (L2 : Zpos n * 2 ^ a < 2 ^ (dn + a)) by (rewrite Z.pow_add_r by lia; nia).
  assert (L3 : 2 ^ (dc - 1 + b) <= Zpos c * 2 ^ b) by (rewrite Z.pow_add_r by lia; nia).
  assert (L4 : Zpos c * 2 ^ b < 2 ^ (dc + b)) by (rewrite Z.pow_add_r by lia; nia).
  destruct (Z.lt_trichotomy (dn + a) (dc + b)) as [Hlt|[Heq|Hgt]]; [|exact Heq|].
  - assert (2 ^ (dn + a) <= 2 ^ (dc - 1 + b)) by (apply Z.pow_le_mono_r; lia). lia.
  - assert (2 ^ (dc + b) <= 2 ^ (dn - 1 + a)) by (apply Z.pow_le_mono_r; lia). lia.
Qed.

(** [normalize] on a value that fits: 53 bits at some exponent [e0]. *)
Lemma normalize_representable (n : positive) (e : Z) (sz : bool) (c : positive) (e0 : Z) :
  -1074 <= e → -1074 <= e0 <= 971 → Zpos c < 2 ^ 53 →
  Zpos n * 2 ^ (e + 1074) = Zpos c * 2 ^ (e0 + 1074) →
  nn (normalize (Zpos n) e sz)
  ∧ escala (normalize (Zpos n) e sz) = Zpos n * 2 ^ (e + 1074)
  ∧ Float.no_cero (normalize (Zpos n) e sz) = true.
Proof.
  intros He He0 Hc Hval.
  pose proof (digits2_pos_valor n c (e + 1074) (e0 + 1074) ltac:(lia) ltac:(lia) Hval) as Hdig.
  pose proof (digits2_pos_cotas c) as [Hc1 Hc2].
  assert (Hdc : Zpos (digits2_pos c) <= 53).
  { destruct (Z.le_gt_cases (Zpos (digits2_pos c)) 53) as [|Hgt]; auto.
    assert (2 ^ 53 <= 2 ^ (Zpos (digits2_pos c) - 1)) by (apply Z.pow_le_mono_r; lia). lia. }
  set (fe := fexp 53 1024 (Zpos (digits2_pos n) + e)).
  assert (Hfe : fe = Z.max (Zpos (digits2_pos n) + e - 53) (-1074)) by reflexivity.
  assert (Hfe0 : fe <= e0) by lia.
  assert (Hdiv : e < fe → (2 ^ (fe - e) | Zpos n)).
  { intros Hlt. exists (Zpos c * 2 ^ (e0 - fe)).
    rewrite <- Z.mul_assoc, <- Z.pow_add_r by lia.
    replace (e0 - fe + (fe - e)) with (e0 - e) by lia.
    apply (Z.mul_reg_r _ _ (2 ^ (e + 1074))); [apply Z.pow_nonzero; lia|].
    rewrite Hval, <- Z.mul_assoc, <- Z.pow_add_r by lia. do 2 f_equal. lia. }
  pose proof (normalize_exacto n e false sz ltac:(fold fe; lia) Hdiv) as Hn.
  fold fe in Hn. cbn [cond_Zopp] in Hn. rewrite Hn.
  set (M := if e <? fe then Zpos n / 2 ^ (fe - e) else Zpos n * 2 ^ (e - fe)).
  assert (HM : M * 2 ^ (fe + 1074) = Zpos n * 2 ^ (e + 1074)).
  { unfold M. destruct (Z.ltb_spec e fe) as [Hlt|Hge].
    - destruct (Hdiv Hlt) as [t Ht]. rewrite Ht, Z.div_mul by (apply Z.pow_nonzero; lia).
      rewrite <- Z.mul_assoc, <- Z.pow_add_r by lia. do 2 f_equal. lia.
    - rewrite <- Z.mul_assoc, <- Z.pow_add_r by lia. do 2 f_equal. lia. }
  assert (HMpos : 0 < M).
  { assert (0 < 2 ^ (fe + 1074)) by (apply Z.pow_pos_nonneg; lia).
    assert (0 < 2 ^ (e + 1074)) by (apply Z.pow_pos_nonneg; lia). nia. }
  assert (HMid : Zpos (Z.to_pos M) = M) by (apply Z2Pos.id; exact HMpos).
  repeat split.
  - cbn [nn]. apply bounded_intro; [|lia].
    assert (Zpos (digits2_pos (Z.to_pos M)) + (fe + 1074) = Zpos (digits2_pos n) + (e + 1074)).
    { apply digits2_pos_valor; [lia|lia|]. rewrite HMid. exact HM. }
    lia.
  - cbn [escala cond_Zopp]. rewrite HMid. exact HM.
Qed.

Lemma shl_align_valor (mx : positive) (ex ez : Z) :
  ez <= ex → Zpos (fst (shl_align mx ex ez)) = Zpos mx * 2 ^ (ex - ez).
Proof.
  intros H. unfold shl_align. destruct (ez - ex) as [|d|d] eqn:Hd.
  - replace (ex - ez) with 0 by lia. simpl. lia.
  - lia.
  - cbn [fst]. rewrite iter_xO_pow2. do 2 f_equal. lia.
Qed.

Lemma escala_alineada (mx : positive) (ex ez : Z) :
  -1074 <= ez <= ex →
  Zpos (fst (shl_align mx ex ez)) * 2 ^ (ez + 1074) = Zpos mx * 2 ^ (ex + 1074).
Proof.
  intros H. rewrite shl_align_valor by lia.
  rewrite <- Z.mul_assoc, <- Z.pow_add_r by lia. do 2 f_equal. lia.
Qed.

Lemma escala_nn (x : float) : nn x → 0 <= escala x.
Proof.
  destruct x as [s|s| |[|] m e]; simpl; try lia; try contradiction.
Qed.

Lemma escala_cero (x : float) : nn x → escala x = 0 → Float.no_cero x = false.
Proof.
  destruct x as [s|s| |[|] m e]; simpl; try contradiction; auto.
  intros H. apply bounded_cotas in H. assert (0 < 2 ^ (e + 1074)) by (apply Z.pow_pos_nonneg; lia). nia.
Qed.

Lemma negativo_nn (x : float) : nn x → Float.negativo x = false.
Proof. destruct x as [s|s| |[|] m e]; simpl; try contradiction; auto. Qed.

Lemma signbit_nn (x : float) : nn x → Float.no_cero x = true → Float.signbit x = false.
Proof. destruct x as [s|s| |[|] m e]; simpl; try contradiction; auto; discriminate. Qed.

(** [fmod] is exact. *)
Lemma fmod_escala (mx my : positive) (ex ey : Z) :
  bounded 53 1024 mx ex = true → bounded 53 1024 my ey = true →
  let x := S754_finite false mx ex in
  let y := S754_finite false my ey in
  nn (Float.fmod x y) ∧ escala (Float.fmod x y) = escala x mod escala y.
Proof.
  intros Hx Hy x y.
  pose proof (bounded_cotas _ _ Hx) as [Hex Hmx].
  pose proof (bounded_cotas _ _ Hy) as [Hey Hmy].
  unfold x, y, Float.fmod. cbn [escala cond_Zopp].
  set (ez := Z.min ex ey).
  set (X := Zpos (fst (shl_align mx ex ez))).
  set (Y := Zpos (fst (shl_align my ey ez))).
  assert (HX : X * 2 ^ (ez + 1074) = Zpos mx * 2 ^ (ex + 1074)) by (apply escala_alineada; lia).
  assert (HY : Y * 2 ^ (ez + 1074) = Zpos my * 2 ^ (ey + 1074)) by (apply escala_alineada; lia).
  assert (Hp : 0 < 2 ^ (ez + 1074)) by (apply Z.pow_pos_nonneg; lia).
  rewrite <- HX, <- HY, Zmult_mod_distr_r.
  assert (Hrem : Z.rem X Y = X mod Y) by (apply Z.rem_mod_nonneg; unfold X, Y; lia).
  rewrite Hrem.
  assert (Hr : 0 <= X mod Y < Y) by (apply Z.mod_pos_bound; unfold Y; lia).
  assert (Hle : X mod Y <= X) by (apply Z.mod_le; unfold X, Y; lia).
  destruct (X mod Y) as [|r|r] eqn:Hmod; try lia.
  - simpl. auto.
  - assert (Hr53 : Zpos r < 2 ^ 53).
    { destruct (Z.le_ge_cases ex ey).
      - assert (X = Zpos mx). { unfold X. rewrite shl_align_valor by lia. replace (ex - ez) with 0 by lia. lia. } lia.
      - assert (Y = Zpos my). { unfold Y. rewrite shl_align_valor by lia. replace (ey - ez) with 0 by lia. lia. } lia. }
    destruct (normalize_representable r ez false r ez) as (H1 & H2 & _); try lia.
    split; [exact H1|]. exact H2.
Qed.

(** A subtraction whose exact result fits is exact. *)
Lemma sub_escala (a b : float) :
  nn a → nn b → representable (escala a - escala b) →
  nn (Float.sub a b) ∧ escala (Float.sub a b) = escala a - escala b.
Proof.
  intros Ha Hb Hrep.
  destruct a as [sa|sa| |[|] ma ea], b as [sb|sb| |[|] mb eb]; try contradiction.
  - destruct sa, sb; simpl; auto.
  - exfalso. cbn [nn] in Hb. apply bounded_cotas in Hb as [Hb _].
    assert (0 < 2 ^ (eb + 1074)) by (apply Z.pow_pos_nonneg; lia).
    cbn [escala cond_Zopp] in Hrep.
    destruct Hrep as [H0|(c & e0 & HN & _ & He0)]; [nia|].
    assert (0 < 2 ^ (e0 + 1074)) by (apply Z.pow_pos_nonneg; lia). nia.
  - cbn [Float.sub SFsub escala]. split; [exact Ha|]. lia.
  - cbn [nn] in Ha, Hb.
    pose proof (bounded_cotas _ _ Ha) as [Hea Hma].
    pose proof (bounded_cotas _ _ Hb) as [Heb Hmb].
    unfold Float.sub, SFsub. cbn [escala cond_Zopp] in *.
    set (ez := Z.min ea eb).
    set (X := Zpos (fst (shl_align ma ea ez))).
    set (Y := Zpos (fst (shl_align mb eb ez))).
    assert (HX : X * 2 ^ (ez + 1074) = Zpos ma * 2 ^ (ea + 1074)) by (apply escala_alineada; lia).
    assert (HY : Y * 2 ^ (ez + 1074) = Zpos mb * 2 ^ (eb + 1074)) by (apply escala_alineada; lia).
    assert (Hp : 0 < 2 ^ (ez + 1074)) by (apply Z.pow_pos_nonneg; lia).
    rewrite <- HX, <- HY in *. rewrite <- Z.mul_sub_distr_r in *.
    change (binary_normalize Float.prec Float.emax (X - Y) ez false)
      with (Float.normalize (X - Y) ez false).
    destruct Hrep as [H0|(c & e0 & HN & Hc & He0)].
    + assert (X - Y = 0) by nia. rewrite H. simpl. auto.
    + assert (0 < 2 ^ (e0 + 1074)) by (apply Z.pow_pos_nonneg; lia).
      destruct (X - Y) as [|n|n] eqn:Hn; try nia.
      destruct (normalize_representable n ez false c e0) as (H1 & H2 & _); try lia.
      split; [exact H1|exact H2].
Qed.

(** [floor] of a non-negative float. *)
Lemma floor_escala (a : float) :
  nn a → nn (Float.floor a) ∧ escala (Float.floor a) = escala a / 2 ^ 1074 * 2 ^ 1074.
Proof.
  intros Ha. destruct a as [sa|sa| |[|] m e]; try contradiction.
  - simpl. auto.
  - cbn [nn] in Ha. pose proof (bounded_cotas _ _ Ha) as [He Hm].
    cbn [Float.floor escala cond_Zopp].
    destruct (Z.leb_spec 0 e) as [Hpos|Hneg].
    + split; [exact Ha|]. cbn [escala cond_Zopp].
      rewrite Z.pow_add_r, Z.mul_assoc, Z.div_mul by (try apply Z.pow_nonzero; lia). reflexivity.
    + rewrite Z.shiftr_div_pow2 by lia.
      assert (Hq : Zpos m * 2 ^ (e + 1074) / 2 ^ 1074 = Zpos m / 2 ^ (- e)).
      { replace (2 ^ 1074) with (2 ^ (- e) * 2 ^ (e + 1074)) by (rewrite <- Z.pow_add_r by lia; f_equal; lia).
        apply Z.div_mul_cancel_r; apply Z.pow_nonzero; lia. }
      rewrite Hq.
      assert (Hp : 0 < 2 ^ (- e)) by (apply Z.pow_pos_nonneg; lia).
      assert (Hb : 0 <= Zpos m / 2 ^ (- e) <= Zpos m).
      { split; [apply Z.div_pos; lia|]. apply Z.div_le_upper_bound; nia. }
      destruct (Zpos m / 2 ^ (- e)) as [|n|n] eqn:Hn; try lia.
      * simpl. auto.
      * destruct (normalize_representable n 0 false n 0) as (H1 & H2 & _); try lia.
        split; [exact H1|]. rewrite H2. reflexivity.
Qed.

(** [int] of a non-negative float. *)
Lemma to_int_escala (a : float) :
  nn a → Float.to_int a = Ret (escala a / 2 ^ 1074).
Proof.
  intros Ha. destruct a as [sa|sa| |[|] m e]; try contradiction.
  - reflexivity.
  - cbn [nn] in Ha. pose proof (bounded_cotas _ _ Ha) as [He Hm].
    cbn [Float.to_int escala cond_Zopp]. f_equal.
    destruct (Z.leb_spec 0 e) as [Hpos|Hneg].
    + rewrite Z.shiftl_mul_pow2 by lia.
      rewrite Z.pow_add_r, Z.mul_assoc, Z.div_mul by (try apply Z.pow_nonzero; lia). reflexivity.
    + rewrite Z.shiftl_div_pow2 by lia.
      replace (2 ^ 1074) with (2 ^ (- e) * 2 ^ (e + 1074)) by (rewrite <- Z.pow_add_r by lia; f_equal; lia).
      symmetry. apply Z.div_mul_cancel_r; apply Z.pow_nonzero; lia.
Qed.

Lemma div_eucl_multiplo (q b : Z) : 0 < b → Z.div_eucl (q * b) b = (q, 0).
Proof.
  intros Hb. pose proof (Z.div_mul q b ltac:(lia)) as Hd.
  pose proof (Z.mod_mul q b ltac:(lia)) as Hm.
  unfold Z.div, Z.modulo in Hd, Hm. destruct (Z.div_eucl (q * b) b). simpl in *. congruence.
Qed.

(** A division whose exact quotient is an integer below 2^53 is exact. *)
Lemma div_escala (ma mb : positive) (ea eb : Z) (K : positive) :
  bounded 53 1024 ma ea = true → bounded 53 1024 mb eb = true →
  Zpos K < 2 ^ 53 →
  Zpos ma * 2 ^ (ea + 1074) = Zpos K * (Zpos mb * 2 ^ (eb + 1074)) →
  let r := Float.div (S754_finite false ma ea) (S754_finite false mb eb) in
  nn r ∧ escala r = Zpos K * 2 ^ 1074.
Proof.
  intros Ha Hb HK Hval r.
  pose proof (bounded_cotas _ _ Ha) as [Hea Hma].
  pose proof (bounded_cotas _ _ Hb) as [Heb Hmb].
  pose proof (digits2_pos_cotas ma) as [Ha1 Ha2].
  pose proof (digits2_pos_cotas mb) as [Hb1 Hb2].
  pose proof (digits2_pos_cotas K) as [HK1 HK2].
  set (d1 := Zpos (digits2_pos ma)) in *. set (d2 := Zpos (digits2_pos mb)) in *.
  set (dK := Zpos (digits2_pos K)) in *.
  assert (Hpos : 0 < d1 ∧ 0 < d2 ∧ 0 < dK) by (unfold d1, d2, dK; lia).
  assert (HdK53 : dK <= 53).
  { destruct (Z.le_gt_cases dK 53) as [|Hgt]; auto.
    assert (2 ^ 53 <= 2 ^ (dK - 1)) by (apply Z.pow_le_mono_r; lia). lia. }
  assert (Hd : d1 + ea - (d2 + eb) <= dK).
  { assert (PA : 0 < 2 ^ (ea + 1074)) by (apply Z.pow_pos_nonneg; lia).
    assert (PB : 0 < 2 ^ (eb + 1074)) by (apply Z.pow_pos_nonneg; lia).
    assert (L1 : 2 ^ (d1 - 1 + (ea + 1074)) <= Zpos ma * 2 ^ (ea + 1074)).
    { rewrite Z.pow_add_r by lia. nia. }
    assert (L2 : Zpos K * (Zpos mb * 2 ^ (eb + 1074)) < 2 ^ (dK + (d2 + (eb + 1074)))).
    { rewrite (Z.pow_add_r 2 dK), (Z.pow_add_r 2 d2) by lia.
      assert (0 < 2 ^ d2) by (apply Z.pow_pos_nonneg; lia).
      assert (Zpos mb * 2 ^ (eb + 1074) < 2 ^ d2 * 2 ^ (eb + 1074)) by nia. nia. }
    assert (L3 : d1 - 1 + (ea + 1074) < dK + (d2 + (eb + 1074))).
    { apply (Z.pow_lt_mono_r_iff 2); lia. }
    lia. }
  unfold r, Float.div, SFdiv, SFdiv_core_binary. cbn [Zdigits2 xorb]. fold d1 d2.
  set (e' := Z.min (fexp Float.prec Float.emax (d1 + ea - (d2 + eb))) (ea - eb)).
  assert (He' : e' <= 0 ∧ e' <= ea - eb ∧ e' <= Z.max (dK - 53) (-1074)).
  { unfold e'. change (fexp Float.prec Float.emax) with (fexp 53 1024). rewrite fexp_eq. lia. }
  destruct He' as (He0 & He1 & He2).
  set (s := ea - eb - e').
  assert (Hm' : match s with Z.pos _ => Z.shiftl (Zpos ma) s | 0 => Zpos ma | Z.neg _ => 0 end
                = Zpos K * 2 ^ (- e') * Zpos mb).
  { assert (Hs : 0 <= s) by (unfold s; lia).
    assert (Hsh : match s with Z.pos _ => Z.shiftl (Zpos ma) s | 0 => Zpos ma | Z.neg _ => 0 end
                  = Zpos ma * 2 ^ s).
    { destruct s eqn:Es; try lia. rewrite Z.shiftl_mul_pow2 by lia. reflexivity. }
    rewrite Hsh.
    apply (Z.mul_reg_r _ _ (2 ^ (eb + 1074))); [apply Z.pow_nonzero; lia|].
    rewrite <- (Z.mul_assoc (Zpos ma)), <- Z.pow_add_r by lia.
    replace (s + (eb + 1074)) with ((ea + 1074) + (- e')) by (unfold s; lia).
    rewrite Z.pow_add_r, Z.mul_assoc, Hval by lia. ring. }
  rewrite Hm'. rewrite div_eucl_multiplo by lia.
  assert (Hloc : new_location (Zpos mb) 0 = loc_Exact).
  { unfold new_location, new_location_even, new_location_odd. destruct (Z.even (Zpos mb)); reflexivity. }
  rewrite Hloc.
  assert (PQ : 0 < 2 ^ (- e')) by (apply Z.pow_pos_nonneg; lia).
  assert (HQ : Zpos (Z.to_pos (Zpos K * 2 ^ (- e'))) = Zpos K * 2 ^ (- e')) by (apply Z2Pos.id; nia).
  rewrite <- HQ.
  assert (HdQ : Zpos (digits2_pos (Z.to_pos (Zpos K * 2 ^ (- e')))) = dK + - e').
  { apply digits2_pos_mul_pow2; [lia|exact HQ]. }
  set (k := Z.max 0 (Z.max (dK - 53) (-1074) - e')).
  assert (Hk : 0 <= k <= - e') by (unfold k; lia).
  assert (Hdiv : Zpos (Z.to_pos (Zpos K * 2 ^ (- e'))) = Zpos K * 2 ^ (- e' - k) * 2 ^ k).
  { rewrite HQ, <- Z.mul_assoc, <- Z.pow_add_r by lia. do 2 f_equal. lia. }
  change (binary_round_aux Float.prec Float.emax) with (binary_round_aux 53 1024).
  rewrite (binary_round_aux_exacto false _ e' k).
  - rewrite Hdiv, Z.div_mul by (apply Z.pow_nonzero; lia).
    assert (PR : 0 < 2 ^ (- e' - k)) by (apply Z.pow_pos_nonneg; lia).
    assert (HR : Zpos (Z.to_pos (Zpos K * 2 ^ (- e' - k))) = Zpos K * 2 ^ (- e' - k)) by (apply Z2Pos.id; nia).
    split.
    + cbn [nn]. apply bounded_intro; [|lia].
      rewrite (digits2_pos_mul_pow2 K (- e' - k) _ ltac:(lia) HR). fold dK. unfold k. lia.
    + cbn [escala cond_Zopp]. rewrite HR, <- Z.mul_assoc, <- Z.pow_add_r by (unfold k; lia).
      do 2 f_equal. lia.
  - rewrite HdQ, fexp_eq. unfold k. f_equal. lia.
  - exists (Zpos K * 2 ^ (- e' - k)). exact Hdiv.
  - unfold k. lia.
Qed.

Lemma sesenta_eq : sesenta = S754_finite false 8444249301319680 (-47).
Proof. reflexivity. Qed.

Lemma sesenta_bounded : bounded 53 1024 8444249301319680 (-47) = true.
Proof. reflexivity. Qed.

Lemma escala_sesenta : escala sesenta = 60 * 2 ^ 1074.
Proof.
  rewrite sesenta_eq. cbn [escala cond_Zopp].
  change (Zpos 8444249301319680) with (60 * 2 ^ 47).
  rewrite <- Z.mul_assoc, <- Z.pow_add_r by lia. reflexivity.
Qed.

Lemma no_cero_sesenta : Float.no_cero sesenta = true.
Proof. reflexivity. Qed.

Lemma negativo_sesenta : Float.negativo sesenta = false.
Proof. reflexivity. Qed.

Lemma nn_finito (a : float) :
  nn a → 0 < escala a → ∃ m e, a = S754_finite false m e ∧ bounded 53 1024 m e = true.
Proof.
  destruct a as [sa|sa| |[|] m e]; simpl; try contradiction; try lia. eauto.
Qed.

Section Sesenta.

Variables (m : positive) (e : Z).
Hypothesis Hx : bounded 53 1024 m e = true.
Hypothesis Hlt : Zpos m * 2 ^ (e + 1074) < 2 ^ 53 * 2 ^ 1074.

Let x := S754_finite false m e.
Let S := Zpos m * 2 ^ (e + 1074).
Let U := 2 ^ 1074.

Lemma U_pos : 0 < U.
Proof. apply Z.pow_pos_nonneg; lia. Qed.

Lemma S_pos : 0 < S.
Proof.
  apply bounded_cotas in Hx as [He _]. unfold S.
  assert (0 < 2 ^ (e + 1074)) by (apply Z.pow_pos_nonneg; lia). nia.
Qed.

(** The three float operations of the formatter on a time below 2^53. *)
Lemma fmod_sesenta :
  nn (Float.fmod x sesenta) ∧ escala (Float.fmod x sesenta) = S mod (60 * U).
Proof.
  pose proof (fmod_escala m 8444249301319680 e (-47) Hx sesenta_bounded) as H.
  cbv zeta in H. rewrite <- sesenta_eq in H. fold x in H. destruct H as [H1 H2].
  split; [exact H1|]. rewrite H2, escala_sesenta. reflexivity.
Qed.

Lemma rem_sesenta :
  ∃ r, Float.rem x sesenta = Ret r ∧ Float.to_int r = Ret (S mod (60 * U) / U).
Proof.
  destruct fmod_sesenta as [Hn He].
  unfold Float.rem. rewrite no_cero_sesenta. cbn [negb].
  destruct (Float.no_cero (Float.fmod x sesenta)) eqn:Hz.
  - rewrite (negativo_nn _ Hn), negativo_sesenta. cbn [xorb].
    eexists. split; [reflexivity|]. rewrite to_int_escala by exact Hn. rewrite He. reflexivity.
  - eexists. split; [reflexivity|]. cbn [Float.copysign_cero Float.to_int].
    f_equal. rewrite <- He.
    destruct (Float.fmod x sesenta) as [s|s| |s m' e']; try discriminate. reflexivity.
Qed.

Lemma floor_div_sesenta :
  ∃ d, Float.floor_div x sesenta = Ret d ∧ Float.to_int d = Ret (S / (60 * U)).
Proof.
  destruct fmod_sesenta as [Hn He].
  pose proof U_pos as HU. pose proof S_pos as HS.
  set (q := S / (60 * U)).
  assert (Hq : S = 60 * U * q + S mod (60 * U)) by (apply Z.div_mod; lia).
  assert (Hr : 0 <= S mod (60 * U) < 60 * U) by (apply Z.mod_pos_bound; lia).
  assert (Hq0 : 0 <= q) by (apply Z.div_pos; lia).
  assert (Hq53 : 60 * q < 2 ^ 53) by (fold S U in Hlt; nia).
  (* x - mod *)
  destruct (sub_escala x (Float.fmod x sesenta)) as [Hsn Hse]; [exact Hx|exact Hn| |].
  { rewrite He. change (escala x) with S.
    destruct (Z.eq_dec q 0) as [Hz|Hnz].
    - left. lia.
    - right. exists (Z.to_pos (60 * q)), 0. rewrite Z2Pos.id by lia. fold U. repeat split; lia. }
  rewrite He in Hse. change (escala x) with S in Hse.
  unfold Float.floor_div. rewrite no_cero_sesenta. cbn [negb].
  rewrite (negativo_nn _ Hn), negativo_sesenta.
  cbn [xorb]. rewrite andb_false_r.
  destruct (Z.eq_dec q 0) as [Hz|Hnz].
  - (* below one minute *)
    assert (Hzero : Float.no_cero (Float.sub x (Float.fmod x sesenta)) = false).
    { apply escala_cero; [exact Hsn|lia]. }
    destruct (Float.sub x (Float.fmod x sesenta)) as [s|s| |s m' e'] eqn:Hsub; try discriminate.
    change (Float.div (S754_zero s) sesenta) with (S754_zero (xorb s false)).
    cbn [Float.no_cero].
    eexists. split; [reflexivity|]. rewrite Hz. reflexivity.
  - destruct (nn_finito _ Hsn ltac:(nia)) as (ma & ea & Hsub & Hba).
    rewrite Hsub in *. cbn [escala cond_Zopp] in Hse.
    destruct (div_escala ma 8444249301319680 ea (-47) (Z.to_pos q) Hba sesenta_bounded)
      as [Hdn Hde].
    { rewrite Z2Pos.id by lia. lia. }
    { rewrite Z2Pos.id by lia. rewrite Hse.
      pose proof escala_sesenta as H60. rewrite sesenta_eq in H60. cbn [escala cond_Zopp] in H60.
      rewrite H60. fold U. lia. }
    rewrite <- sesenta_eq in Hdn, Hde. rewrite Z2Pos.id in Hde by lia. fold U in Hde.
    set (div1 := Float.div (S754_finite false ma ea) sesenta) in *.
    assert (Hnz1 : Float.no_cero div1 = true).
    { destruct (nn_finito _ Hdn ltac:(nia)) as (? & ? & -> & _). reflexivity. }
    rewrite Hnz1.
    destruct (floor_escala div1 Hdn) as [Hfn Hfe].
    rewrite Hde in Hfe. fold U in Hfe. rewrite Z.div_mul in Hfe by lia.
    destruct (sub_escala div1 (Float.floor div1) Hdn Hfn) as [Hzn Hze].
    { left. lia. }
    assert (Hz0 : Float.no_cero (Float.sub div1 (Float.floor div1)) = false).
    { apply escala_cero; [exact Hzn|lia]. }
    destruct (Float.sub div1 (Float.floor div1)) as [s|s| |s m' e'] eqn:Hsub2; try discriminate.
    cbn [SFltb SFcompare].
    eexists. split; [reflexivity|]. rewrite to_int_escala by exact Hfn.
    rewrite Hfe. fold U. rewrite Z.div_mul by lia. reflexivity.
Qed.

End Sesenta.

(** The exact minutes and seconds, on scaled integers. *)
Lemma minutos_enteros_escala (m : positive) (e : Z) :
  -1074 <= e →
  minutos_enteros (valor (S754_finite false m e)) = Zpos m * 2 ^ (e + 1074) / (60 * 2 ^ 1074).
Proof.
  intros He. unfold minutos_enteros, valor. cbn [cond_Zopp].
  destruct (Z.leb_spec 0 e) as [Hpos|Hneg].
  - unfold Qdiv, Qmult, Qinv, Qfloor, inject_Z. cbn [Qnum Qden].
    rewrite Z.mul_1_r. change (Zpos (1 * 60)) with 60.
    rewrite Z.pow_add_r, Z.mul_assoc by lia.
    rewrite Z.div_mul_cancel_r; [reflexivity|lia|apply Z.pow_nonzero; lia].
  - unfold Qdiv, Qmult, Qinv, Qfloor, inject_Z. cbn [Qnum Qden].
    rewrite Z.mul_1_r, Pos2Z.inj_mul, Pos2Z.inj_pow, Z2Pos.id by lia.
    replace (60 * 2 ^ 1074) with (2 ^ (- e) * 60 * 2 ^ (e + 1074)).
    2:{ rewrite (Z.mul_comm (2 ^ _) 60), <- Z.mul_assoc, <- Z.pow_add_r by lia. do 2 f_equal. lia. }
    rewrite Z.div_mul_cancel_r; [reflexivity| |apply Z.pow_nonzero; lia].
    assert (0 < 2 ^ (- e)) by (apply Z.pow_pos_nonneg; lia). lia.
Qed.

Lemma segundos_enteros_escala (m : positive) (e : Z) :
  -1074 <= e →
  segundos_enteros (valor (S754_finite false m e))
  = (Zpos m * 2 ^ (e + 1074)) mod (60 * 2 ^ 1074) / 2 ^ 1074.
Proof.
  intros He. unfold segundos_enteros. rewrite minutos_enteros_escala by exact He.
  unfold valor. cbn [cond_Zopp].
  assert (PU : 0 < 2 ^ 1074) by (apply Z.pow_pos_nonneg; lia).
  destruct (Z.leb_spec 0 e) as [Hpos|Hneg].
  - unfold Qminus, Qplus, Qopp, Qmult, Qfloor, inject_Z. cbn [Qnum Qden].
    change (Zpos (1 * 1)) with 1. change (Zpos (1 * (1 * 1))) with 1.
    rewrite !Z.mul_1_r, Z.div_1_r.
    rewrite Z.pow_add_r, Z.mul_assoc by lia.
    rewrite Z.div_mul_cancel_r by lia.
    rewrite Zmult_mod_distr_r, Z.div_mul by lia.
    rewrite Z.mod_eq by lia. lia.
  - unfold Qminus, Qplus, Qopp, Qmult, Qfloor, inject_Z. cbn [Qnum Qden].
    change (Zpos (1 * 1)) with 1. rewrite Pos.mul_1_r, !Z.mul_1_r.
    rewrite Pos2Z.inj_pow, Z2Pos.id by lia.
    set (d := 2 ^ (- e)). set (W := 2 ^ (e + 1074)).
    assert (Pd : 0 < d) by (apply Z.pow_pos_nonneg; lia).
    assert (PW : 0 < W) by (apply Z.pow_pos_nonneg; lia).
    assert (HU : 2 ^ 1074 = d * W) by (unfold d, W; rewrite <- Z.pow_add_r by lia; f_equal; lia).
    rewrite HU. replace (60 * (d * W)) with (60 * d * W) by ring.
    rewrite Z.div_mul_cancel_r by lia.
    rewrite Zmult_mod_distr_r, Z.div_mul_cancel_r by lia.
    f_equal. rewrite Z.mod_eq by lia. ring.
Qed.

(** Below 2^53 the formatter computes the exact minutes and seconds. *)
Lemma formatear_tiempo_trunca (x : float) :
  valid_binary 53 1024 x = true →
  SFleb (S754_zero false) x = true →
  SFltb x (Float.of_int (2 ^ 53)) = true →
  formatear_tiempo x
  = Ret (format_02d (minutos_enteros (valor x)) ++ lit ":"
           ++ format_02d (segundos_enteros (valor x))).
Proof.
  intros Hv Hle Hlt.
  destruct x as [s|s| |s m e].
  - destruct s; vm_compute; reflexivity.
  - destruct s; vm_compute in Hlt; vm_compute in Hle; discriminate.
  - vm_compute in Hle; discriminate.
  - destruct s; [vm_compute in Hle; discriminate|].
    cbn [valid_binary] in Hv.
    pose proof (bounded_inv _ _ Hv) as [Hcan Hemax].
    pose proof (bounded_cotas _ _ Hv) as [He Hm].
    pose proof (digits2_pos_cotas m) as [Hd1 Hd2].
    assert (He0 : e <= 0).
    { change (Float.of_int (2 ^ 53)) with (S754_finite false 4503599627370496 1) in Hlt.
      unfold SFltb in Hlt. cbn [SFcompare] in Hlt.
      destruct (Z.compare_spec e 1) as [Heq|Hl|Hg]; try lia; try discriminate.
      subst e. exfalso.
      assert (Zpos (digits2_pos m) = 53) by lia.
      assert (Hge : 2 ^ 52 <= Zpos m) by (rewrite H in Hd1; exact Hd1).
      rewrite Pos.compare_cont_spec in Hlt. cbn [Pos.switch_Eq] in Hlt.
      destruct (Pos.compare_spec m 4503599627370496) as [?|Hl|?]; try discriminate.
      change (2 ^ 52) with 4503599627370496 in Hge. apply Pos2Z.pos_lt_pos in Hl. clear - Hl Hge. lia. }
    assert (HS : Zpos m * 2 ^ (e + 1074) < 2 ^ 53 * 2 ^ 1074).
    { assert (0 < 2 ^ (e + 1074)) by (apply Z.pow_pos_nonneg; lia).
      assert (2 ^ (e + 1074) <= 2 ^ 1074) by (apply Z.pow_le_mono_r; lia). nia. }
    destruct (floor_div_sesenta m e Hv HS) as (d & Hd & Hdi).
    destruct (rem_sesenta m e Hv) as (r & Hr & Hri).
    unfold formatear_tiempo. change (Float.of_int 60) with sesenta.
    rewrite Hd, Hr. unfold mbind, resultado_bind. rewrite Hdi, Hri.
    rewrite minutos_enteros_escala, segundos_enteros_escala by lia. reflexivity.
Qed.

(** ** The orchestrator and the handler, step by step *)

Ltac desplegar :=
  unfold mbind, accion_bind, mret, accion_ret, raise, try_except, logging, leer_fs, poner_fs, pass, puro, exists_, Exception in *; simpl in *.

Ltac reducir :=
  cbv beta iota zeta delta
    [mbind accion_bind mret accion_ret raise try_except logging leer_fs
     poner_fs pass puro exists_ Exception];
  cbn [fs registro fst snd].

(** The extraction when every external call succeeds. *)
Lemma extraer_ok env v a w :
  extraccion_exitosa env (fs w) a →
  extraer_audio_de_video env v a w =
    (Ret (Some a), {| fs := <[a := Archivo (Audio v)]> (fs w);
                      registro := registro w ++ [(INFO, Extrayendo_audio v); (INFO, Audio_extraido a)] |}).
Proof.
  intros (H1 & H2 & H3 & H4 & H5).
  unfold extraer_audio_de_video, VideoFileClip, write_audiofile, close_clips.
  rewrite H1, H2, H3, H4. desplegar.
  destruct (fs w !! a) as [[|c]|] eqn:E; try congruence; simpl; rewrite <- !app_assoc; reflexivity.
Qed.

Lemma extraccion_devuelve_dec env : extraccion_devuelve env ∨ ¬ extraccion_devuelve env.
Proof.
  unfold extraccion_devuelve.
  destruct (o_VideoFileClip env); [right; intros (? & _); discriminate|].
  destruct (o_audio env); [|right; intros (_ & ? & _); discriminate].
  destruct (o_close env); [right; intros (_ & _ & _ & ?); discriminate|].
  destruct (o_write_audiofile env) as [| |e b].
  - left. repeat split; discriminate.
  - left. repeat split; discriminate.
  - right. intros (_ & _ & H & _). exact (H e b eq_refl).
Qed.

Lemma extraccion_exitosa_devuelve env f a :
  extraccion_exitosa env f a → extraccion_devuelve env.
Proof.
  intros (H1 & H2 & H3 & H4 & _). repeat split; try assumption.
  intros e b. rewrite H3. discriminate.
Qed.

Lemma fs_tras_extraccion_exitosa env f v a :
  extraccion_exitosa env f a →
  fs_tras_extraccion env f v a = <[a := Archivo (Audio v)]> f.
Proof.
  intros (_ & _ & H3 & _ & H5). unfold fs_tras_extraccion. rewrite H3.
  destruct (f !! a) as [[|c]|]; [contradiction|reflexivity..].
Qed.

Lemma fs_tras_extraccion_otro env f v a q :
  q ≠ a → fs_tras_extraccion env f v a !! q = f !! q.
Proof.
  intros Hq. unfold fs_tras_extraccion.
  destruct (f !! a) as [[|c]|]; [reflexivity|destruct (o_write_audiofile env)..];
    rewrite ?lookup_insert_ne by congruence; reflexivity.
Qed.

(** The extraction never raises, touches the audio path only, and returns the path exactly when every moviepy call returned. *)
Lemma extraer_casos env v a w :
  ∃ r w', extraer_audio_de_video env v a w = (Ret r, w')
    ∧ (∀ q, q ≠ a → fs w' !! q = fs w !! q)
    ∧ ((r = None ∧ ¬ extraccion_devuelve env)
       ∨ (r = Some a ∧ extraccion_devuelve env
          ∧ w' = con_registro w (fs_tras_extraccion env (fs w) v a)
                   [(INFO, Extrayendo_audio v); (INFO, Audio_extraido a)])).
Proof.
  unfold extraer_audio_de_video, VideoFileClip, write_audiofile, close_clips,
    extraccion_devuelve, fs_tras_extraccion, con_registro.
  desplegar.
  destruct (o_VideoFileClip env) eqn:E1; simpl.
  { do 2 eexists. split; [reflexivity|]. split; [reflexivity|].
    left. split; [reflexivity|]. intros (? & _). discriminate. }
  destruct (o_audio env) eqn:E2; simpl.
  2:{ do 2 eexists. split; [reflexivity|]. split; [reflexivity|].
      left. split; [reflexivity|]. intros (_ & ? & _). discriminate. }
  destruct (fs w !! a) as [[|c]|] eqn:E3; simpl.
  all: destruct (o_write_audiofile env) as [| |e [|]] eqn:E4; simpl.
  all: try (destruct (o_close env) eqn:E5; simpl).
  all: do 2 eexists; (split; [reflexivity|]); simpl; (split; [intros; simplify_map_eq; done|]).
  all: try (right; split; [reflexivity|]; split;
            [repeat split; (reflexivity || discriminate)|];
            rewrite <- ?app_assoc; reflexivity).
  all: left; split; [reflexivity|].
  all: try (intros (_ & _ & _ & ?); discriminate).
  all: intros (_ & _ & H & _); eapply H; reflexivity.
Qed.

(** The transcription never raises and leaves the file system alone. *)
Lemma transcribir_casos env a m i w :
  ∃ l, transcribir_audio_con_segmentos_local env a m i w
       = (Ret (segmentos_del_motor env), con_registro w (fs w) l).
Proof.
  unfold transcribir_audio_con_segmentos_local, segmentos_del_motor, load_model,
    transcribe_segments, con_registro.
  desplegar.
  destruct (o_cuda_is_available env); simpl.
  all: destruct (o_load_model env) as [e|]; simpl.
  all: try (destruct (es_FileNotFoundError e); simpl).
  all: try (destruct (o_transcribe env) as [s|e']; simpl).
  all: try (destruct (es_FileNotFoundError e'); simpl).
  all: rewrite <- ?app_assoc; simpl; eexists; reflexivity.
Qed.

(** The clean-up step on an existing temporary file. *)
Lemma limpiar_archivo env a c w :
  fs w !! a = Some (Archivo c) →
  limpiar env a w =
    (Ret tt, con_registro w (if o_remove env then delete a (fs w) else fs w)
               [traza_limpieza env a]).
Proof.
  intros E. unfold limpiar, os_remove, con_registro, traza_limpieza. desplegar.
  rewrite E. simpl. rewrite E. destruct (o_remove env); reflexivity.
Qed.

(** The orchestrator is the sequence of its named steps. *)
Lemma procesar_pasos env v o :
  procesar_video_a_json env v o =
    (logging INFO (Iniciando_procesamiento (JStr v));;
     r ← extraer_audio_de_video env v (ruta_audio_temporal env v);
     match r with
     | None => logging ERROR Fallo_extraccion;; mret false
     | Some a =>
         if bool_decide (a = []) then logging ERROR Fallo_extraccion;; mret false
         else
           s ← transcribir_audio_con_segmentos_local env a MODELO_WHISPER_LOCAL IDIOMA_AUDIO;
           limpiar env a;; guardar env o s
     end).
Proof. reflexivity. Qed.

Lemma bind_ret {A B} (m : accion A) (k : A → accion B) w a w' :
  m w = (Ret a, w') → (m ≫= k) w = k a w'.
Proof. intros H. unfold mbind, accion_bind. rewrite H. reflexivity. Qed.

Lemma bind_raise {A B} (m : accion A) (k : A → accion B) w e w' :
  m w = (Raise e, w') → (m ≫= k) w = (Raise e, w').
Proof. intros H. unfold mbind, accion_bind. rewrite H. reflexivity. Qed.

Ltac paso_con lem :=
  match goal with
  | |- context[(?m ≫= ?k) ?w0] =>
      let H := fresh "H" in
      let l := fresh "l" in
      destruct (lem w0) as [l H]; erewrite (bind_ret m k w0) by exact H
  end.

Lemma tmp_no_vacia env v : ruta_audio_temporal env v ≠ [].
Proof. unfold ruta_audio_temporal. simpl. discriminate. Qed.

(** The clean-up step, whatever sits at the temporary path. *)
Lemma limpiar_casos env a w :
  ∃ l, limpiar env a w =
    (Ret tt,
     con_registro w
       (match fs w !! a with
        | Some (Archivo _) => if o_remove env then delete a (fs w) else fs w
        | _ => fs w
        end) l).
Proof.
  unfold limpiar, os_remove, con_registro. desplegar.
  destruct (fs w !! a) as [[|c]|] eqn:E; simpl; rewrite ?E; simpl.
  - eexists. reflexivity.
  - destruct (o_remove env); simpl; eexists; reflexivity.
  - exists []. rewrite app_nil_r. destruct w; reflexivity.
Qed.

(** A failed extraction ends the run with [False]. *)
Lemma procesar_extraccion_fallida env v o w :
  ¬ extraccion_devuelve env →
  ∃ w', procesar_video_a_json env v o w = (Ret false, w')
        ∧ ∀ q, q ≠ ruta_audio_temporal env v → fs w' !! q = fs w !! q.
Proof.
  intros Hno. rewrite procesar_pasos.
  set (a := ruta_audio_temporal env v) in *.
  erewrite bind_ret by reflexivity.
  destruct (extraer_casos env v a (con_registro w (fs w) [(INFO, Iniciando_procesamiento (JStr v))]))
    as (r & w1 & Hex & Hfs & Hr).
  erewrite bind_ret by exact Hex.
  destruct Hr as [[-> _]|(-> & Hok & _)].
  - desplegar. eexists; split; [reflexivity|]. simpl. exact Hfs.
  - exfalso. apply Hno. exact Hok.
Qed.

(** When the extraction returns, the run reaches the last step after the clean-up. *)
Lemma procesar_extraccion_devuelve env v o w :
  let a := ruta_audio_temporal env v in
  extraccion_devuelve env →
  ∃ l, procesar_video_a_json env v o w
       = guardar env o (segmentos_del_motor env)
           (con_registro w (fs_limpio env (fs w) v a) l).
Proof.
  intros a Hok. rewrite procesar_pasos. fold a.
  erewrite bind_ret by reflexivity.
  destruct (extraer_casos env v a (con_registro w (fs w) [(INFO, Iniciando_procesamiento (JStr v))]))
    as (r & w1 & Hex & _ & Hr).
  erewrite bind_ret by exact Hex.
  destruct Hr as [[_ Hno]|(-> & _ & ->)]; [contradiction|].
  cbv beta iota.
  rewrite bool_decide_eq_false_2 by apply tmp_no_vacia.
  paso_con (transcribir_casos env a MODELO_WHISPER_LOCAL IDIOMA_AUDIO).
  paso_con (limpiar_casos env a).
  unfold con_registro; cbn [fs registro]. unfold fs_limpio.
  exists ([(INFO, Iniciando_procesamiento (JStr v)); (INFO, Extrayendo_audio v);
           (INFO, Audio_extraido a)] ++ l ++ l0).
  rewrite <- !app_assoc. reflexivity.
Qed.

(** After a successful extraction the run reaches the last step with the temporary file cleaned up. *)
Lemma procesar_extraccion_exitosa env v o w :
  let a := ruta_audio_temporal env v in
  extraccion_exitosa env (fs w) a →
  ∃ l, procesar_video_a_json env v o w
       = guardar env o (segmentos_del_motor env)
           (con_registro w (fs_tras_limpieza env (fs w) v a) (l ++ [traza_limpieza env a])).
Proof.
  intros a Hok. rewrite procesar_pasos. fold a.
  erewrite bind_ret by reflexivity.
  erewrite bind_ret by (apply extraer_ok; exact Hok).
  cbv beta iota.
  rewrite bool_decide_eq_false_2 by apply tmp_no_vacia.
  paso_con (transcribir_casos env a MODELO_WHISPER_LOCAL IDIOMA_AUDIO).
  erewrite bind_ret
    by (apply (limpiar_archivo env a (Audio v)); unfold con_registro; cbn [fs];
        apply lookup_insert_eq).
  unfold con_registro; cbn [fs registro].
  exists ([(INFO, Iniciando_procesamiento (JStr v)); (INFO, Extrayendo_audio v);
           (INFO, Audio_extraido a)] ++ l).
  f_equal. unfold fs_tras_limpieza.
  destruct (o_remove env).
  - rewrite delete_insert_eq. rewrite <- !app_assoc. reflexivity.
  - rewrite <- !app_assoc. reflexivity.
Qed.

Lemma parrafo_ret i seg p :
  parrafo i seg = Ret p →
  ∃ ini fin, formatear_tiempo (start seg) = Ret ini ∧ formatear_tiempo (end_ seg) = Ret fin
             ∧ p = registro_parrafo i seg ini fin.
Proof.
  unfold parrafo, mbind, resultado_bind, mret, resultado_ret.
  destruct (formatear_tiempo (start seg)) as [ini|]; [|discriminate].
  destruct (formatear_tiempo (end_ seg)) as [fin|]; [|discriminate].
  intros [= <-]. eauto.
Qed.

(** What the formatting loop appends. *)
Lemma formatear_segmentos_ret segs : ∀ i acc docs,
  formatear_segmentos i segs acc = Ret docs →
  ∃ nuevos, docs = acc ++ nuevos ∧ length nuevos = length segs
    ∧ ∀ j seg, segs !! j = Some seg →
        ∃ ini fin, formatear_tiempo (start seg) = Ret ini
                   ∧ formatear_tiempo (end_ seg) = Ret fin
                   ∧ nuevos !! j = Some (registro_parrafo (i + j) seg ini fin).
Proof.
  induction segs as [|seg resto IH]; intros i acc docs H; simpl in H.
  - injection H as <-. exists []. rewrite app_nil_r. repeat split; auto.
    intros j seg Hj. rewrite lookup_nil in Hj. discriminate.
  - unfold mbind, resultado_bind in H.
    destruct (parrafo i seg) as [p|] eqn:Hp; [|discriminate].
    apply IH in H as (nuevos & -> & Hlen & Hreg).
    apply parrafo_ret in Hp as (ini & fin & Hi & Hf & ->).
    exists (registro_parrafo i seg ini fin :: nuevos).
    rewrite <- app_assoc. split; [reflexivity|]. split; [simpl; congruence|].
    intros [|j] seg' Hj; simpl in Hj.
    + injection Hj as <-. exists ini, fin. rewrite Nat.add_0_r. auto.
    + destruct (Hreg j seg' Hj) as (ini' & fin' & ? & ? & Hn).
      exists ini', fin'. repeat split; auto. simpl.
      replace (i + S j)%nat with (S i + j)%nat by lia. exact Hn.
Qed.

(** [open_dump] in closed form. *)
Lemma open_dump_efecto env o doc w :
  open_dump env o doc w =
    (match (efecto_open_dump env (fs w) o doc).1 with None => Ret tt | Some e => Raise e end,
     con_registro w (efecto_open_dump env (fs w) o doc).2 []).
Proof.
  unfold open_dump, efecto_open_dump, con_registro. desplegar. rewrite app_nil_r.
  destruct (fs w !! o) as [[|c]|]; simpl.
  1: destruct w; reflexivity.
  all: destruct (o_open_dump env); simpl; try reflexivity; destruct w; reflexivity.
Qed.

Lemma guardar_fallo env o w :
  guardar env o None w = (Ret false, con_registro w (fs w) [(ERROR, Fallo_transcripcion)]).
Proof. reflexivity. Qed.

Lemma guardar_vacio env o w :
  ∃ l, guardar env o (Some []) w
       = (resultado_escritura true (efecto_open_dump env (fs w) o documento_sin_segmentos).1,
          con_registro w (efecto_open_dump env (fs w) o documento_sin_segmentos).2 l).
Proof.
  unfold guardar. erewrite bind_ret by reflexivity.
  unfold try_except, mbind at 1 2, accion_bind at 1 2.
  unfold mbind, accion_bind. rewrite open_dump_efecto.
  destruct (efecto_open_dump _ _ _ _) as [[e|] f'] eqn:E; cbn [fst snd resultado_escritura].
  - destruct (es_OSError e);
      desplegar; unfold con_registro; simpl; rewrite <- ?app_assoc; eexists; reflexivity.
  - desplegar. unfold con_registro. simpl. rewrite <- !app_assoc. eexists; reflexivity.
Qed.

Lemma guardar_segmentos env o seg resto w :
  ∃ l,
    match formatear_segmentos 0 (seg :: resto) [] with
    | Raise e => guardar env o (Some (seg :: resto)) w = (Raise e, con_registro w (fs w) l)
    | Ret docs =>
        guardar env o (Some (seg :: resto)) w =
          (resultado_escritura false (efecto_open_dump env (fs w) o (JArr docs)).1,
           con_registro w (efecto_open_dump env (fs w) o (JArr docs)).2 l)
    end.
Proof.
  unfold guardar. erewrite bind_ret by reflexivity.
  unfold puro.
  destruct (formatear_segmentos 0 (seg :: resto) []) as [docs|e] eqn:Hf.
  - erewrite bind_ret by reflexivity.
    unfold try_except, mbind, accion_bind. rewrite open_dump_efecto.
    destruct (efecto_open_dump _ _ _ _) as [[e|] f'] eqn:E; cbn [fst snd resultado_escritura].
    + destruct (es_OSError e);
        desplegar; unfold con_registro; simpl; rewrite <- ?app_assoc; eexists; reflexivity.
    + desplegar. unfold con_registro. simpl. rewrite <- !app_assoc. eexists; reflexivity.
  - erewrite bind_raise by reflexivity. eexists. reflexivity.
Qed.

(** The write succeeds exactly when the environment lets it and the
    output path is not a directory. *)
Lemma efecto_open_dump_exito env f o doc :
  (efecto_open_dump env f o doc).1 = None
  ↔ o_open_dump env = W_ok ∧ f !! o ≠ Some Directorio.
Proof.
  unfold efecto_open_dump.
  destruct (f !! o) as [[|c]|]; [|destruct (o_open_dump env)..]; cbn [fst];
    split; try discriminate; try (intros [? ?]; congruence);
    intros _; split; (reflexivity || discriminate).
Qed.

Lemma resultado_escritura_exito b e :
  resultado_escritura b e = Ret true → b = false → e = None.
Proof.
  destruct e as [e|]; [|reflexivity]. cbn [resultado_escritura].
  destruct (es_OSError e); [|discriminate]. intros H ->. discriminate H.
Qed.

(** The two ways a run can go: the extraction fails, or it returns and
    the run reaches the last step. *)
Lemma procesar_casos env v o w :
  let a := ruta_audio_temporal env v in
  (¬ extraccion_devuelve env
   ∧ ∃ w', procesar_video_a_json env v o w = (Ret false, w')
         ∧ ∀ q, q ≠ a → fs w' !! q = fs w !! q)
  ∨ (extraccion_devuelve env
     ∧ ∃ l, procesar_video_a_json env v o w
            = guardar env o (segmentos_del_motor env)
                (con_registro w (fs_limpio env (fs w) v a) l)).
Proof.
  intros a. destruct (extraccion_devuelve_dec env) as [Hok|Hno].
  - right. split; [exact Hok|]. apply procesar_extraccion_devuelve, Hok.
  - left. split; [exact Hno|]. apply procesar_extraccion_fallida, Hno.
Qed.

Lemma fs_limpio_otro env f v a q :
  q ≠ a → fs_limpio env f v a !! q = f !! q.
Proof.
  intros Hq. unfold fs_limpio.
  destruct (fs_tras_extraccion env f v a !! a) as [[|c]|];
    [|destruct (o_remove env)|];
    rewrite ?lookup_delete_ne by congruence; apply fs_tras_extraccion_otro, Hq.
Qed.

Lemma fs_limpio_exitosa env f v a :
  extraccion_exitosa env f a → fs_limpio env f v a = fs_tras_limpieza env f v a.
Proof.
  intros Hok. unfold fs_limpio, fs_tras_limpieza.
  rewrite (fs_tras_extraccion_exitosa env f v a Hok), lookup_insert_eq.
  destruct (o_remove env); [apply delete_insert_eq|reflexivity].
Qed.

(** The document of a successful run with segments. *)
Lemma procesar_documento env v o w w' segs :
  o_transcribe env = T_dict (Some segs) → segs ≠ [] →
  procesar_video_a_json env v o w = (Ret true, w') →
  ∃ docs, fs w' !! o = Some (Archivo (Json (JArr docs)))
    ∧ length docs = length segs
    ∧ ∀ j seg, segs !! j = Some seg →
        ∃ ini fin, formatear_tiempo (start seg) = Ret ini
                   ∧ formatear_tiempo (end_ seg) = Ret fin
                   ∧ docs !! j = Some (registro_parrafo j seg ini fin).
Proof.
  intros Ht Hne Hrun.
  destruct (procesar_casos env v o w) as [(_ & w1 & H1 & _)|(Hok & l & H1)];
    rewrite H1 in Hrun; [discriminate|].
  unfold segmentos_del_motor in Hrun. rewrite Ht in Hrun.
  destruct (o_load_model env); [discriminate|].
  cbn [default from_option id] in Hrun.
  destruct segs as [|seg resto]; [congruence|].
  match type of Hrun with guardar _ _ _ ?w0 = _ =>
    destruct (guardar_segmentos env o seg resto w0) as [l2 H2] end.
  destruct (formatear_segmentos 0 (seg :: resto) []) as [docs|e] eqn:Hf;
    rewrite H2 in Hrun; [|discriminate].
  injection Hrun as Hb <-.
  apply resultado_escritura_exito in Hb; [|reflexivity].
  apply formatear_segmentos_ret in Hf as (nuevos & -> & Hlen & Hreg).
  exists nuevos. cbn [app] in *. split; [|split; [exact Hlen|exact Hreg]].
  unfold con_registro in *; cbn [fs] in *.
  apply efecto_open_dump_exito in Hb as [Hw Hd].
  unfold efecto_open_dump. rewrite Hw.
  destruct (fs_limpio env (fs w) v (ruta_audio_temporal env v) !! o) as [[|c]|];
    [contradiction|..]; cbn [snd]; apply lookup_insert_eq.
Qed.

(** [lstrip] removes a prefix of white space and nothing else. *)
Lemma lstrip_spec s :
  ∃ l, s = l ++ lstrip s ∧ forallb isspace l = true
       ∧ ∀ c t, lstrip s = c :: t → isspace c = false.
Proof.
  induction s as [|c s (l & Hs & Hl & Hh)]; simpl.
  - exists []. repeat split; auto. discriminate.
  - destruct (isspace c) eqn:Hc.
    + exists (c :: l). simpl. rewrite Hc, Hl. repeat split; auto. congruence.
    + exists []. repeat split; auto. intros c' t [= <- <-]. exact Hc.
Qed.

(** [strip] removes surrounding white space and nothing else. *)
Lemma strip_spec s :
  ∃ l r, s = l ++ strip s ++ r
    ∧ forallb isspace l = true ∧ forallb isspace r = true
    ∧ (∀ c t, strip s = c :: t → isspace c = false)
    ∧ (∀ t c, strip s = t ++ [c] → isspace c = false).
Proof.
  destruct (lstrip_spec s) as (l & Hs & Hl & Hh).
  destruct (lstrip_spec (rev (lstrip s))) as (r' & Hr & Hr' & Hlast).
  unfold strip, rstrip.
  assert (Hmid : lstrip s = rev (lstrip (rev (lstrip s))) ++ rev r').
  { rewrite <- rev_app_distr, <- Hr, rev_involutive. reflexivity. }
  exists l, (rev r'). repeat split.
  - rewrite <- Hmid. exact Hs.
  - exact Hl.
  - rewrite forallb_forall in *. intros x Hx. apply Hr'. apply in_rev. exact Hx.
  - intros c t Hc. rewrite Hc in Hmid. simpl in Hmid. eapply Hh. exact Hmid.
  - intros t c Hc. apply (Hlast c (rev t)).
    rewrite <- (rev_involutive (lstrip (rev (lstrip s)))), Hc, rev_app_distr. reflexivity.
Qed.

(** The handler on a request that names a missing video. *)
Lemma endpoint_video_inexistente env campos v w :
  dict_get campos (lit "ruta_video_entrada") = JStr v →
  v ≠ [] →
  truthy (dict_get campos (lit "ruta_json_salida")) = true →
  fs w !! v = None →
  endpoint_procesar_video env {| is_json := true; cuerpo := Some (JObj campos) |} w =
    (Ret (jsonify_error (lit "El archivo de video '" ++ v ++ lit "' no fue encontrado."), 404),
     con_registro w (fs w)
       [ (INFO, Solicitud_recibida);
         (INFO, Video_a_procesar (JStr v));
         (INFO, JSON_de_salida (dict_get campos (lit "ruta_json_salida")));
         (ERROR, Video_no_encontrado (JStr v)) ]).
Proof.
  intros Hv Hne Ho Hfs.
  unfold endpoint_procesar_video, get_json, data_get, os_path_exists.
  cbn [is_json cuerpo negb].
  reducir. rewrite Hv, Ho. cbn [truthy].
  rewrite bool_decide_eq_false_2 by exact Hne. cbn [negb orb]. reducir.
  rewrite Hfs. rewrite bool_decide_eq_false_2 by (intros [? ?]; discriminate).
  cbn [negb fstr]. reducir. unfold con_registro. rewrite <- !app_assoc. reflexivity.
Qed.

(** The handler on a JSON body that is not an object. *)
Lemma endpoint_cuerpo_no_objeto env data w :
  (∀ campos, data ≠ JObj campos) →
  endpoint_procesar_video env {| is_json := true; cuerpo := Some data |} w =
    (Raise AttributeError, con_registro w (fs w) [(INFO, Solicitud_recibida)]).
Proof.
  intros H. unfold endpoint_procesar_video, get_json, data_get.
  cbn [is_json cuerpo negb]. reducir.
  destruct data; try reflexivity. exfalso. eapply H. reflexivity.
Qed.

Ltac elegir_mundo :=
  match goal with
  | |- context[procesar_video_a_json _ _ _ {| fs := ?f; registro := ?r |}] =>
      exists {| fs := f; registro := r |}
  end.

(** A request that passes every validation reaches the orchestrator, and the answer follows its result. *)
Lemma endpoint_valida env campos v o w :
  dict_get campos (lit "ruta_video_entrada") = JStr v → v ≠ [] →
  dict_get campos (lit "ruta_json_salida") = JStr o → o ≠ [] →
  is_Some (fs w !! v) →
  (dirname o = [] ∨ is_Some (fs w !! dirname o) ∨ o_makedirs env = true) →
  ∃ w1, fs w1 = fs_con_directorio (fs w) (dirname o)
    ∧ ∀ b w2, procesar_video_a_json env v o w1 = (Ret b, w2) →
        endpoint_procesar_video env {| is_json := true; cuerpo := Some (JObj campos) |} w =
          (Ret (respuesta_final (JStr v) (JStr o) b),
           con_registro w2 (fs w2) [traza_final (JStr v) b]).
Proof.
  intros Hv Hne Ho Hno Hex Hdir.
  unfold endpoint_procesar_video, get_json, data_get, os_path_exists, fspath, llamar_procesar.
  cbn [is_json cuerpo negb].
  reducir. rewrite Hv, Ho. cbn [truthy].
  rewrite !bool_decide_eq_false_2 by assumption. cbn [negb orb]. reducir.
  rewrite (bool_decide_eq_true_2 _ Hex). cbn [negb]. reducir.
  unfold fs_con_directorio.
  destruct (bool_decide (dirname o = [])) eqn:Hd; reducir.
  - elegir_mundo; split; [reflexivity|]; intros b w2 H2; rewrite H2; destruct b; reflexivity.
  - destruct (bool_decide (is_Some (fs w !! dirname o))) eqn:Hd2; cbn [negb orb]; reducir.
    + elegir_mundo; split; [reflexivity|]; intros b w2 H2; rewrite H2; destruct b; reflexivity.
    + destruct Hdir as [Hdir|[Hdir|Hdir]].
      * apply bool_decide_eq_false_1 in Hd. contradiction.
      * apply bool_decide_eq_false_1 in Hd2. contradiction.
      * unfold os_makedirs. rewrite Hdir. reducir.
        elegir_mundo; split; [reflexivity|]; intros b w2 H2; rewrite H2; destruct b; reflexivity.
Qed.

(** ** Frame properties of the last step *)

Lemma efecto_open_dump_otro env f o doc q :
  q ≠ o → (efecto_open_dump env f o doc).2 !! q = f !! q.
Proof.
  intros Hq. unfold efecto_open_dump.
  destruct (f !! o) as [[|c]|]; try destruct (o_open_dump env); cbn [snd];
    rewrite ?lookup_insert_ne by congruence; reflexivity.
Qed.

Lemma guardar_mundo env o s w :
  ∃ r f' l, guardar env o s w = (r, con_registro w f' l)
    ∧ ∀ q, q ≠ o → f' !! q = fs w !! q.
Proof.
  destruct s as [[|seg resto]|].
  - destruct (guardar_vacio env o w) as [l H]. rewrite H.
    do 3 eexists. split; [reflexivity|]. intros q Hq. apply efecto_open_dump_otro, Hq.
  - destruct (guardar_segmentos env o seg resto w) as [l H].
    destruct (formatear_segmentos 0 (seg :: resto) []); rewrite H.
    + do 3 eexists. split; [reflexivity|]. intros q Hq. apply efecto_open_dump_otro, Hq.
    + do 3 eexists. split; [reflexivity|]. reflexivity.
  - rewrite guardar_fallo. do 3 eexists. split; [reflexivity|]. reflexivity.
Qed.

Lemma fs_tras_limpieza_otro env f v a q :
  q ≠ a → fs_tras_limpieza env f v a !! q = f !! q.
Proof.
  intros Hq. unfold fs_tras_limpieza. destruct (o_remove env).
  - apply lookup_delete_ne. congruence.
  - apply lookup_insert_ne. congruence.
Qed.

Lemma fs_tras_limpieza_no_directorio env f v a q :
  f !! q ≠ Some Directorio → fs_tras_limpieza env f v a !! q ≠ Some Directorio.
Proof.
  intros Hq. unfold fs_tras_limpieza. destruct (o_remove env).
  - rewrite lookup_delete. case_decide; [discriminate|exact Hq].
  - rewrite lookup_insert. case_decide; [discriminate|exact Hq].
Qed.


(** ** Rounding to three decimals *)














(** ** The digits of the MM:SS field *)

Lemma minutos_enteros_div (q : Q) : minutos_enteros q = Qfloor q / 60.
Proof.
  destruct q as [n d]. unfold minutos_enteros, Qdiv, Qmult, Qinv, Qfloor, inject_Z.
  cbn [Qnum Qden]. rewrite Z.mul_1_r, Pos2Z.inj_mul.
  rewrite Z.div_div by lia. reflexivity.
Qed.

Lemma segundos_enteros_mod (q : Q) : segundos_enteros q = Qfloor q mod 60.
Proof.
  unfold segundos_enteros. rewrite minutos_enteros_div.
  destruct q as [n d]. unfold Qminus, Qplus, Qopp, Qmult, Qfloor, inject_Z.
  cbn [Qnum Qden]. rewrite !Z.mul_1_r, Pos.mul_1_r.
  change (Zpos 1) with 1. rewrite ?Z.mul_1_r.
  set (t := n / Zpos d).
  replace (n + - (60 * (t / 60)) * Zpos d) with (n + (- (60 * (t / 60))) * Zpos d) by ring.
  rewrite Z.div_add by lia. fold t.
  rewrite Z.mod_eq by lia. ring.
Qed.

Lemma digitos_es_digito (u : Decimal.uint) :
  Forall (λ c, es_digito c = true) (digitos u).
Proof. induction u; cbn [digitos]; constructor; (reflexivity || assumption). Qed.

Lemma digitos_no_vacio (n : N) : (1 <= length (digitos (N.to_uint n)))%nat.
Proof.
  destruct n as [|p]; cbn [N.to_uint].
  - cbn. lia.
  - pose proof (DecimalPos.Unsigned.to_uint_nonnil p) as H.
    destruct (Pos.to_uint p); [contradiction|cbn [digitos length]; lia..].
Qed.

Lemma format_02d_no_negativo (z : Z) :
  0 <= z →
  format_02d z = replicate (2 - length (digitos (N.to_uint (Z.to_N z)))) 48%N
                   ++ digitos (N.to_uint (Z.to_N z)).
Proof.
  intros Hz. unfold format_02d.
  destruct (Z.ltb_spec z 0) as [?|_]; [lia|].
  rewrite Z.abs_eq by exact Hz. cbn [length app]. rewrite Nat.sub_0_r. reflexivity.
Qed.

Lemma format_02d_ancho (z : Z) : 0 <= z → (2 <= length (format_02d z))%nat.
Proof.
  intros Hz. rewrite format_02d_no_negativo by exact Hz.
  rewrite length_app, length_replicate. lia.
Qed.

Lemma format_02d_digitos (z : Z) :
  0 <= z → Forall (λ c, es_digito c = true) (format_02d z).
Proof.
  intros Hz. rewrite format_02d_no_negativo by exact Hz.
  apply Forall_app. split.
  - apply Forall_replicate. reflexivity.
  - apply digitos_es_digito.
Qed.

Lemma format_02d_dos (z : Z) : 0 <= z < 100 → length (format_02d z) = 2%nat.
Proof.
  intros Hz.
  assert (H : forallb (λ n, (length (format_02d (Z.of_nat n)) =? 2)%nat) (seq 0 100) = true)
    by (vm_compute; reflexivity).
  rewrite forallb_forall in H.
  specialize (H (Z.to_nat z)).
  rewrite Z2Nat.id in H by lia.
  apply Nat.eqb_eq, H. apply in_seq. lia.
Qed.

Lemma Qfloor_valor_no_negativo (x : float) :
  SFleb (S754_zero false) x = true → 0 <= Qfloor (valor x).
Proof.
  destruct x as [s|s| |s m e];
    [intros _; apply Z.leb_le; vm_compute; reflexivity.. |].
  destruct s; [vm_compute; discriminate|]. intros _.
  unfold valor. cbn [cond_Zopp].
  destruct (0 <=? e) eqn:He; unfold Qfloor.
  - apply Z.leb_le in He. apply Z.div_pos; [|lia].
    assert (0 < 2 ^ e) by (apply Z.pow_pos_nonneg; lia). lia.
  - apply Z.div_pos; lia.
Qed.

(** The digits printed for a number denote it. *)
Lemma valor_decimal_acc (u : Decimal.uint) : ∀ acc : positive,
  fold_left (fun acc c => 10 * acc + (Z.of_N c - 48)) (digitos u) (Zpos acc)
  = Zpos (Pos.of_uint_acc u acc).
Proof.
  induction u; intros acc; cbn [digitos fold_left Pos.of_uint_acc];
    try reflexivity.
  all: etransitivity; [|apply IHu]; f_equal; lia.
Qed.

Lemma valor_decimal_digitos (u : Decimal.uint) :
  valor_decimal (digitos u) = Z.of_N (N.of_uint u).
Proof.
  unfold valor_decimal, N.of_uint.
  induction u; cbn [digitos fold_left Pos.of_uint]; try reflexivity.
  1: exact IHu.
  all: cbn [Z.of_N]; rewrite <- valor_decimal_acc; f_equal.
Qed.

Lemma valor_decimal_N (n : N) : valor_decimal (digitos (N.to_uint n)) = Z.of_N n.
Proof. rewrite valor_decimal_digitos, DecimalN.Unsigned.of_to. reflexivity. Qed.

Lemma valor_decimal_ceros (k : nat) (s : str) :
  valor_decimal (replicate k 48%N ++ s) = valor_decimal s.
Proof.
  unfold valor_decimal. induction k as [|k IH]; [reflexivity|].
  cbn [replicate app fold_left]. exact IH.
Qed.

Lemma valor_decimal_format_02d (z : Z) : 0 <= z → valor_decimal (format_02d z) = z.
Proof.
  intros Hz. rewrite format_02d_no_negativo by exact Hz.
  rewrite valor_decimal_ceros, valor_decimal_N. apply Z2N.id, Hz.
Qed.

(** The decimal writing of a positive number does not start with 0. *)
Lemma to_uint_sin_cero_inicial (p : positive) (u : Decimal.uint) :
  Pos.to_uint p ≠ Decimal.D0 u.
Proof.
  intros H.
  pose proof (DecimalPos.Unsigned.to_of (Pos.to_uint p)) as Hn.
  rewrite DecimalPos.Unsigned.of_to in Hn. cbn [N.to_uint] in Hn.
  rewrite H in Hn at 2. rewrite H in Hn.
  rewrite DecimalFacts.unorm_D0 in Hn.
  destruct (Decimal.nzhead u) eqn:E.
  1:{ apply DecimalFacts.unorm_0 in E.
      assert (u = Decimal.Nil) by (rewrite E in Hn; congruence).
      subst u. exact (DecimalPos.Unsigned.to_uint_nonzero p H). }
  all: rewrite DecimalFacts.unorm_nzhead in Hn by (rewrite E; discriminate);
    exact (DecimalFacts.nzhead_nonzero u u (eq_sym Hn)).
Qed.

(** [format(z, "02d")] pads to two digits and no further. *)
Lemma format_02d_sin_relleno (z : Z) :
  0 <= z →
  length (format_02d z) = 2%nat ∨ ∃ c t, format_02d z = c :: t ∧ c ≠ 48%N.
Proof.
  intros Hz. rewrite format_02d_no_negativo by exact Hz.
  destruct (Z.to_N z) as [|p] eqn:E; [left; reflexivity|].
  cbn [N.to_uint].
  pose proof (DecimalPos.Unsigned.to_uint_nonnil p) as Hnil.
  pose proof (to_uint_sin_cero_inicial p) as Hcero.
  destruct (Pos.to_uint p) as [|u|u|u|u|u|u|u|u|u|u];
    [contradiction|exfalso; exact (Hcero u eq_refl)|..].
  all: cbn [digitos length]; destruct (digitos u) as [|c' t] eqn:Eu;
    [left; reflexivity|right].
  all: cbn [length Nat.sub replicate app]; do 2 eexists; split; [reflexivity|discriminate].
Qed.

(** * The claims *)

(** C1. For every run of the orchestrator in which the engine answers a
    non-empty list of N segments and the run reports success (so the
    final write succeeded), the output file holds a document of exactly
    N paragraph records; the record at position i (from 0) has id i + 1
    and carries the text of the i-th segment with the surrounding white
    space removed: the text is what [strip] returns, the segment text is
    that text between two runs of white space, and the text neither
    starts nor ends with white space. *)
Theorem C1_parrafos_en_orden (env : entorno) (ruta_video ruta_json : str)
    (w w' : mundo) (segs : list segmento) :
  o_transcribe env = T_dict (Some segs) →
  segs ≠ [] →
  procesar_video_a_json env ruta_video ruta_json w = (Ret true, w') →
  ∃ docs,
    fs w' !! ruta_json = Some (Archivo (Json (JArr docs)))
    ∧ length docs = length segs
    ∧ ∀ i seg, segs !! i = Some seg →
        ∃ campos l r,
          docs !! i = Some (JObj campos)
          ∧ dict_get campos (lit "id_parrafo") = JInt (Z.of_nat i + 1)
          ∧ dict_get campos (lit "parrafo_texto") = JStr (strip (text seg))
          ∧ text seg = l ++ strip (text seg) ++ r
          ∧ forallb isspace l = true
          ∧ forallb isspace r = true
          ∧ (∀ c t, strip (text seg) = c :: t → isspace c = false)
          ∧ (∀ t c, strip (text seg) = t ++ [c] → isspace c = false).
Proof.
  intros Ht Hne Hrun.
  destruct (procesar_documento env ruta_video ruta_json w w' segs Ht Hne Hrun)
    as (docs & Hfs & Hlen & Hdocs).
  exists docs. split; [exact Hfs|]. split; [exact Hlen|].
  intros i seg Hi.
  destruct (Hdocs i seg Hi) as (ini & fin & _ & _ & Hd).
  destruct (strip_spec (text seg)) as (l & r & H1 & H2 & H3 & H4 & H5).
  exists [ (lit "id_parrafo", JInt (Z.of_nat i + 1));
           (lit "parrafo_texto", JStr (strip (text seg)));
           (lit "tiempo_inicio_segundos", JFloat (round (start seg) 3));
           (lit "tiempo_fin_segundos", JFloat (round (end_ seg) 3));
           (lit "tiempo_inicio_formato_MMSS", JStr ini);
           (lit "tiempo_fin_formato_MMSS", JStr fin) ], l, r.
  repeat split; auto.
Qed.

Lemma C1_parrafos_en_orden_testigo :
  ∃ docs,
    fs (procesar_video_a_json (entorno_ej (T_dict (Some segmentos_ej)) true W_ok)
          ruta_video_ej ruta_json_ej mundo_ej).2 !! ruta_json_ej
      = Some (Archivo (Json (JArr docs)))
    ∧ length docs = 2%nat.
Proof.
  destruct (C1_parrafos_en_orden
              (entorno_ej (T_dict (Some segmentos_ej)) true W_ok)
              ruta_video_ej ruta_json_ej mundo_ej
              (procesar_video_a_json (entorno_ej (T_dict (Some segmentos_ej)) true W_ok)
                 ruta_video_ej ruta_json_ej mundo_ej).2
              segmentos_ej)
    as (docs & Hfs & Hlen & _).
  - reflexivity.
  - discriminate.
  - vm_compute. reflexivity.
  - exists docs. split; [exact Hfs|exact Hlen].
Defined.

(** C2 fails on the run without speech: with an empty list of segments
    and a write that raises, the orchestrator still returns true, the
    handler answers 200, and no output file exists.  (On the path with
    segments the same failure returns false and the handler answers
    500.) *)
Theorem C2_escritura_fallida_sin_segmentos :
  (procesar_video_a_json (entorno_ej (T_dict (Some [])) true W_falla_abrir)
     ruta_video_ej ruta_json_ej mundo_ej).1 = Ret true
  ∧ (∃ cuerpo,
       (endpoint_procesar_video (entorno_ej (T_dict (Some [])) true W_falla_abrir)
          peticion_ej mundo_ej).1 = Ret (cuerpo, 200))
  ∧ fs (endpoint_procesar_video (entorno_ej (T_dict (Some [])) true W_falla_abrir)
          peticion_ej mundo_ej).2 !! ruta_json_ej = None
  ∧ (procesar_video_a_json (entorno_ej (T_dict (Some segmentos_ej)) true W_falla_abrir)
       ruta_video_ej ruta_json_ej mundo_ej).1 = Ret false
  ∧ (∃ cuerpo,
       (endpoint_procesar_video (entorno_ej (T_dict (Some segmentos_ej)) true W_falla_abrir)
          peticion_ej mundo_ej).1 = Ret (cuerpo, 500)).
Proof.
  split; [vm_compute; reflexivity|].
  split; [eexists; vm_compute; reflexivity|].
  split; [vm_compute; reflexivity|].
  split; [vm_compute; reflexivity|].
  eexists; vm_compute; reflexivity.
Qed.

(** C3 as stated fails: when the write raises after the output file was
    opened, the run reports failure and leaves a truncated document at
    the output path, which did not exist before. *)
Lemma C3_contraejemplo_escritura_interrumpida :
  (procesar_video_a_json (entorno_ej (T_dict (Some segmentos_ej)) true (W_falla_volcar 10))
     ruta_video_ej ruta_json_ej mundo_ej).1 = Ret false
  ∧ fs mundo_ej !! ruta_json_ej = None
  ∧ ∃ doc,
      fs (procesar_video_a_json
            (entorno_ej (T_dict (Some segmentos_ej)) true (W_falla_volcar 10))
            ruta_video_ej ruta_json_ej mundo_ej).2 !! ruta_json_ej
      = Some (Archivo (JsonTruncado doc 10)).
Proof.
  split; [vm_compute; reflexivity|].
  split; [vm_compute; reflexivity|].
  eexists. vm_compute. reflexivity.
Qed.

(** C3, amended. For every run that reports failure and whose output
    path is not the temporary audio path, the output file is neither
    created nor modified, except when the write raised after the file
    was opened: then the path holds a truncated document. *)
Theorem C3_fallo_sin_documento_parcial (env : entorno) (ruta_video ruta_json : str)
    (w w' : mundo) :
  procesar_video_a_json env ruta_video ruta_json w = (Ret false, w') →
  ruta_json ≠ ruta_audio_temporal env ruta_video →
  fs w' !! ruta_json = fs w !! ruta_json
  ∨ ∃ docs escritos,
      o_open_dump env = W_falla_volcar escritos
      ∧ fs w' !! ruta_json = Some (Archivo (JsonTruncado (JArr docs) escritos)).
Proof.
  intros Hrun Hne.
  destruct (procesar_casos env ruta_video ruta_json w) as [(_ & w1 & H1 & Hfs)|(Hok & l & H1)];
    rewrite H1 in Hrun.
  - injection Hrun as <-. left. apply Hfs. exact Hne.
  - set (f1 := fs_limpio env (fs w) ruta_video (ruta_audio_temporal env ruta_video)) in *.
    assert (Hf1 : f1 !! ruta_json = fs w !! ruta_json)
      by (apply fs_limpio_otro; exact Hne).
    destruct (segmentos_del_motor env) as [[|seg resto]|].
    + match type of Hrun with guardar _ _ _ ?w0 = _ =>
        destruct (guardar_vacio env ruta_json w0) as [l2 H2] end.
      rewrite H2 in Hrun. injection Hrun as Hb _. exfalso. revert Hb.
      destruct (efecto_open_dump _ _ _ _).1 as [e|]; cbn [resultado_escritura];
        [destruct (es_OSError e)|]; discriminate.
    + match type of Hrun with guardar _ _ _ ?w0 = _ =>
        destruct (guardar_segmentos env ruta_json seg resto w0) as [l2 H2] end.
      destruct (formatear_segmentos 0 (seg :: resto) []) as [docs|e];
        rewrite H2 in Hrun; [|discriminate].
      injection Hrun as Hb <-.
      unfold con_registro in *; cbn [fs] in *.
      unfold efecto_open_dump in *.
      destruct (f1 !! ruta_json) as [[|c]|] eqn:Ef; cbn [fst snd] in *.
      * left. congruence.
      * destruct (o_open_dump env) as [| |n| |n];
          cbn [fst snd resultado_escritura es_OSError] in *; try discriminate Hb.
        -- left. congruence.
        -- right. exists docs, n. split; [reflexivity|]. apply lookup_insert_eq.
      * destruct (o_open_dump env) as [| |n| |n];
          cbn [fst snd resultado_escritura es_OSError] in *; try discriminate Hb.
        -- left. congruence.
        -- right. exists docs, n. split; [reflexivity|]. apply lookup_insert_eq.
    + rewrite guardar_fallo in Hrun. injection Hrun as <-. left. exact Hf1.
Qed.

Lemma C3_fallo_sin_documento_parcial_testigo :
  fs (procesar_video_a_json (entorno_ej (T_error RuntimeError) true W_ok)
        ruta_video_ej ruta_json_ej mundo_ej).2 !! ruta_json_ej
  = fs mundo_ej !! ruta_json_ej
  ∨ ∃ docs escritos,
      o_open_dump (entorno_ej (T_error RuntimeError) true W_ok) = W_falla_volcar escritos
      ∧ fs (procesar_video_a_json (entorno_ej (T_error RuntimeError) true W_ok)
              ruta_video_ej ruta_json_ej mundo_ej).2 !! ruta_json_ej
        = Some (Archivo (JsonTruncado (JArr docs) escritos)).
Proof.
  apply (C3_fallo_sin_documento_parcial (entorno_ej (T_error RuntimeError) true W_ok)
           ruta_video_ej ruta_json_ej mundo_ej).
  - vm_compute. reflexivity.
  - vm_compute. discriminate.
Defined.

(** C4 as stated fails: with a successful extraction and an empty list
    of segments, a write that raises leaves no placeholder document at
    the output path. *)
Lemma C4_contraejemplo_escritura_fallida :
  extraccion_exitosa (entorno_ej (T_dict (Some [])) true W_falla_abrir)
    (fs mundo_ej)
    (ruta_audio_temporal (entorno_ej (T_dict (Some [])) true W_falla_abrir) ruta_video_ej)
  ∧ segmentos_del_motor (entorno_ej (T_dict (Some [])) true W_falla_abrir) = Some []
  ∧ fs (procesar_video_a_json (entorno_ej (T_dict (Some [])) true W_falla_abrir)
          ruta_video_ej ruta_json_ej mundo_ej).2 !! ruta_json_ej
    ≠ Some (Archivo (Json documento_sin_segmentos)).
Proof.
  split; [|split].
  - repeat split; try reflexivity. vm_compute. discriminate.
  - reflexivity.
  - vm_compute. discriminate.
Qed.

(** C4, amended. For every valid request whose video exists and whose
    output directory exists or can be created: when the extraction
    succeeds, the engine answers no segment and the write of the output
    file succeeds, the orchestrator is run, returns true and leaves the
    fixed placeholder document at the output path, and the handler
    answers 200. *)
Theorem C4_documento_sin_segmentos (env : entorno) (campos : list (str * json))
    (ruta_video ruta_json : str) (w : mundo) :
  dict_get campos (lit "ruta_video_entrada") = JStr ruta_video →
  ruta_video ≠ [] →
  dict_get campos (lit "ruta_json_salida") = JStr ruta_json →
  ruta_json ≠ [] →
  is_Some (fs w !! ruta_video) →
  (dirname ruta_json = [] ∨ is_Some (fs w !! dirname ruta_json) ∨ o_makedirs env = true) →
  extraccion_exitosa env (fs_con_directorio (fs w) (dirname ruta_json))
    (ruta_audio_temporal env ruta_video) →
  segmentos_del_motor env = Some [] →
  o_open_dump env = W_ok →
  fs_con_directorio (fs w) (dirname ruta_json) !! ruta_json ≠ Some Directorio →
  ∃ w1 w2 cuerpo w',
    fs w1 = fs_con_directorio (fs w) (dirname ruta_json)
    ∧ procesar_video_a_json env ruta_video ruta_json w1 = (Ret true, w2)
    ∧ fs w2 !! ruta_json = Some (Archivo (Json documento_sin_segmentos))
    ∧ endpoint_procesar_video env {| is_json := true; cuerpo := Some (JObj campos) |} w
      = (Ret (cuerpo, 200), w')
    ∧ fs w' = fs w2.
Proof.
  intros Hv Hvne Ho Hone Hex Hdir Hok Hseg Hwr Hnd.
  destruct (endpoint_valida env campos ruta_video ruta_json w Hv Hvne Ho Hone Hex Hdir)
    as (w1 & Hw1 & Hend).
  rewrite <- Hw1 in Hok, Hnd.
  destruct (procesar_extraccion_exitosa env ruta_video ruta_json w1 Hok) as [l H1].
  rewrite Hseg in H1.
  match type of H1 with _ = guardar _ _ _ ?w0 =>
    destruct (guardar_vacio env ruta_json w0) as [l2 H2] end.
  rewrite H2 in H1.
  assert (Hdoc : ∀ f, f !! ruta_json ≠ Some Directorio →
            (efecto_open_dump env f ruta_json documento_sin_segmentos).2 !! ruta_json
            = Some (Archivo (Json documento_sin_segmentos))).
  { intros f Hf. unfold efecto_open_dump. rewrite Hwr.
    destruct (f !! ruta_json) as [[|c]|]; try contradiction; apply lookup_insert_eq. }
  rewrite (proj2 (efecto_open_dump_exito env _ ruta_json documento_sin_segmentos)) in H1
    by (split; [exact Hwr|];
        cbn [con_registro fs]; apply fs_tras_limpieza_no_directorio; exact Hnd).
  cbn [resultado_escritura] in H1.
  match type of H1 with _ = (_, ?w2) => exists w1, w2 end.
  do 2 eexists. split; [exact Hw1|]. split; [exact H1|].
  split.
  - cbn [con_registro fs]. apply Hdoc. apply fs_tras_limpieza_no_directorio. exact Hnd.
  - split; [exact (Hend true _ H1)|]. reflexivity.
Qed.

Lemma C4_documento_sin_segmentos_testigo :
  ∃ cuerpo w',
    endpoint_procesar_video (entorno_ej (T_dict (Some [])) true W_ok) peticion_ej mundo_ej
      = (Ret (cuerpo, 200), w')
    ∧ fs w' !! ruta_json_ej = Some (Archivo (Json documento_sin_segmentos)).
Proof.
  destruct (C4_documento_sin_segmentos (entorno_ej (T_dict (Some [])) true W_ok)
              [ (lit "ruta_video_entrada", JStr ruta_video_ej);
                (lit "ruta_json_salida", JStr ruta_json_ej) ]
              ruta_video_ej ruta_json_ej mundo_ej)
    as (w1 & w2 & cuerpo & w' & _ & _ & Hdoc & Hend & Hfs).
  - reflexivity.
  - discriminate.
  - reflexivity.
  - discriminate.
  - vm_compute. eexists. reflexivity.
  - right. left. vm_compute. eexists. reflexivity.
  - repeat split; try reflexivity. vm_compute. discriminate.
  - reflexivity.
  - reflexivity.
  - vm_compute. discriminate.
  - exists cuerpo, w'. split; [exact Hend|]. rewrite Hfs. exact Hdoc.
Defined.

(** C5 as stated fails: when [os.remove] raises, the extraction having
    succeeded, the temporary audio file is still on disk after the
    invocation. *)
Lemma C5_contraejemplo_borrado_fallido :
  extraccion_exitosa (entorno_ej (T_dict (Some segmentos_ej)) false W_ok)
    (fs mundo_ej)
    (ruta_audio_temporal (entorno_ej (T_dict (Some segmentos_ej)) false W_ok) ruta_video_ej)
  ∧ fs (procesar_video_a_json (entorno_ej (T_dict (Some segmentos_ej)) false W_ok)
          ruta_video_ej ruta_json_ej mundo_ej).2
      !! ruta_audio_temporal (entorno_ej (T_dict (Some segmentos_ej)) false W_ok) ruta_video_ej
    = Some (Archivo (Audio ruta_video_ej)).
Proof.
  split.
  - repeat split; try reflexivity. vm_compute. discriminate.
  - vm_compute. reflexivity.
Qed.

(** C5, amended. For every invocation in which the extraction succeeds,
    the deletion of the temporary audio file is attempted once the
    transcription has returned, whatever it returned: the log holds
    either the removal or the warning that it failed.  When the deletion
    does not fail and the output path is not the temporary path, the
    temporary file is absent after the invocation. *)
Theorem C5_limpieza_del_temporal (env : entorno) (ruta_video ruta_json : str)
    (w w' : mundo) (r : resultado bool) :
  extraccion_exitosa env (fs w) (ruta_audio_temporal env ruta_video) →
  procesar_video_a_json env ruta_video ruta_json w = (r, w') →
  ((INFO, Temporal_eliminado (ruta_audio_temporal env ruta_video)) ∈ registro w'
   ∨ (WARNING, No_se_pudo_eliminar (ruta_audio_temporal env ruta_video) OSError)
       ∈ registro w')
  ∧ (o_remove env = true →
     ruta_json ≠ ruta_audio_temporal env ruta_video →
     fs w' !! ruta_audio_temporal env ruta_video = None
     ∧ (INFO, Temporal_eliminado (ruta_audio_temporal env ruta_video)) ∈ registro w').
Proof.
  intros Hok Hrun.
  set (a := ruta_audio_temporal env ruta_video) in *.
  destruct (procesar_extraccion_exitosa env ruta_video ruta_json w Hok) as [l H1].
  fold a in H1. rewrite H1 in Hrun.
  match type of Hrun with guardar _ _ ?s ?w0 = _ =>
    destruct (guardar_mundo env ruta_json s w0) as (r' & f' & l' & H2 & Hframe) end.
  rewrite H2 in Hrun. injection Hrun as _ <-.
  unfold con_registro in *. cbn [fs registro] in *.
  assert (Hin : traza_limpieza env a ∈ (registro w ++ l ++ [traza_limpieza env a]) ++ l').
  { rewrite !elem_of_app. left. right. right. apply list_elem_of_singleton. reflexivity. }
  unfold traza_limpieza in *.
  split.
  - destruct (o_remove env); [left|right]; exact Hin.
  - intros Hrm Hne. rewrite Hrm in *. split.
    + rewrite Hframe by congruence. unfold fs_tras_limpieza. rewrite Hrm.
      apply lookup_delete_eq.
    + exact Hin.
Qed.

Lemma C5_limpieza_del_temporal_testigo :
  fs (procesar_video_a_json (entorno_ej (T_error RuntimeError) true W_ok)
        ruta_video_ej ruta_json_ej mundo_ej).2
    !! ruta_audio_temporal (entorno_ej (T_error RuntimeError) true W_ok) ruta_video_ej
  = None.
Proof.
  eapply (C5_limpieza_del_temporal (entorno_ej (T_error RuntimeError) true W_ok)
            ruta_video_ej ruta_json_ej mundo_ej).
  - repeat split; try reflexivity. vm_compute. discriminate.
  - apply surjective_pairing.
  - reflexivity.
  - vm_compute. discriminate.
Defined.

(** C6. For every request to /procesar-video that names a video path
    absent from the file system (and an output path), the handler
    answers 404; the file system is left as it was, so the output file
    is neither written nor modified and no directory is created; and
    the log gains the four entries of the handler only, none of the
    orchestrator, which is not invoked. *)
Theorem C6_video_inexistente (env : entorno) (campos : list (str * json))
    (ruta_video : str) (w : mundo) :
  dict_get campos (lit "ruta_video_entrada") = JStr ruta_video →
  ruta_video ≠ [] →
  truthy (dict_get campos (lit "ruta_json_salida")) = true →
  fs w !! ruta_video = None →
  ∃ cuerpo w',
    endpoint_procesar_video env {| is_json := true; cuerpo := Some (JObj campos) |} w
      = (Ret (cuerpo, 404), w')
    ∧ fs w' = fs w
    ∧ registro w'
      = registro w
          ++ [ (INFO, Solicitud_recibida);
               (INFO, Video_a_procesar (JStr ruta_video));
               (INFO, JSON_de_salida (dict_get campos (lit "ruta_json_salida")));
               (ERROR, Video_no_encontrado (JStr ruta_video)) ].
Proof.
  intros Hv Hne Ho Hfs.
  rewrite (endpoint_video_inexistente env campos ruta_video w Hv Hne Ho Hfs).
  do 2 eexists. split; [reflexivity|]. split; reflexivity.
Qed.

Lemma C6_video_inexistente_testigo :
  ∃ cuerpo w',
    endpoint_procesar_video (entorno_ej (T_dict (Some segmentos_ej)) true W_ok)
      {| is_json := true;
         cuerpo := Some (JObj [ (lit "ruta_video_entrada", JStr (lit "/videos/otro.mp4"));
                                (lit "ruta_json_salida", JStr ruta_json_ej) ]) |}
      mundo_ej
      = (Ret (cuerpo, 404), w')
    ∧ fs w' = fs mundo_ej.
Proof.
  destruct (C6_video_inexistente (entorno_ej (T_dict (Some segmentos_ej)) true W_ok)
              [ (lit "ruta_video_entrada", JStr (lit "/videos/otro.mp4"));
                (lit "ruta_json_salida", JStr ruta_json_ej) ]
              (lit "/videos/otro.mp4") mundo_ej)
    as (cuerpo & w' & Hend & Hfs & _).
  - reflexivity.
  - discriminate.
  - reflexivity.
  - vm_compute. reflexivity.
  - exists cuerpo, w'. split; [exact Hend|exact Hfs].
Defined.

(** C7. For every time 0 <= s < 2^53 the formatter returns minutes,
    a colon and seconds.  Both parts are strings of decimal digits; the
    minutes denote the whole number floor(s) div 60, whatever its size
    (they are not reduced modulo anything), the seconds denote
    floor(s) mod 60 and always take two digits; the minutes are padded
    with a zero to two digits and no further.  So 0 maps to "00:00",
    59 to "00:59", 60 to "01:00" and 3661 to "61:01". *)
Theorem C7_formatear_tiempo_minutos_segundos (x : float) :
  valid_binary 53 1024 x = true →
  SFleb (S754_zero false) x = true →
  SFltb x (of_int (2 ^ 53)) = true →
  (∃ mm ss,
     formatear_tiempo x = Ret (mm ++ lit ":" ++ ss)
     ∧ Forall (λ c, es_digito c = true) mm
     ∧ valor_decimal mm = Qfloor (valor x) / 60
     ∧ (2 <= length mm)%nat
     ∧ (length mm = 2%nat ∨ ∃ c t, mm = c :: t ∧ c ≠ 48%N)
     ∧ Forall (λ c, es_digito c = true) ss
     ∧ valor_decimal ss = Qfloor (valor x) mod 60
     ∧ length ss = 2%nat)
  ∧ formatear_tiempo (of_int 0) = Ret (lit "00:00")
  ∧ formatear_tiempo (of_int 59) = Ret (lit "00:59")
  ∧ formatear_tiempo (of_int 60) = Ret (lit "01:00")
  ∧ formatear_tiempo (of_int 3661) = Ret (lit "61:01").
Proof.
  intros Hv Hle Hlt. split.
  - pose proof (Qfloor_valor_no_negativo x Hle) as Ht.
    set (t := Qfloor (valor x)) in *.
    assert (Hm : 0 <= t / 60) by (apply Z.div_pos; lia).
    assert (Hs : 0 <= t mod 60 < 60) by (apply Z.mod_pos_bound; lia).
    exists (format_02d (t / 60)), (format_02d (t mod 60)).
    split.
    { rewrite (formatear_tiempo_trunca x Hv Hle Hlt).
      rewrite minutos_enteros_div, segundos_enteros_mod. reflexivity. }
    split; [apply format_02d_digitos, Hm|].
    split; [apply valor_decimal_format_02d, Hm|].
    split; [apply format_02d_ancho, Hm|].
    split; [apply format_02d_sin_relleno, Hm|].
    split; [apply format_02d_digitos; lia|].
    split; [apply valor_decimal_format_02d; lia|].
    apply format_02d_dos. lia.
  - repeat split; vm_compute; reflexivity.
Qed.

Lemma C7_formatear_tiempo_minutos_segundos_testigo :
  ∃ mm ss,
    formatear_tiempo (of_int 360000) = Ret (mm ++ lit ":" ++ ss)
    ∧ valor_decimal mm = 6000
    ∧ valor_decimal ss = 0
    ∧ length ss = 2%nat.
Proof.
  destruct (C7_formatear_tiempo_minutos_segundos (of_int 360000))
    as ((mm & ss & Hf & _ & Hm & _ & _ & _ & Hs & Hl) & _).
  - vm_compute. reflexivity.
  - vm_compute. reflexivity.
  - vm_compute. reflexivity.
  - exists mm, ss. split; [exact Hf|]. split; [|split; [|exact Hl]].
    + rewrite Hm. vm_compute. reflexivity.
    + rewrite Hs. vm_compute. reflexivity.
Defined.



(** C9. For every request whose body is well-formed JSON but not a JSON
    object, the handler raises [AttributeError] while reading the first
    field, before its [try] block: it returns no response, so not the
    400 response with an error body either; nothing but the first log
    entry has happened. *)
Theorem C9_cuerpo_no_objeto (env : entorno) (data : json) (w : mundo) :
  (∀ campos, data ≠ JObj campos) →
  endpoint_procesar_video env {| is_json := true; cuerpo := Some data |} w
    = (Raise AttributeError, con_registro w (fs w) [(INFO, Solicitud_recibida)])
  ∧ ∀ respuesta,
      (endpoint_procesar_video env {| is_json := true; cuerpo := Some data |} w).1
      ≠ Ret respuesta.
Proof.
  intros H. rewrite (endpoint_cuerpo_no_objeto env data w H).
  split; [reflexivity|]. intros respuesta. discriminate.
Qed.

Lemma C9_cuerpo_no_objeto_testigo :
  (endpoint_procesar_video (entorno_ej (T_dict (Some segmentos_ej)) true W_ok)
     {| is_json := true; cuerpo := Some (JArr [JStr ruta_video_ej]) |} mundo_ej).1
  = Raise AttributeError.
Proof.
  destruct (C9_cuerpo_no_objeto (entorno_ej (T_dict (Some segmentos_ej)) true W_ok)
              (JArr [JStr ruta_video_ej]) mundo_ej) as [H _].
  - intros campos. discriminate.
  - rewrite H. reflexivity.
Defined.

(** The formatter does not return on an infinite time: [inf // 60] is
    NaN and [int] raises. *)
Lemma formatear_tiempo_infinito :
  formatear_tiempo (S754_infinity false) = Raise ValueError.
Proof. reflexivity. Qed.

(** C10 as stated fails on large floats: at 2^60 + 768 seconds the
    minutes returned are one less than floor(s / 60), because the float
    quotient is rounded to a multiple of 4. *)
Lemma C10_contraejemplo_tiempo_enorme :
  valid_binary 53 1024 tiempo_enorme = true
  ∧ SFleb (S754_zero false) tiempo_enorme = true
  ∧ minutos_enteros (valor tiempo_enorme) = 19215358410114129
  ∧ formatear_tiempo tiempo_enorme
    = Ret (format_02d 19215358410114128 ++ lit ":" ++ format_02d 4)
  ∧ formatear_tiempo tiempo_enorme
    ≠ Ret (format_02d (minutos_enteros (valor tiempo_enorme)) ++ lit ":"
             ++ format_02d (segundos_enteros (valor tiempo_enorme))).
Proof.
  repeat split; try (vm_compute; reflexivity).
  intros H. vm_compute in H. discriminate H.
Qed.

(** C10, amended. For every float 0 <= s < 2^53 the formatter truncates:
    it returns floor(s / 60) as the minutes and the integer part of
    s mod 60 as the seconds, computed on the exact value of s; so 59.9
    formats as "00:59".  Consequently the MM:SS field of a record can
    disagree with its rounded seconds field: a time of 59.9996 is
    persisted as 60.0 seconds and as "00:59", while 60.0 formats as
    "01:00". *)
Theorem C10_formatear_tiempo_trunca (x : float) :
  valid_binary 53 1024 x = true →
  SFleb (S754_zero false) x = true →
  SFltb x (of_int (2 ^ 53)) = true →
  formatear_tiempo x
  = Ret (format_02d (minutos_enteros (valor x)) ++ lit ":"
           ++ format_02d (segundos_enteros (valor x)))
  ∧ formatear_tiempo (of_decimal 599 1) = Ret (lit "00:59")
  ∧ round (of_decimal 599996 4) 3 = of_int 60
  ∧ formatear_tiempo (of_decimal 599996 4) = Ret (lit "00:59")
  ∧ formatear_tiempo (round (of_decimal 599996 4) 3) = Ret (lit "01:00").
Proof.
  intros Hv Hle Hlt. split; [apply formatear_tiempo_trunca; assumption|].
  repeat split; vm_compute; reflexivity.
Qed.

Lemma C10_formatear_tiempo_trunca_testigo :
  formatear_tiempo (of_decimal 599 1)
  = Ret (format_02d (minutos_enteros (valor (of_decimal 599 1))) ++ lit ":"
           ++ format_02d (segundos_enteros (valor (of_decimal 599 1)))).
Proof.
  apply (C10_formatear_tiempo_trunca (of_decimal 599 1)); vm_compute; reflexivity.
Defined.


(** * Further properties of the code *)

(** ** The two engines never raise *)

(** X1. [extraer_audio_de_video] never raises: whatever moviepy does,
    it returns.  It returns the audio path exactly when every moviepy
    call returned (the clip opened, it has an audio track, and neither
    [write_audiofile] nor the two [close] raised), and [None] in every
    other case.  Returning the path does not tell that the track is
    there: it is when [write_audiofile] wrote it, but a directory at
    the audio path is still a directory afterwards, and a
    [write_audiofile] that returned without writing leaves the path as
    it was. *)
Theorem X1_extraer_nunca_lanza (env : entorno) (ruta_video ruta_audio : str) (w : mundo) :
  ∃ r w',
    extraer_audio_de_video env ruta_video ruta_audio w = (Ret r, w')
    ∧ ((r = Some ruta_audio
        ∧ extraccion_devuelve env
        ∧ fs w' = fs_tras_extraccion env (fs w) ruta_video ruta_audio
        ∧ (fs w !! ruta_audio = Some Directorio →
           fs w' !! ruta_audio = Some Directorio)
        ∧ (fs w !! ruta_audio ≠ Some Directorio → o_write_audiofile env = EA_ok →
           fs w' !! ruta_audio = Some (Archivo (Audio ruta_video)))
        ∧ (o_write_audiofile env = EA_sin_archivo →
           fs w' !! ruta_audio = fs w !! ruta_audio))
       ∨ (r = None ∧ ¬ extraccion_devuelve env)).
Proof.
  destruct (extraer_casos env ruta_video ruta_audio w) as (r & w' & Hrun & _ & Hr).
  exists r, w'. split; [exact Hrun|].
  destruct Hr as [[-> Hno]|(-> & Hok & ->)].
  - right. split; [reflexivity|exact Hno].
  - left. split; [reflexivity|]. split; [exact Hok|].
    cbn [con_registro fs]. split; [reflexivity|].
    unfold fs_tras_extraccion.
    split; [|split].
    + intros Hd. rewrite Hd. exact Hd.
    + intros Hd Hw. rewrite Hw.
      destruct (fs w !! ruta_audio) as [[|c]|]; [contradiction|apply lookup_insert_eq..].
    + intros Hw. rewrite Hw.
      destruct (fs w !! ruta_audio) as [[|c]|] eqn:E; cbn iota; rewrite E; reflexivity.
Qed.

(** X2. [transcribir_audio_con_segmentos_local] never raises.  It
    returns [None] exactly when loading the model or the transcription
    raises (a missing file or anything else); a result without the key
    'segments' gives the empty list. *)
Theorem X2_transcribir_nunca_lanza (env : entorno) (ruta_audio modelo : str)
    (idioma : option str) (w : mundo) :
  ∃ r w',
    transcribir_audio_con_segmentos_local env ruta_audio modelo idioma w = (Ret r, w')
    ∧ r = match o_load_model env, o_transcribe env with
          | None, T_dict (Some segments) => Some segments
          | None, T_dict None => Some []
          | _, _ => None
          end.
Proof.
  destruct (transcribir_casos env ruta_audio modelo idioma w) as [l H].
  do 2 eexists. split; [exact H|].
  unfold segmentos_del_motor.
  destruct (o_load_model env); [reflexivity|].
  destruct (o_transcribe env) as [[s|]|]; reflexivity.
Qed.

(** ** The handler *)

(** A request that passes every validation reaches the orchestrator;
    whatever the orchestrator does, the handler answers. *)
Lemma endpoint_tras_validar env campos v o w :
  dict_get campos (lit "ruta_video_entrada") = JStr v → v ≠ [] →
  dict_get campos (lit "ruta_json_salida") = JStr o → o ≠ [] →
  is_Some (fs w !! v) →
  (dirname o = [] ∨ is_Some (fs w !! dirname o) ∨ o_makedirs env = true) →
  ∃ w1, fs w1 = fs_con_directorio (fs w) (dirname o)
    ∧ ∀ r w2, procesar_video_a_json env v o w1 = (r, w2) →
        endpoint_procesar_video env {| is_json := true; cuerpo := Some (JObj campos) |} w =
          (Ret (desenlace env (JStr v) (JStr o) r).1,
           con_registro w2 (fs w2) [(desenlace env (JStr v) (JStr o) r).2]).
Proof.
  intros Hv Hne Ho Hno Hex Hdir.
  unfold endpoint_procesar_video, get_json, data_get, os_path_exists, fspath, llamar_procesar.
  cbn [is_json cuerpo negb].
  reducir. rewrite Hv, Ho. cbn [truthy].
  rewrite !bool_decide_eq_false_2 by assumption. cbn [negb orb]. reducir.
  rewrite (bool_decide_eq_true_2 _ Hex). cbn [negb]. reducir.
  unfold fs_con_directorio.
  destruct (bool_decide (dirname o = [])) eqn:Hd; reducir.
  - elegir_mundo; split; [reflexivity|]; intros r w2 H2; rewrite H2;
      destruct r as [[|]|e]; reflexivity.
  - destruct (bool_decide (is_Some (fs w !! dirname o))) eqn:Hd2; cbn [negb orb]; reducir.
    + elegir_mundo; split; [reflexivity|]; intros r w2 H2; rewrite H2;
        destruct r as [[|]|e]; reflexivity.
    + destruct Hdir as [Hdir|[Hdir|Hdir]].
      * apply bool_decide_eq_false_1 in Hd. contradiction.
      * apply bool_decide_eq_false_1 in Hd2. contradiction.
      * unfold os_makedirs. rewrite Hdir. reducir.
        elegir_mundo; split; [reflexivity|]; intros r w2 H2; rewrite H2;
          destruct r as [[|]|e]; reflexivity.
Qed.

(** An absent key reads as [None], which is falsy. *)
Lemma dict_get_ausente campos k :
  (∀ x, (k, x) ∉ campos) → dict_get campos k = JNull.
Proof.
  induction campos as [|[k' x] resto IH]; intros H; [reflexivity|].
  cbn [dict_get]. case_bool_decide as Hk.
  - subst k'. exfalso. apply (H x). left.
  - apply IH. intros y Hy. apply (H y). right. exact Hy.
Qed.

Ltac partir :=
  match goal with
  | |- context[match ?x with _ => _ end] =>
      lazymatch x with
      | context[match _ with _ => _ end] => fail
      | _ => destruct x eqn:?
      end
  end.

(** Past the validation of the fields no answer carries status 400. *)
Lemma endpoint_no_400 env campos w c w' :
  truthy (dict_get campos (lit "ruta_video_entrada")) = true →
  truthy (dict_get campos (lit "ruta_json_salida")) = true →
  endpoint_procesar_video env {| is_json := true; cuerpo := Some (JObj campos) |} w
    ≠ (Ret (c, 400), w').
Proof.
  intros Hv Ho.
  unfold endpoint_procesar_video, get_json, data_get, os_path_exists, fspath,
    llamar_procesar, os_makedirs.
  cbn [is_json cuerpo negb]. reducir. rewrite Hv, Ho. cbn [negb orb]. reducir.
  clear Hv Ho.
  repeat first [ progress reducir | progress cbn [negb orb] | partir ];
    intros H; discriminate H.
Qed.

(** The two rejections of the handler. *)
Lemma endpoint_sin_json env data w :
  endpoint_procesar_video env {| is_json := false; cuerpo := data |} w =
    (Ret (jsonify_error (lit "La solicitud debe ser de tipo JSON"), 400),
     con_registro w (fs w) [(INFO, Solicitud_recibida); (ERROR, Solicitud_sin_JSON)]).
Proof.
  unfold endpoint_procesar_video. cbn [is_json negb]. reducir.
  unfold con_registro. rewrite <- !app_assoc. reflexivity.
Qed.

Lemma endpoint_faltan_parametros env campos w :
  truthy (dict_get campos (lit "ruta_video_entrada")) = false
  ∨ truthy (dict_get campos (lit "ruta_json_salida")) = false →
  endpoint_procesar_video env {| is_json := true; cuerpo := Some (JObj campos) |} w =
    (Ret respuesta_faltan_parametros,
     con_registro w (fs w) [(INFO, Solicitud_recibida); (ERROR, Parametros_faltantes)]).
Proof.
  intros Hf. unfold endpoint_procesar_video, get_json, data_get.
  cbn [is_json cuerpo negb]. reducir.
  destruct Hf as [Hf|Hf]; rewrite Hf; cbn [negb orb]; rewrite ?orb_true_r;
    reducir; unfold con_registro; rewrite <- !app_assoc; reflexivity.
Qed.

(** X3. The status 400 of the handler.  A request whose content type is
    not JSON, or whose JSON object lacks one of the two fields or holds
    a falsy value there (null, empty string, 0, false, empty list or
    object), is answered 400 with the file system untouched and without
    the orchestrator having run; and the handler returns 400 for no
    other request.  (A JSON content type with a body that does not
    parse makes [get_json] raise [BadRequest]: the handler returns
    nothing then.) *)
Theorem X3_respuesta_400 (env : entorno) (request : peticion) (w : mundo) :
  (peticion_rechazada request →
     ∃ c l, endpoint_procesar_video env request w = (Ret (c, 400), con_registro w (fs w) l)
       ∧ ∀ v, (INFO, Iniciando_procesamiento v) ∉ l)
  ∧ (∀ c w', endpoint_procesar_video env request w = (Ret (c, 400), w') →
       peticion_rechazada request)
  ∧ (is_json request = true → cuerpo request = None →
     endpoint_procesar_video env request w
     = (Raise BadRequest, con_registro w (fs w) [(INFO, Solicitud_recibida)])).
Proof.
  assert (Hlog : ∀ m v, (INFO, Iniciando_procesamiento v)
                   ∉ [(INFO, Solicitud_recibida); (ERROR, m)]).
  { intros m v Hv. rewrite !elem_of_cons in Hv.
    destruct Hv as [Hv|[Hv|Hv]]; [discriminate..|inversion Hv]. }
  split.
  - intros [Hj|(campos & Hc & Hf)].
    + destruct request as [j data]. cbn [is_json] in Hj. subst j.
      do 2 eexists. split; [apply endpoint_sin_json|apply Hlog].
    + destruct request as [[|] data]; cbn [cuerpo] in Hc; subst data.
      * do 2 eexists. split; [apply (endpoint_faltan_parametros env campos w Hf)|apply Hlog].
      * do 2 eexists. split; [apply endpoint_sin_json|apply Hlog].
  - split.
    + intros c w' H. destruct request as [[|] data]; [|left; reflexivity].
      right. destruct data as [data|]; [|discriminate H].
      destruct data as [| | | | | |campos]; try discriminate H.
      exists campos. split; [reflexivity|].
      destruct (truthy (dict_get campos (lit "ruta_video_entrada"))) eqn:Hv;
        [|left; reflexivity].
      destruct (truthy (dict_get campos (lit "ruta_json_salida"))) eqn:Ho;
        [|right; reflexivity].
      exfalso. exact (endpoint_no_400 env campos w c w' Hv Ho H).
    + destruct request as [j data]. cbn [is_json cuerpo]. intros -> ->. reflexivity.
Qed.

(** A request without the field ruta_json_salida is rejected. *)
Lemma X3_respuesta_400_testigo :
  ∃ c l,
    endpoint_procesar_video (entorno_ej (T_dict None) true W_ok)
      {| is_json := true;
         cuerpo := Some (JObj [(lit "ruta_video_entrada", JStr ruta_video_ej)]) |}
      mundo_ej
    = (Ret (c, 400), con_registro mundo_ej (fs mundo_ej) l)
    ∧ ∀ v, (INFO, Iniciando_procesamiento v) ∉ l.
Proof.
  apply (proj1 (X3_respuesta_400 (entorno_ej (T_dict None) true W_ok)
                  {| is_json := true;
                     cuerpo := Some (JObj [(lit "ruta_video_entrada", JStr ruta_video_ej)]) |}
                  mundo_ej)).
  right. eexists. split; [reflexivity|]. right. vm_compute. reflexivity.
Defined.

(** The directories [os.makedirs] would have to create are absent. *)
Lemma directorios_faltantes_ausentes (n : nat) : ∀ (d : str) (f : gmap str nodo) (x : str),
  x ∈ directorios_faltantes n d f → f !! x = None.
Proof.
  induction n as [|n IH]; intros d f x; cbn [directorios_faltantes].
  - intros H. inversion H.
  - destruct (bool_decide (d = []) || bool_decide (is_Some (f !! d))) eqn:E.
    + intros H. inversion H.
    + intros H. apply elem_of_app in H. destruct H as [H|H].
      * exact (IH _ _ _ H).
      * apply list_elem_of_singleton in H. subst x.
        apply orb_false_iff in E. destruct E as [_ E].
        apply bool_decide_eq_false_1 in E.
        destruct (f !! d) eqn:Ed; [|reflexivity].
        exfalso. apply E. eexists. reflexivity.
Qed.

(** Creating a list of directories changes the entries of the list only. *)
Lemma crear_lista_casos (l : list str) (f : gmap str nodo) (q : str) :
  crear_lista l f !! q = f !! q
  ∨ (q ∈ l ∧ crear_lista l f !! q = Some Directorio).
Proof.
  induction l as [|a l IH]; cbn [crear_lista foldr].
  - left. reflexivity.
  - destruct (decide (q = a)) as [->|Hq].
    + right. split; [left|apply lookup_insert_eq].
    + rewrite lookup_insert_ne by congruence.
      destruct IH as [IH|[Hin IH]].
      * left. exact IH.
      * right. split; [right; exact Hin|exact IH].
Qed.

(** What a failed [os.makedirs] leaves: the entries there were, and
    possibly new directories. *)
Lemma makedirs_fallido_crea_directorios (k : nat) (d : str) (f : gmap str nodo) (q : str) :
  crear_lista (take k (directorios_faltantes (S (length d)) d f)) f !! q = f !! q
  ∨ (f !! q = None
     ∧ crear_lista (take k (directorios_faltantes (S (length d)) d f)) f !! q
       = Some Directorio).
Proof.
  destruct (crear_lista_casos (take k (directorios_faltantes (S (length d)) d f)) f q)
    as [H|[Hin H]].
  - left. exact H.
  - right. split; [|exact H].
    apply (directorios_faltantes_ausentes (S (length d)) d f).
    rewrite <- (take_drop k (directorios_faltantes (S (length d)) d f)).
    apply elem_of_app. left. exact Hin.
Qed.

(** X4. When the directory of the output path is missing and
    [os.makedirs] fails, the orchestrator is not called.  If the
    exception is an [OSError] the handler answers 500 with its text and
    logs the failure; any other exception (a [ValueError] for a path
    with a NUL character) leaves the handler.  [os.makedirs] may have
    created some of the missing directories before it failed: every
    entry of the file system is as before, or is a new directory. *)
Theorem X4_directorio_no_creado (env : entorno) (campos : list (str * json))
    (v o : str) (w : mundo) :
  dict_get campos (lit "ruta_video_entrada") = JStr v → v ≠ [] →
  dict_get campos (lit "ruta_json_salida") = JStr o → o ≠ [] →
  is_Some (fs w !! v) →
  dirname o ≠ [] → fs w !! dirname o = None →
  o_makedirs env = false →
  ∃ f',
    (∀ q, f' !! q = fs w !! q ∨ (fs w !! q = None ∧ f' !! q = Some Directorio))
    ∧ (o_mkdir_creados env = 0%nat → f' = fs w)
    ∧ endpoint_procesar_video env {| is_json := true; cuerpo := Some (JObj campos) |} w =
        if es_OSError (o_makedirs_error env)
        then (Ret (jsonify_error
                     (lit "No se pudo crear el directorio de salida para el JSON: "
                        ++ o_str env (o_makedirs_error env)), 500),
              con_registro w f'
                [ (INFO, Solicitud_recibida);
                  (INFO, Video_a_procesar (JStr v));
                  (INFO, JSON_de_salida (JStr o));
                  (ERROR, No_se_pudo_crear_directorio (dirname o) (o_makedirs_error env)) ])
        else (Raise (o_makedirs_error env),
              con_registro w f'
                [ (INFO, Solicitud_recibida);
                  (INFO, Video_a_procesar (JStr v));
                  (INFO, JSON_de_salida (JStr o)) ]).
Proof.
  intros Hv Hne Ho Hno Hex Hd Hnd Hmk.
  eexists. split; [|split]; cycle 2.
  - unfold endpoint_procesar_video, get_json, data_get, os_path_exists, fspath, os_makedirs.
    cbn [is_json cuerpo negb].
    reducir. rewrite Hv, Ho. cbn [truthy].
    rewrite !bool_decide_eq_false_2 by assumption. cbn [negb orb]. reducir.
    rewrite (bool_decide_eq_true_2 _ Hex). cbn [negb]. reducir.
    rewrite Hnd. rewrite bool_decide_eq_false_2 by (intros [? ?]; discriminate).
    cbn [negb]. rewrite Hmk. reducir.
    destruct (es_OSError (o_makedirs_error env)); reducir;
      unfold con_registro; rewrite <- !app_assoc; reflexivity.
  - intros q. apply makedirs_fallido_crea_directorios.
  - intros ->. reflexivity.
Qed.

Lemma X4_directorio_no_creado_testigo :
  ∃ c l,
    endpoint_procesar_video entorno_sin_permiso
      {| is_json := true;
         cuerpo := Some (JObj [ (lit "ruta_video_entrada", JStr ruta_video_ej);
                                (lit "ruta_json_salida", JStr (lit "/nuevo/charla.json")) ]) |}
      mundo_ej
    = (Ret (c, 500), con_registro mundo_ej (fs mundo_ej) l).
Proof.
  destruct (X4_directorio_no_creado entorno_sin_permiso
              [ (lit "ruta_video_entrada", JStr ruta_video_ej);
                (lit "ruta_json_salida", JStr (lit "/nuevo/charla.json")) ]
              ruta_video_ej (lit "/nuevo/charla.json") mundo_ej)
    as (f' & _ & Hf & H).
  - reflexivity.
  - discriminate.
  - reflexivity.
  - discriminate.
  - vm_compute. eexists. reflexivity.
  - vm_compute. discriminate.
  - vm_compute. reflexivity.
  - reflexivity.
  - rewrite (Hf eq_refl) in H. do 2 eexists. exact H.
Defined.

(** X5. Once the fields are validated, the video exists and the output
    directory is there (or can be created), the handler always answers
    and never raises: 200 exactly when the orchestrator returned [True],
    with a body that echoes both paths; 500 when it returned [False] or
    raised, and in the latter case the body carries the text of the
    exception.  The file system of the answer is the one the
    orchestrator left. *)
Theorem X5_endpoint_siempre_responde (env : entorno) (campos : list (str * json))
    (v o : str) (w : mundo) :
  dict_get campos (lit "ruta_video_entrada") = JStr v → v ≠ [] →
  dict_get campos (lit "ruta_json_salida") = JStr o → o ≠ [] →
  is_Some (fs w !! v) →
  (dirname o = [] ∨ is_Some (fs w !! dirname o) ∨ o_makedirs env = true) →
  ∃ w1, fs w1 = fs_con_directorio (fs w) (dirname o)
    ∧ ∃ c st l,
        endpoint_procesar_video env {| is_json := true; cuerpo := Some (JObj campos) |} w =
          (Ret (c, st),
           con_registro (procesar_video_a_json env v o w1).2
             (fs (procesar_video_a_json env v o w1).2) l)
        ∧ ((st = 200 ∧ (procesar_video_a_json env v o w1).1 = Ret true)
           ∨ (st = 500 ∧ (procesar_video_a_json env v o w1).1 ≠ Ret true))
        ∧ (st = 200 →
           c = JObj [ (lit "mensaje", JStr (lit "Video procesado exitosamente."));
                      (lit "ruta_video_entrada", JStr v);
                      (lit "ruta_json_salida", JStr o) ])
        ∧ ∀ e, (procesar_video_a_json env v o w1).1 = Raise e →
            c = jsonify_error (lit "Ocurri" ++ [243%N]
                                 ++ lit " un error inesperado en el servidor: "
                                 ++ o_str env e).
Proof.
  intros Hv Hne Ho Hno Hex Hdir.
  destruct (endpoint_tras_validar env campos v o w Hv Hne Ho Hno Hex Hdir) as (w1 & Hw1 & H).
  exists w1. split; [exact Hw1|].
  destruct (procesar_video_a_json env v o w1) as [r w2] eqn:E.
  rewrite (H r w2 eq_refl). cbn [fst snd].
  destruct r as [[|]|e]; cbn [desenlace fst snd respuesta_final respuesta_excepcion];
    do 3 eexists; (split; [reflexivity|]); (split; [|split]).
  - left. split; reflexivity.
  - reflexivity.
  - intros e He. discriminate He.
  - right. split; [reflexivity|discriminate].
  - discriminate.
  - intros e He. discriminate He.
  - right. split; [reflexivity|discriminate].
  - discriminate.
  - intros e' He. injection He as <-. reflexivity.
Qed.

Lemma X5_endpoint_siempre_responde_testigo :
  ∃ c st w',
    endpoint_procesar_video (entorno_ej (T_dict (Some segmentos_ej)) true W_ok)
      peticion_ej mundo_ej = (Ret (c, st), w')
    ∧ (st = 200 ∨ st = 500).
Proof.
  destruct (X5_endpoint_siempre_responde
              (entorno_ej (T_dict (Some segmentos_ej)) true W_ok)
              [ (lit "ruta_video_entrada", JStr ruta_video_ej);
                (lit "ruta_json_salida", JStr ruta_json_ej) ]
              ruta_video_ej ruta_json_ej mundo_ej)
    as (w1 & _ & c & st & l & H & Hst & _ & _).
  - reflexivity.
  - discriminate.
  - reflexivity.
  - discriminate.
  - vm_compute. eexists. reflexivity.
  - right. left. vm_compute. eexists. reflexivity.
  - exists c, st. eexists. split; [exact H|].
    destruct Hst as [[-> _]|[-> _]]; [left|right]; reflexivity.
Defined.

(** X6. An output path that is truthy but not a string (a number, true,
    a non-empty list or object) passes the validation; with an existing
    video the handler then raises [TypeError] from [os.path.dirname],
    before the [try] block, and gives no JSON answer.  The file system
    is untouched. *)
Theorem X6_ruta_salida_no_cadena (env : entorno) (campos : list (str * json))
    (v : str) (w : mundo) :
  dict_get campos (lit "ruta_video_entrada") = JStr v → v ≠ [] →
  truthy (dict_get campos (lit "ruta_json_salida")) = true →
  (∀ o, dict_get campos (lit "ruta_json_salida") ≠ JStr o) →
  is_Some (fs w !! v) →
  endpoint_procesar_video env {| is_json := true; cuerpo := Some (JObj campos) |} w =
    (Raise TypeError,
     con_registro w (fs w)
       [ (INFO, Solicitud_recibida);
         (INFO, Video_a_procesar (JStr v));
         (INFO, JSON_de_salida (dict_get campos (lit "ruta_json_salida"))) ]).
Proof.
  intros Hv Hne Ho Hns Hex.
  unfold endpoint_procesar_video, get_json, data_get, os_path_exists, fspath.
  cbn [is_json cuerpo negb].
  reducir. rewrite Hv, Ho. cbn [truthy].
  rewrite bool_decide_eq_false_2 by assumption. cbn [negb orb]. reducir.
  rewrite (bool_decide_eq_true_2 _ Hex). cbn [negb]. reducir.
  destruct (dict_get campos (lit "ruta_json_salida")) as [| | | |s| |] eqn:E;
    try (reducir; unfold con_registro; rewrite <- !app_assoc; reflexivity).
  exfalso. exact (Hns s eq_refl).
Qed.

Lemma X6_ruta_salida_no_cadena_testigo :
  ∃ l,
    endpoint_procesar_video (entorno_ej (T_dict None) true W_ok)
      {| is_json := true;
         cuerpo := Some (JObj [ (lit "ruta_video_entrada", JStr ruta_video_ej);
                                (lit "ruta_json_salida", JInt 7) ]) |}
      mundo_ej
    = (Raise TypeError, con_registro mundo_ej (fs mundo_ej) l).
Proof.
  eexists.
  apply (X6_ruta_salida_no_cadena _ _ ruta_video_ej).
  - reflexivity.
  - discriminate.
  - reflexivity.
  - intros o. vm_compute. discriminate.
  - vm_compute. eexists. reflexivity.
Defined.

(** ** The orchestrator *)

(** The formatter raises on NaN and on the infinities. *)
Lemma formatear_tiempo_no_finito x :
  no_finito x = true → formatear_tiempo x = Raise ValueError.
Proof.
  destruct x as [s|s| |s m e]; try discriminate; intros _.
  - destruct s; vm_compute; reflexivity.
  - vm_compute; reflexivity.
Qed.

(** The only exceptions of the formatter are those of [int]. *)
Lemma formatear_tiempo_excepciones x e :
  formatear_tiempo x = Raise e → e = ValueError ∨ e = OverflowError.
Proof.
  unfold formatear_tiempo, floor_div, rem.
  replace (no_cero (of_int 60)) with true by (vm_compute; reflexivity).
  cbn [negb mbind resultado_bind mret resultado_ret].
  repeat match goal with
         | |- context[to_int ?y] =>
             let E := fresh "E" in
             destruct (to_int y) eqn:E;
             [|unfold to_int in E;
               repeat match type of E with
                      | match ?z with _ => _ end = _ => destruct z
                      end;
               try discriminate E; injection E as <-; intros H; injection H as <-; tauto]
         end.
  discriminate.
Qed.

Lemma parrafo_excepciones i seg e :
  parrafo i seg = Raise e → e = ValueError ∨ e = OverflowError.
Proof.
  unfold parrafo. cbn [mbind resultado_bind mret resultado_ret].
  destruct (formatear_tiempo (start seg)) eqn:E1.
  - destruct (formatear_tiempo (end_ seg)) eqn:E2; [discriminate|].
    intros H. injection H as <-. exact (formatear_tiempo_excepciones _ _ E2).
  - intros H. injection H as <-. exact (formatear_tiempo_excepciones _ _ E1).
Qed.

Lemma formatear_segmentos_no_finito segs : ∀ i acc seg,
  seg ∈ segs →
  no_finito (start seg) = true ∨ no_finito (end_ seg) = true →
  ∃ e, formatear_segmentos i segs acc = Raise e ∧ (e = ValueError ∨ e = OverflowError).
Proof.
  induction segs as [|s resto IH]; intros i acc seg Hin Hnf.
  - inversion Hin.
  - cbn [formatear_segmentos mbind resultado_bind].
    destruct (parrafo i s) as [p|e] eqn:Ep.
    + apply elem_of_cons in Hin. destruct Hin as [->|Hin].
      * exfalso. revert Ep. unfold parrafo. cbn [mbind resultado_bind mret resultado_ret].
        destruct Hnf as [Hnf|Hnf].
        -- rewrite (formatear_tiempo_no_finito _ Hnf). discriminate.
        -- rewrite (formatear_tiempo_no_finito _ Hnf).
           destruct (formatear_tiempo (start s)); discriminate.
      * exact (IH (S i) (acc ++ [p]) seg Hin Hnf).
    + exists e. split; [reflexivity|]. exact (parrafo_excepciones i s e Ep).
Qed.

(** X10. When the engine reports a segment whose start or end time is
    NaN or infinite, the formatter raises on it ([int] of a NaN), and
    so does the orchestrator: with a [ValueError] or an
    [OverflowError], after the temporary file was cleaned up and
    before the output file is opened, so nothing is written. *)
Theorem X10_tiempo_no_finito (env : entorno) (ruta_video ruta_json : str) (w : mundo)
    (segs : list segmento) (seg : segmento) :
  extraccion_exitosa env (fs w) (ruta_audio_temporal env ruta_video) →
  segmentos_del_motor env = Some segs →
  seg ∈ segs →
  no_finito (start seg) = true ∨ no_finito (end_ seg) = true →
  (formatear_tiempo (S754_nan) = Raise ValueError
   ∧ ∀ s, formatear_tiempo (S754_infinity s) = Raise ValueError)
  ∧ ∃ e l,
      (e = ValueError ∨ e = OverflowError)
      ∧ procesar_video_a_json env ruta_video ruta_json w
        = (Raise e,
           con_registro w
             (fs_tras_limpieza env (fs w) ruta_video (ruta_audio_temporal env ruta_video))
             l).
Proof.
  intros Hok Hs Hin Hnf. split.
  - split; [|intros s]; apply formatear_tiempo_no_finito; reflexivity.
  - destruct (procesar_extraccion_exitosa env ruta_video ruta_json w Hok) as [l H].
    rewrite H, Hs.
    destruct segs as [|s0 resto]; [inversion Hin|].
    destruct (formatear_segmentos_no_finito (s0 :: resto) 0 [] seg Hin Hnf) as (e & He & Hee).
    match goal with
    | |- context[guardar env ruta_json (Some (s0 :: resto)) ?w0] =>
        destruct (guardar_segmentos env ruta_json s0 resto w0) as [l' Hg]
    end.
    rewrite He in Hg. rewrite Hg.
    exists e. eexists. split; [exact Hee|].
    unfold con_registro. cbn [fs registro]. rewrite <- app_assoc. reflexivity.
Qed.

Lemma X10_tiempo_no_finito_testigo :
  ∃ e w',
    procesar_video_a_json
      (entorno_ej (T_dict (Some [ {| start := of_int 0; end_ := S754_nan;
                                     text := lit "hola" |} ])) true W_ok)
      ruta_video_ej ruta_json_ej mundo_ej
    = (Raise e, w').
Proof.
  destruct (X10_tiempo_no_finito
    (entorno_ej (T_dict (Some [ {| start := of_int 0; end_ := S754_nan;
                                   text := lit "hola" |} ])) true W_ok)
    ruta_video_ej ruta_json_ej mundo_ej
    [ {| start := of_int 0; end_ := S754_nan; text := lit "hola" |} ]
    {| start := of_int 0; end_ := S754_nan; text := lit "hola" |})
    as (_ & e & l & _ & H).
  - unfold extraccion_exitosa. repeat split; vm_compute; discriminate.
  - reflexivity.
  - left.
  - right. reflexivity.
  - exists e. eexists. exact H.
Defined.

Lemma formatear_segmentos_excepciones segs : ∀ i acc e,
  formatear_segmentos i segs acc = Raise e → e = ValueError ∨ e = OverflowError.
Proof.
  induction segs as [|s resto IH]; intros i acc e; cbn [formatear_segmentos].
  - discriminate.
  - cbn [mbind resultado_bind]. destruct (parrafo i s) as [p|e'] eqn:Ep.
    + apply IH.
    + intros H. injection H as <-. exact (parrafo_excepciones i s e' Ep).
Qed.

(** X8. When a moviepy call of the extraction raises, the orchestrator
    returns [False] straight away: the model is not loaded, nothing is
    transcribed and nothing is cleaned up, so the world it leaves is the
    one the extractor left plus one log entry.  In particular what
    moviepy wrote at the temporary path before failing (a partial file
    when the write raised, the whole track when closing the clips
    raised) stays on disk. *)
Theorem X8_extraccion_fallida (env : entorno) (ruta_video ruta_json : str) (w : mundo) :
  ¬ extraccion_devuelve env →
  ∃ w1,
    extraer_audio_de_video env ruta_video (ruta_audio_temporal env ruta_video)
      (con_registro w (fs w) [(INFO, Iniciando_procesamiento (JStr ruta_video))])
    = (Ret None, w1)
    ∧ procesar_video_a_json env ruta_video ruta_json w
      = (Ret false, con_registro w1 (fs w1) [(ERROR, Fallo_extraccion)])
    ∧ (o_VideoFileClip env = None → o_audio env = true →
       fs w !! ruta_audio_temporal env ruta_video ≠ Some Directorio →
       match o_write_audiofile env with
       | EA_ok =>
           fs w1 !! ruta_audio_temporal env ruta_video = Some (Archivo (Audio ruta_video))
       | EA_falla _ true =>
           fs w1 !! ruta_audio_temporal env ruta_video
           = Some (Archivo (AudioParcial ruta_video))
       | EA_sin_archivo | EA_falla _ false =>
           fs w1 !! ruta_audio_temporal env ruta_video
           = fs w !! ruta_audio_temporal env ruta_video
       end).
Proof.
  intros Hno. set (a := ruta_audio_temporal env ruta_video) in *.
  set (w0 := con_registro w (fs w) [(INFO, Iniciando_procesamiento (JStr ruta_video))]).
  destruct (extraer_casos env ruta_video a w0) as (r & w1 & Hex & Hfs & Hr).
  destruct Hr as [[-> _]|(-> & Hok & _)]; [|exfalso; apply Hno; exact Hok].
  exists w1. split; [exact Hex|]. split.
  - rewrite procesar_pasos. fold a.
    erewrite bind_ret by reflexivity.
    fold w0. erewrite bind_ret by exact Hex.
    reflexivity.
  - intros H1 H2 H3. revert Hex. subst w0.
    unfold extraer_audio_de_video, VideoFileClip, write_audiofile, close_clips, con_registro.
    rewrite H1, H2. reducir. cbn [audio].
    destruct (fs w !! a) as [[|c]|] eqn:E3; [contradiction| |].
    all: destruct (o_write_audiofile env) as [| |e [|]] eqn:E4; reducir.
    all: try (destruct (o_close env) eqn:E5; reducir).
    all: rewrite ?E3; reducir.
    all: intros Hex; try discriminate Hex; injection Hex as <-; cbn [fs].
    all: rewrite ?lookup_insert_eq; try reflexivity; assumption.
Qed.

Lemma X8_extraccion_fallida_testigo :
  ∃ w',
    procesar_video_a_json entorno_audio_parcial ruta_video_ej ruta_json_ej mundo_ej
    = (Ret false, w').
Proof.
  destruct (X8_extraccion_fallida entorno_audio_parcial ruta_video_ej ruta_json_ej mundo_ej)
    as (w1 & _ & H & _).
  - intros (_ & _ & H & _). exact (H OSError true eq_refl).
  - eexists. exact H.
Defined.

(** The exception of the write that goes past the handlers. *)
Lemma escritura_lanza env f o doc b e :
  resultado_escritura b (efecto_open_dump env f o doc).1 = Raise e
  ↔ excepcion_de_escritura env f o = Some e.
Proof.
  unfold efecto_open_dump, excepcion_de_escritura.
  destruct (f !! o) as [[|c]|]; [|destruct (o_open_dump env)..];
    cbn [fst resultado_escritura es_OSError];
    split; intros H; try discriminate H; injection H as <-; reflexivity.
Qed.

(** The write of the placeholder lets the run return [True] unless it
    raises something else than an [OSError]. *)
Lemma escritura_vacia_exito env f o doc :
  resultado_escritura true (efecto_open_dump env f o doc).1 = Ret true
  ↔ excepcion_de_escritura env f o = None.
Proof.
  unfold efecto_open_dump, excepcion_de_escritura.
  destruct (f !! o) as [[|c]|]; [|destruct (o_open_dump env)..];
    cbn [fst resultado_escritura es_OSError];
    split; intros H; try discriminate H; reflexivity.
Qed.

(** The value the last step returns. *)
Lemma guardar_exito env o s w :
  (guardar env o s w).1 = Ret true ↔ ultimo_paso_exitoso env (fs w) o s.
Proof.
  destruct s as [[|seg resto]|]; cbn [ultimo_paso_exitoso].
  - destruct (guardar_vacio env o w) as [l H]. rewrite H. cbn [fst].
    apply escritura_vacia_exito.
  - destruct (guardar_segmentos env o seg resto w) as [l H].
    destruct (formatear_segmentos 0 (seg :: resto) []) as [docs|e]; rewrite H; cbn [fst].
    + rewrite <- (efecto_open_dump_exito env (fs w) o (JArr docs)).
      split.
      * intros Hb. split; [eexists; reflexivity|].
        exact (resultado_escritura_exito _ _ Hb eq_refl).
      * intros [_ Hb]. rewrite Hb. reflexivity.
    + split; [discriminate|]. intros [[docs Hd] _]. discriminate Hd.
  - rewrite guardar_fallo. cbn [fst]. split; [discriminate|contradiction].
Qed.

(** When the orchestrator returns [True]. *)
Lemma procesar_exito (env : entorno) (ruta_video ruta_json : str) (w : mundo) :
  (procesar_video_a_json env ruta_video ruta_json w).1 = Ret true
  ↔ extraccion_devuelve env
    ∧ ultimo_paso_exitoso env
        (fs_limpio env (fs w) ruta_video (ruta_audio_temporal env ruta_video))
        ruta_json (segmentos_del_motor env).
Proof.
  destruct (procesar_casos env ruta_video ruta_json w)
    as [(Hno & w' & H & _)|(Hok & l & H)].
  - rewrite H. cbn [fst]. split; [discriminate|]. intros [Hok _]. contradiction.
  - rewrite H, guardar_exito. cbn [con_registro fs]. tauto.
Qed.

(** X9. The orchestrator returns [True] exactly when every moviepy call
    of the extraction returned, the engine answered, and either it
    found no segment and the write of the placeholder raised nothing
    but an [OSError] (which is caught), or the segments were formatted
    and the output file was written.  So [True] does not always mean
    that the output file exists. *)
Theorem X9_exito_del_orquestador (env : entorno) (ruta_video ruta_json : str) (w : mundo) :
  (procesar_video_a_json env ruta_video ruta_json w).1 = Ret true
  ↔ extraccion_devuelve env
    ∧ ultimo_paso_exitoso env
        (fs_limpio env (fs w) ruta_video (ruta_audio_temporal env ruta_video))
        ruta_json (segmentos_del_motor env).
Proof. apply procesar_exito. Qed.

(** The exception the last step raises. *)
Lemma guardar_lanza env o s w e :
  (guardar env o s w).1 = Raise e
  ↔ ∃ segs, s = Some segs
      ∧ (formatear_segmentos 0 segs [] = Raise e
         ∨ ((∃ docs, formatear_segmentos 0 segs [] = Ret docs)
            ∧ excepcion_de_escritura env (fs w) o = Some e)).
Proof.
  destruct s as [[|seg resto]|].
  - destruct (guardar_vacio env o w) as [l H]. rewrite H. cbn [fst].
    rewrite escritura_lanza. split.
    + intros He. exists []. split; [reflexivity|]. right.
      split; [eexists; reflexivity|exact He].
    + intros (segs & Hs & [Hf|[_ He]]); injection Hs as <-; [discriminate Hf|exact He].
  - destruct (guardar_segmentos env o seg resto w) as [l H].
    destruct (formatear_segmentos 0 (seg :: resto) []) as [docs|e'] eqn:Ef;
      rewrite H; cbn [fst].
    + rewrite escritura_lanza. split.
      * intros He. eexists. split; [reflexivity|]. right. rewrite Ef.
        split; [eexists; reflexivity|exact He].
      * intros (segs & Hs & [Hf|[_ He]]); injection Hs as <-; [|exact He].
        rewrite Ef in Hf. discriminate Hf.
    + split.
      * intros He. injection He as <-. eexists. split; [reflexivity|]. left. exact Ef.
      * intros (segs & Hs & [Hf|[[docs Hd] _]]); injection Hs as <-.
        -- rewrite Ef in Hf. injection Hf as <-. reflexivity.
        -- rewrite Ef in Hd. discriminate Hd.
  - rewrite guardar_fallo. cbn [fst].
    split; [discriminate|]. intros (segs & Hs & _). discriminate Hs.
Qed.

(** X11. The orchestrator raises exactly when every moviepy call of the
    extraction returned, the engine answered, and either formatting the
    segments raises, or the write of the output file raises something
    that is not an [OSError]: the [ValueError] of [open] on a path with
    a NUL character, the [UnicodeEncodeError] of the write of a text
    that UTF-8 cannot encode.  So what leaves the orchestrator is a
    [ValueError], an [OverflowError] or a [UnicodeEncodeError], never
    an [OSError]: no error of moviepy, of the engine or of [os.remove]
    gets out. *)
Theorem X11_excepciones_del_orquestador (env : entorno) (ruta_video ruta_json : str)
    (w : mundo) (e : excepcion) :
  ((procesar_video_a_json env ruta_video ruta_json w).1 = Raise e
   ↔ extraccion_devuelve env
     ∧ ∃ segs, segmentos_del_motor env = Some segs
         ∧ (formatear_segmentos 0 segs [] = Raise e
            ∨ ((∃ docs, formatear_segmentos 0 segs [] = Ret docs)
               ∧ excepcion_de_escritura env
                   (fs_limpio env (fs w) ruta_video (ruta_audio_temporal env ruta_video))
                   ruta_json
                 = Some e)))
  ∧ ((procesar_video_a_json env ruta_video ruta_json w).1 = Raise e →
     (e = ValueError ∨ e = OverflowError ∨ e = UnicodeEncodeError)
     ∧ es_OSError e = false).
Proof.
  assert (H : (procesar_video_a_json env ruta_video ruta_json w).1 = Raise e
              ↔ extraccion_devuelve env
                ∧ ∃ segs, segmentos_del_motor env = Some segs
                    ∧ (formatear_segmentos 0 segs [] = Raise e
                       ∨ ((∃ docs, formatear_segmentos 0 segs [] = Ret docs)
                          ∧ excepcion_de_escritura env
                              (fs_limpio env (fs w) ruta_video
                                 (ruta_audio_temporal env ruta_video))
                              ruta_json
                            = Some e))).
  { destruct (procesar_casos env ruta_video ruta_json w)
      as [(Hno & w' & H & _)|(Hok & l & H)].
    - rewrite H. cbn [fst]. split; [discriminate|]. intros [Hok _]. contradiction.
    - rewrite H, guardar_lanza. cbn [con_registro fs]. tauto. }
  split; [exact H|].
  intros He. apply H in He. destruct He as (_ & segs & _ & [Hf|[_ Hw] ]).
  - destruct (formatear_segmentos_excepciones segs 0 [] e Hf) as [-> | ->];
      split; [left|reflexivity|right; left|reflexivity]; reflexivity.
  - revert Hw. unfold excepcion_de_escritura.
    destruct (fs_limpio _ _ _ _ !! ruta_json) as [[|c]|];
      [|destruct (o_open_dump env)..]; intros Hw; try discriminate Hw;
      injection Hw as <-; split; try reflexivity; [left|right; right| left|right; right];
      reflexivity.
Qed.

(** ** The shape of the MM:SS field *)

(** X12. For a time 0 <= s < 2^53 the MM:SS field reads the whole
    seconds of s: the minutes are floor(s) div 60 and the seconds
    floor(s) mod 60.  The seconds always take two digits, the minutes
    at least two and exactly two below 6000 seconds (then the field is
    five characters long), and but for the colon every character is a
    decimal digit. *)
Theorem X12_forma_MMSS (x : float) :
  valid_binary 53 1024 x = true →
  SFleb (S754_zero false) x = true →
  SFltb x (of_int (2 ^ 53)) = true →
  formatear_tiempo x
  = Ret (format_02d (Qfloor (valor x) / 60) ++ lit ":"
           ++ format_02d (Qfloor (valor x) mod 60))
  ∧ length (format_02d (Qfloor (valor x) mod 60)) = 2%nat
  ∧ (2 <= length (format_02d (Qfloor (valor x) / 60)))%nat
  ∧ (Qfloor (valor x) < 6000 → length (format_02d (Qfloor (valor x) / 60)) = 2%nat)
  ∧ Forall (λ c, es_digito c = true)
      (format_02d (Qfloor (valor x) / 60) ++ format_02d (Qfloor (valor x) mod 60)).
Proof.
  intros Hv Hle Hlt.
  pose proof (Qfloor_valor_no_negativo x Hle) as Ht.
  set (t := Qfloor (valor x)) in *.
  assert (Hm : 0 <= t / 60) by (apply Z.div_pos; lia).
  assert (Hs : 0 <= t mod 60 < 60) by (apply Z.mod_pos_bound; lia).
  split; [|split; [|split; [|split]]].
  - rewrite (formatear_tiempo_trunca x Hv Hle Hlt).
    rewrite minutos_enteros_div, segundos_enteros_mod. reflexivity.
  - apply format_02d_dos. lia.
  - apply format_02d_ancho, Hm.
  - intros H6. apply format_02d_dos. split; [exact Hm|].
    apply Z.div_lt_upper_bound; lia.
  - apply Forall_app. split; apply format_02d_digitos; lia.
Qed.

Lemma X12_forma_MMSS_testigo :
  formatear_tiempo (of_decimal 36615 1) = Ret (lit "61:01").
Proof.
  destruct (X12_forma_MMSS (of_decimal 36615 1)) as (H & _).
  - vm_compute. reflexivity.
  - vm_compute. reflexivity.
  - vm_compute. reflexivity.
  - rewrite H. vm_compute. reflexivity.
Defined.

(** ** The temporary audio path *)

(** [rfind]: the index returned holds the character, and the character
    does not occur after it. *)
Lemma rfind_desde_spec (c : N) (s : str) : ∀ i ultimo,
  ((c ∉ s) ∧ rfind_desde c s i ultimo = ultimo)
  ∨ ∃ k : nat, rfind_desde c s i ultimo = i + Z.of_nat k
      ∧ s !! k = Some c ∧ c ∉ drop (S k) s.
Proof.
  induction s as [|x s IH]; intros i ultimo; cbn [rfind_desde].
  - left. split; [apply not_elem_of_nil|reflexivity].
  - destruct (IH (i + 1) (if (x =? c)%N then i else ultimo)) as [[Hno Hr]|(k & Hr & Hk & Hd)].
    + rewrite Hr. destruct (N.eqb_spec x c) as [->|Hxc].
      * right. exists 0%nat. split; [lia|]. split; [reflexivity|]. exact Hno.
      * left. split; [|reflexivity]. rewrite not_elem_of_cons. split; [congruence|exact Hno].
    + right. exists (S k). split; [rewrite Hr; lia|]. split; [exact Hk|exact Hd].
Qed.

Lemma rfind_spec (s : str) (c : N) :
  ((c ∉ s) ∧ rfind s c = -1)
  ∨ ∃ k : nat, rfind s c = Z.of_nat k ∧ s !! k = Some c ∧ c ∉ drop (S k) s.
Proof.
  unfold rfind. destruct (rfind_desde_spec c s 0 (-1)) as [H|(k & Hr & H)]; [left; exact H|].
  right. exists k. rewrite Hr. split; [lia|exact H].
Qed.

(** [os.path.basename] returns a name without separator. *)
Lemma basename_sin_barra (p : str) : barra ∉ basename p.
Proof.
  unfold basename. destruct (rfind_spec p barra) as [[Hno ->]|(k & -> & _ & Hd)].
  - exact Hno.
  - replace (Z.to_nat (Z.of_nat k + 1)) with (S k) by lia. exact Hd.
Qed.

(** The root that [os.path.splitext] returns is made of characters of
    its argument. *)
Lemma splitext_raiz (p : str) (c : N) : c ∈ (splitext p).1 → c ∈ p.
Proof.
  unfold splitext.
  destruct (_ && _); cbn [fst]; [|tauto].
  intros H. apply elem_of_take in H. destruct H as (i & H & _).
  eapply list_elem_of_lookup_2, H.
Qed.

Lemma digitos_sin_barra (u : Decimal.uint) : barra ∉ digitos u.
Proof.
  intros H. pose proof (digitos_es_digito u) as Hd.
  rewrite Forall_forall in Hd. specialize (Hd barra H). discriminate Hd.
Qed.

Lemma tmp_sin_barra env v : barra ∉ ruta_audio_temporal env v.
Proof.
  unfold ruta_audio_temporal. cbv zeta.
  rewrite !not_elem_of_app. repeat split.
  - vm_compute. intros H. repeat (apply elem_of_cons in H; destruct H as [H|H]; [discriminate H|]).
    inversion H.
  - intros H. apply splitext_raiz in H. exact (basename_sin_barra v H).
  - vm_compute. intros H. repeat (apply elem_of_cons in H; destruct H as [H|H]; [discriminate H|]).
    inversion H.
  - unfold str_of_int. destruct (Z.of_N (o_getpid env)) eqn:E; try apply digitos_sin_barra.
    pose proof (N2Z.is_nonneg (o_getpid env)). lia.
  - vm_compute. intros H. repeat (apply elem_of_cons in H; destruct H as [H|H]; [discriminate H|]).
    inversion H.
Qed.

Lemma digitos_inj (u u' : Decimal.uint) : digitos u = digitos u' → u = u'.
Proof.
  revert u'. induction u; intros u'; destruct u'; cbn [digitos]; intros H;
    try discriminate H; try reflexivity;
    injection H as H; f_equal; apply IHu; exact H.
Qed.

Lemma str_of_int_N_inj (n n' : N) :
  str_of_int (Z.of_N n) = str_of_int (Z.of_N n') → n = n'.
Proof.
  assert (Hs : ∀ k, str_of_int (Z.of_N k) = digitos (N.to_uint k)).
  { intros k. unfold str_of_int. destruct k as [|p]; cbn [Z.of_N]; [reflexivity|].
    rewrite Z2N.inj_pos. reflexivity. }
  rewrite !Hs. intros H. apply DecimalN.Unsigned.to_uint_inj, digitos_inj, H.
Qed.

(** The shape of the temporary path: what comes before the extension. *)
Lemma tmp_forma env v :
  ruta_audio_temporal env v
  = (lit "audio_temporal_para_" ++ (splitext (basename v)).1 ++ lit "_"
       ++ str_of_int (Z.of_N (o_getpid env)))
      ++ punto :: lit "mp3".
Proof. unfold ruta_audio_temporal. cbv zeta. rewrite <- !app_assoc. reflexivity. Qed.

Lemma basename_sin_directorio (p : str) : barra ∉ p → basename p = p.
Proof.
  intros Hno. unfold basename.
  destruct (rfind_spec p barra) as [[_ ->]|(k & _ & Hk & _)]; [reflexivity|].
  exfalso. apply Hno. eapply list_elem_of_lookup_2, Hk.
Qed.

(** The temporary path is never the path of the video. *)
Lemma tmp_distinta_del_video env v : ruta_audio_temporal env v ≠ v.
Proof.
  intros Heq.
  assert (Hnb : barra ∉ v) by (rewrite <- Heq; apply tmp_sin_barra).
  rewrite tmp_forma, (basename_sin_directorio v Hnb) in Heq.
  set (d := str_of_int (Z.of_N (o_getpid env))) in *.
  set (base := (splitext v).1) in *.
  set (A := lit "audio_temporal_para_" ++ base ++ lit "_" ++ d) in *.
  assert (HA : (length base < length A)%nat).
  { unfold A. rewrite !length_app.
    change (length (lit "audio_temporal_para_")) with 20%nat. lia. }
  pose proof (list_lookup_middle A (lit "mp3") punto (length A) eq_refl) as Hdot.
  pose proof (f_equal length Heq) as Hlen. rewrite length_app in Hlen.
  rewrite Heq in Hdot.
  assert (Hbase : base = v ∨ ∃ k : nat, base = take k v ∧ v !! k = Some punto
                                         ∧ punto ∉ drop (S k) v).
  { unfold base, splitext.
    destruct (_ && _); cbn [fst]; [|left; reflexivity].
    destruct (rfind_spec v punto) as [[Hno _]|(k & -> & Hk & Hd)].
    - exfalso. apply Hno. eapply list_elem_of_lookup_2, Hdot.
    - right. exists k. rewrite Nat2Z.id. auto. }
  destruct Hbase as [Hb|(k & Hb & Hk & Hd)].
  - rewrite Hb in HA. lia.
  - apply Hd. apply (list_elem_of_lookup_2 _ (length A - S k)).
    rewrite lookup_drop.
    assert (Hkl : (length base <= k)%nat).
    { rewrite Hb, length_take. apply lookup_lt_Some in Hk. lia. }
    replace (S k + (length A - S k))%nat with (length A); [exact Hdot|].
    assert (length base = k) by (rewrite Hb, length_take; apply lookup_lt_Some in Hk; lia).
    lia.
Qed.

(** X13. The temporary audio path.  It holds no path separator, so the
    file is created in the working directory of the process, whatever
    the directory of the video; it is never the path of the video, so
    the extraction cannot overwrite its input; for one video two
    processes (two pids) get two different paths; and within one
    process two videos get the same path exactly when their file names
    have the same root, whatever their directories and extensions. *)
Theorem X13_ruta_audio_temporal (env env' : entorno) (ruta_video ruta_video' : str) :
  (barra ∉ ruta_audio_temporal env ruta_video)
  ∧ basename (ruta_audio_temporal env ruta_video) = ruta_audio_temporal env ruta_video
  ∧ ruta_audio_temporal env ruta_video ≠ ruta_video
  ∧ (ruta_audio_temporal env ruta_video = ruta_audio_temporal env' ruta_video
     ↔ o_getpid env = o_getpid env')
  ∧ (ruta_audio_temporal env ruta_video = ruta_audio_temporal env ruta_video'
     ↔ (splitext (basename ruta_video)).1 = (splitext (basename ruta_video')).1).
Proof.
  split; [apply tmp_sin_barra|].
  split; [apply basename_sin_directorio, tmp_sin_barra|].
  split; [apply tmp_distinta_del_video|].
  split; split.
  - unfold ruta_audio_temporal. cbv zeta. intros H.
    apply app_inv_head in H. apply app_inv_head in H. apply app_inv_head in H.
    apply app_inv_tail in H. apply str_of_int_N_inj, H.
  - intros H. unfold ruta_audio_temporal. rewrite H. reflexivity.
  - unfold ruta_audio_temporal. cbv zeta. intros H.
    apply app_inv_head in H. apply app_inv_tail in H. exact H.
  - intros H. unfold ruta_audio_temporal. cbv zeta. rewrite H. reflexivity.
Qed.

(** ** The records of the output document *)

(** X15. In the document of a run that wrote its output, the record of
    the i-th segment holds six fields, in this order: the id, the
    stripped text, the two times rounded to the millisecond, and the
    two MM:SS fields, which are formatted from the times as the engine
    gave them, not from the rounded ones. *)
Theorem X15_registro_de_parrafo (env : entorno) (ruta_video ruta_json : str)
    (w w' : mundo) (segs : list segmento) :
  o_transcribe env = T_dict (Some segs) →
  segs ≠ [] →
  procesar_video_a_json env ruta_video ruta_json w = (Ret true, w') →
  ∃ docs,
    fs w' !! ruta_json = Some (Archivo (Json (JArr docs)))
    ∧ ∀ i seg, segs !! i = Some seg →
        ∃ ini fin,
          formatear_tiempo (start seg) = Ret ini
          ∧ formatear_tiempo (end_ seg) = Ret fin
          ∧ docs !! i
            = Some (JObj
                [ (lit "id_parrafo", JInt (Z.of_nat i + 1));
                  (lit "parrafo_texto", JStr (strip (text seg)));
                  (lit "tiempo_inicio_segundos", JFloat (round (start seg) 3));
                  (lit "tiempo_fin_segundos", JFloat (round (end_ seg) 3));
                  (lit "tiempo_inicio_formato_MMSS", JStr ini);
                  (lit "tiempo_fin_formato_MMSS", JStr fin) ]).
Proof.
  intros Ht Hne Hrun.
  destruct (procesar_documento env ruta_video ruta_json w w' segs Ht Hne Hrun)
    as (docs & Hfs & _ & Hdocs).
  exists docs. split; [exact Hfs|exact Hdocs].
Qed.

Lemma X15_registro_de_parrafo_testigo :
  ∃ docs,
    fs (procesar_video_a_json (entorno_ej (T_dict (Some segmentos_ej)) true W_ok)
          ruta_video_ej ruta_json_ej mundo_ej).2 !! ruta_json_ej
      = Some (Archivo (Json (JArr docs)))
    ∧ docs !! 1%nat
      = Some (JObj
          [ (lit "id_parrafo", JInt 2);
            (lit "parrafo_texto", JStr (lit "Gracias."));
            (lit "tiempo_inicio_segundos", JFloat (of_decimal 1235 3));
            (lit "tiempo_fin_segundos", JFloat (of_decimal 599 1));
            (lit "tiempo_inicio_formato_MMSS", JStr (lit "00:01"));
            (lit "tiempo_fin_formato_MMSS", JStr (lit "00:59")) ]).
Proof.
  destruct (X15_registro_de_parrafo
              (entorno_ej (T_dict (Some segmentos_ej)) true W_ok)
              ruta_video_ej ruta_json_ej mundo_ej
              (procesar_video_a_json (entorno_ej (T_dict (Some segmentos_ej)) true W_ok)
                 ruta_video_ej ruta_json_ej mundo_ej).2
              segmentos_ej)
    as (docs & Hfs & Hdocs).
  - reflexivity.
  - discriminate.
  - vm_compute. reflexivity.
  - exists docs. split; [exact Hfs|].
    destruct (Hdocs 1%nat _ eq_refl) as (ini & fin & Hi & Hf & Hd).
    rewrite Hd.
    vm_compute in Hi. vm_compute in Hf.
    injection Hi as <-. injection Hf as <-.
    vm_compute. reflexivity.
Defined.

(** ** From the request to the status 200 *)

(** X16. For a request with two non-empty string fields, an existing
    video and an output directory that exists or can be created, the
    handler answers 200 exactly when the orchestrator returns [True]:
    every moviepy call of the extraction returns, the engine answers,
    and either it found no segment and the write of the placeholder
    raises nothing but an [OSError], or the segments are formatted and
    the output file is written.  So a 200 with no segment found does
    not tell that the output file exists. *)
Theorem X16_respuesta_200 (env : entorno) (campos : list (str * json))
    (v o : str) (w : mundo) :
  dict_get campos (lit "ruta_video_entrada") = JStr v → v ≠ [] →
  dict_get campos (lit "ruta_json_salida") = JStr o → o ≠ [] →
  is_Some (fs w !! v) →
  (dirname o = [] ∨ is_Some (fs w !! dirname o) ∨ o_makedirs env = true) →
  (∃ c w',
     endpoint_procesar_video env {| is_json := true; cuerpo := Some (JObj campos) |} w
     = (Ret (c, 200), w'))
  ↔ extraccion_devuelve env
    ∧ ultimo_paso_exitoso env
        (fs_limpio env (fs_con_directorio (fs w) (dirname o)) v
           (ruta_audio_temporal env v))
        o (segmentos_del_motor env).
Proof.
  intros Hv Hne Ho Hno Hex Hdir.
  destruct (endpoint_tras_validar env campos v o w Hv Hne Ho Hno Hex Hdir) as (w1 & Hw1 & H).
  rewrite <- Hw1, <- procesar_exito.
  destruct (procesar_video_a_json env v o w1) as [r w2] eqn:E.
  rewrite (H r w2 eq_refl). cbn [fst].
  destruct r as [[|]|e]; cbn [desenlace fst respuesta_final respuesta_excepcion].
  - split; [reflexivity|]. intros _. do 2 eexists. reflexivity.
  - split; [|discriminate]. intros (c & w' & Hc). discriminate Hc.
  - split; [|discriminate]. intros (c & w' & Hc). discriminate Hc.
Qed.

Lemma X16_respuesta_200_testigo :
  ∃ c w',
    endpoint_procesar_video (entorno_ej (T_dict (Some segmentos_ej)) true W_ok)
      peticion_ej mundo_ej
    = (Ret (c, 200), w').
Proof.
  apply (X16_respuesta_200 (entorno_ej (T_dict (Some segmentos_ej)) true W_ok)
           [ (lit "ruta_video_entrada", JStr ruta_video_ej);
             (lit "ruta_json_salida", JStr ruta_json_ej) ]
           ruta_video_ej ruta_json_ej mundo_ej).
  - reflexivity.
  - discriminate.
  - reflexivity.
  - discriminate.
  - vm_compute. eexists. reflexivity.
  - right. left. vm_compute. eexists. reflexivity.
  - split.
    + unfold extraccion_devuelve.
      split; [reflexivity|]. split; [reflexivity|]. split; [|reflexivity].
      intros e b. discriminate.
    + cbn [ultimo_paso_exitoso segmentos_del_motor]. vm_compute.
      split; [eexists; reflexivity|]. split; [reflexivity|discriminate].
Defined.

(** ** A video path of another type *)

(** X17. A video path that is truthy but not a string.  A number
    with a fractional part, a non-empty list or a non-empty object
    makes [os.path.exists] raise [TypeError] at the existence check,
    before the [try] block: the handler gives no JSON answer and
    nothing has happened.  An integer is taken by [os.path.exists] as a
    file descriptor: when that descriptor is open the request passes
    the check, the output directory is created if need be, and the
    orchestrator raises [TypeError] on its first path operation, which
    the handler turns into a 500 answer. *)
Theorem X17_ruta_video_no_cadena (env : entorno) (campos : list (str * json)) (w : mundo) :
  truthy (dict_get campos (lit "ruta_video_entrada")) = true →
  truthy (dict_get campos (lit "ruta_json_salida")) = true →
  (match dict_get campos (lit "ruta_video_entrada") with
   | JFloat _ | JArr _ | JObj _ => True
   | _ => False
   end →
   endpoint_procesar_video env {| is_json := true; cuerpo := Some (JObj campos) |} w =
     (Raise TypeError,
      con_registro w (fs w)
        [ (INFO, Solicitud_recibida);
          (INFO, Video_a_procesar (dict_get campos (lit "ruta_video_entrada")));
          (INFO, JSON_de_salida (dict_get campos (lit "ruta_json_salida"))) ]))
  ∧ (∀ z o,
       dict_get campos (lit "ruta_video_entrada") = JInt z →
       o_fd_abierto env z = true →
       dict_get campos (lit "ruta_json_salida") = JStr o →
       (dirname o = [] ∨ is_Some (fs w !! dirname o) ∨ o_makedirs env = true) →
       ∃ l,
         endpoint_procesar_video env {| is_json := true; cuerpo := Some (JObj campos) |} w =
           (Ret (respuesta_excepcion env TypeError),
            con_registro w (fs_con_directorio (fs w) (dirname o)) l)
         ∧ (INFO, Iniciando_procesamiento (JInt z)) ∈ l
         ∧ (ERROR, Error_inesperado_endpoint TypeError) ∈ l).
Proof.
  intros Hv Ho. split.
  - intros Ht.
    unfold endpoint_procesar_video, get_json, data_get, os_path_exists.
    cbn [is_json cuerpo negb]. reducir. rewrite Hv, Ho. cbn [negb orb]. reducir.
    destruct (dict_get campos (lit "ruta_video_entrada")); try contradiction;
      reducir; unfold con_registro; rewrite <- !app_assoc; reflexivity.
  - intros z o Ez Hfd Eo Hdir.
    unfold endpoint_procesar_video, get_json, data_get, os_path_exists, fspath,
      llamar_procesar, os_makedirs.
    cbn [is_json cuerpo negb]. reducir. rewrite Hv, Ho. cbn [negb orb]. reducir.
    rewrite Ez, Eo. reducir.
    pose proof (o_fd_rango env z Hfd) as Hrango.
    replace ((-2147483648 <=? z) && (z <? 2147483648)) with true
      by (symmetry; apply andb_true_intro; split; [apply Z.leb_le|apply Z.ltb_lt]; lia).
    reducir. rewrite Hfd. cbn [negb]. reducir.
    unfold fs_con_directorio, respuesta_excepcion.
    destruct (bool_decide (dirname o = [])) eqn:Hd; reducir; cbn [orb].
    + eexists. split; [unfold con_registro; rewrite <- !app_assoc; reflexivity|].
      cbn [app]. rewrite !elem_of_cons.
      split; repeat first [left; reflexivity | right].
    + destruct (bool_decide (is_Some (fs w !! dirname o))) eqn:Hd2; cbn [negb orb]; reducir.
      * eexists. split; [unfold con_registro; rewrite <- !app_assoc; reflexivity|].
        cbn [app]. rewrite !elem_of_cons.
      split; repeat first [left; reflexivity | right].
      * destruct Hdir as [Hdir|[Hdir|Hdir]].
        -- apply bool_decide_eq_false_1 in Hd. contradiction.
        -- apply bool_decide_eq_false_1 in Hd2. contradiction.
        -- rewrite Hdir. reducir.
           eexists. split; [unfold con_registro; rewrite <- !app_assoc; reflexivity|].
           cbn [app]. rewrite !elem_of_cons.
      split; repeat first [left; reflexivity | right].
Qed.

Lemma X17_ruta_video_no_cadena_testigo :
  endpoint_procesar_video (entorno_ej (T_dict None) true W_ok)
    {| is_json := true;
       cuerpo := Some (JObj [ (lit "ruta_video_entrada", JArr [JStr ruta_video_ej]);
                              (lit "ruta_json_salida", JStr ruta_json_ej) ]) |}
    mundo_ej
  = (Raise TypeError,
     con_registro mundo_ej (fs mundo_ej)
       [ (INFO, Solicitud_recibida);
         (INFO, Video_a_procesar (JArr [JStr ruta_video_ej]));
         (INFO, JSON_de_salida (JStr ruta_json_ej)) ]).
Proof.
  refine (proj1 (X17_ruta_video_no_cadena (entorno_ej (T_dict None) true W_ok)
                   [ (lit "ruta_video_entrada", JArr [JStr ruta_video_ej]);
                     (lit "ruta_json_salida", JStr ruta_json_ej) ]
                   mundo_ej _ _) _).
  - reflexivity.
  - reflexivity.
  - exact I.
Defined.
